(* ===== verification/_CoqProject ===== *)
-Q . S2P
Prelude.v
Decimal.v
Json.v
JsonEncode.v
Counter.v
Stats.v
GroupBy.v
Source.v
JsonDecode.v
JsonRoundtrip.v
Loads.v
Frame.v
Aggregate.v
Report.v
Persistence.v
Pipeline.v
