(* ===== verification/Prelude.v ===== *)
(** * fakerest-test ([src/task.py]): a verification development

    ** The program

    [src/task.py] is a one-shot batch script.  It fetches a newline-
    delimited JSON feed of people ([get_data], lines 21-47), turns the
    records into a pandas frame with [pd.json_normalize] and checks the
    frame ([check_dataframe], lines 125-142), computes six statistics
    ([process_json], lines 70-122), prints them ([print_results], lines
    145-163) and writes them to [answer.json]
    ([save_dataframe_to_json], lines 166-171), in the [__main__] block
    (lines 175-188).  [save_json] and [load_json] (lines 50-67) are
    helpers for testing.  The parts run in a line: source, validator,
    aggregator, presentation, persistence.  Every failure ends the run:
    the source calls [exit(-1)] on a line that is not JSON, the
    validator path calls [exit(-1)], and everything else is an uncaught
    exception (exit status 1).

    ** Files, and what each models

    - [Prelude] (this file): the effect monad [PyM] of a Python run (the
      printed lines [msg], then a return value, an [exit(code)] or an
      uncaught exception [exn]), its notations [let* x := c in k] and
      [do c; k] in [py_scope], the monad laws as the rewrite base
      [pysimp], [mapM] and the [for] loop [py_for], the string
      equations as the rewrite base [strsimp], and the exit-path
      invariant [exits_after] (every [exit] is [exit(-1)] right after a
      decoding error or the failed-check message) with its hint base
      [exits] and tactic [exits_tac], which each component extends.
    - [Decimal]: [int.__str__] ([str_Z]) and the reading of digits.
    - [Json]: the decoded JSON values and the Python operations the
      script applies to them: dict get/set in insertion order, [len],
      iteration, [obj['key']], the hashing/equality of [Counter] ([True]
      counts as [1]), and the well-formedness [json_wfb] (distinct keys).
    - [JsonEncode]: [json.dump]/[json.dumps] ([_make_iterencode],
      [encode_basestring_ascii]) as [encode_json] over a [layout] record
      (escapes, separators, indentation); [py_layout] is Python's.
    - [Counter]: [collections.Counter] ([counter_of]) and
      [most_common(1)] ([most_common1]), generic in the key equality.
    - [Stats]: numpy's round-half-to-even of a mean.
    - [GroupBy]: [df.groupby(key)[col].mean().round().astype(int)
      .to_dict()], generic in the row type.
    - [Source]: [get_data]: the outcome of [requests.get] ([http_result]:
      a response or an exception of requests) for each URL, given by an
      instance of the class [Transport], the response as its
      status and body chunks, requests' [iter_lines] over the chunks
      ([iter_lines_chunks]), [bytes.splitlines] ([splitlines]), the loop
      [decode_loop]; parametrised by the class [JsonDecoder] for
      [json.loads].  Lines are compared up to empty lines by the
      equivalence [same_lines], which [decode_loop] respects ([Proper]
      instance, used by setoid rewriting).
    - [JsonDecode]: the C scanner of [_json.c] on text ([scan_once],
      [array_items], [object_items], [scanstring], [match_number]) with
      fuel, the error messages and their line/column ([loads_str]).
    - [JsonRoundtrip]: the laws of a layout ([LayoutOk]) and the round
      trip [loads_str (encode_json L 0 v) = Loaded v].
    - [Loads]: [json.loads] on bytes ([detect_encoding], UTF-8 decoding)
      as the instance [py_json_loads] of [JsonDecoder].
    - [Frame]: [pd.json_normalize] and the validator [check_dataframe].
    - [Aggregate]: the typed reading of a row ([person_of_row]), the
      stages of [process_json] and [aggregate] (lines 81-121).
    - [Report]: [print_results] with Python's [str]/[repr] of the cells.
    - [Persistence]: the file system as a [gmap] from paths to bytes;
      [save_json], [load_json], pandas' [to_json] in its ujson layout,
      and [save_dataframe_to_json], which reads the global [results_df].
    - [Pipeline]: the [__main__] block: [main] (fetch and compute),
      [run_script] (the whole block on a response, with the file system
      as state) and [script] (the whole block from
      [get_data(demo_url)], over any [Transport]).

    ** What is proved

    - Counter: the counter is the frequency table of its input in
      first-occurrence order; [most_common(1)] is the first item of
      maximal count; on a list, the element of maximal count whose first
      occurrence comes first.
    - Rounding: nearest integer, unique, even on ties, within the data.
    - Grouping: keys sorted, distinct and exactly those present; a
      group's value depends only on its rows; the group sizes add up
      to the number of persons that have a city (finding).
    - JSON: the scanner never runs out of the fuel [json.loads] gives it
      (termination); every decoded value has distinct dict keys (type);
      [json.loads] inverts [json.dumps], [json.dump(indent=4)] and
      pandas' [to_json] (round trips); [str_Z] writes canonical digits.
    - Source: requests' chunked [iter_lines] equals, up to empty lines,
      [splitlines] of the whole body, for every chunking; on status 200
      the result is the decoded non-empty lines in order, exactly when
      all decode; with the real decoder a
      [json.dumps] feed is read back exactly; the first bad line exits
      with -1; a keep-alive line of spaces exits with -1, and a line of
      ASCII characters followed by a byte that starts no UTF-8
      sequence raises, whatever lines precede it (findings).
    - Validator: acceptance iff the frame is non-empty with every
      required column; on the frame of a list of rows, iff some row
      has each required key, so a row may lack one (finding); a missing
      column is named; the refusal is a hard gate before any
      statistic.
    - Aggregator: each statistic of a returned result is characterised
      with its tie-break; the hobby loop is a flattening; on
      well-formed input with a hobby the run returns, without any hobby
      it raises [IndexError], and a friend without ['hobbies'] gets past
      the validator and raises [KeyError] (finding).  Examples, not
      claims, evaluate the specification's fixture and the tie A, B,
      B, A.
    - Presentation: the report is exactly [report_lines]; for every
      result, merging two table entries into one city whose name holds
      a line break ([forge_result]) prints the same text.
    - Persistence: [load_json] reads back what [save_json] wrote; the
      file [save_dataframe_to_json] writes reloads as the records of the
      global result, whatever [df] is passed (the specification's round
      trip, and the global-variable defect).
    - Script: the pipeline composes as [process_json] of the decoded
      lines; the exit statuses of the transport's failures (an
      exception of [requests.get] and a status other than 200 both end
      with status 1); every [exit] of the script is [exit(-1)] right
      after a decoding error or the failed-check message, so a run
      ends with status 0, 1 or 255; a completed run changes no file but
      [answer.json]; a run that returns
      prints the report and leaves a file that reloads as its result
      (every returned result is a Python value: distinct cities, and
      hashable scalars where [Counter] chose them).

    ** Bounds, fuel, assumptions and what is left out

    - JSON numbers are integers ([Z]); a float, [NaN] or [Infinity] is
      [Unmodelled].  pandas computes [mean] in binary64; [mean_round]
      rounds the exact rational, which agrees whenever [|sum| < 2^52].
    - Strings are strings of 8-bit characters: a code point above
      U+00FF is outside the model of the decoder; Python compares
      strings by code point, which is the byte order here.
    - The scanner's fuel is [2 * length + 1]: every call of [scan_once],
      [array_items] and [object_items] either consumes a character or
      is one of at most two calls per character, which [scan_fuel]
      proves ([NoFuel] only when the fuel is at most [2 |s|]).
    - [digits_fuel] gets one more than the bit length of the number,
      more than its number of decimal digits.
    - CPython refuses to convert an integer of more than 4300 decimal
      digits to or from text ([sys.int_info.default_max_str_digits]:
      [int()] and [str()] raise [ValueError]).  [match_number] and
      [str_Z] have no such limit, so the round trips through
      [json.dumps]/[json.loads] hold here for every integer, and in
      CPython for those of at most 4300 digits.  Like the recursion
      limit of the scanner, this resource limit is not modelled.
    - pandas coercions the model does not describe raise [OutOfModel]:
      a record that is a list, a non-string city, a non-integer age, a
      missing name, a name column of integers and nulls (float64), an
      integer outside [int64] in [to_json].  The theorems hold for
      every input; those inputs end in [OutOfModel].
    - [json_normalize] follows pandas 1.3+.  The chunks of the body are
      an input: their sizes depend on the transport, and no theorem
      depends on them.
    - Files are read and written as UTF-8 (the locale encoding on
      Linux); text reads use universal newlines.
    - Not modelled:
      - the network protocol under [requests.get] (connection, HTTP
        parsing, redirects): its outcome, a response or an exception,
        is given by a [Transport] instance ([http_result]), and the
        theorems hold for every instance;
      - a server that stalls: no [timeout] is passed, so the run waits
        forever, and a total model of the run has no outcome for that
        (finding);
      - I/O errors of [open] other than a missing file;
      - the text pandas writes beyond its layout: both writers' texts
        are decoded by the same scanner;
      - floats, code points above U+00FF and the pandas coercions
        listed above.  These would need binary64 arithmetic in the
        decoder and in pandas' [mean], Unicode strings throughout, and
        pandas' dtype inference.  The model stops at them with
        [OutOfModel] rather than guess. *)

From stdpp Require Export base list strings sets.
From Stdlib Require Export ZArith Lia.

(** ** Python exceptions and printed messages *)

(** The exceptions the program can let escape.  They all end the run
    with exit status 1.  [ValueError] stands for its subclass
    [UnicodeDecodeError], [DecodeError] for [json.JSONDecodeError]
    where no [except] clause catches it ([load_json]),
    [RequestException] for the exceptions of [requests.get]
    ([ConnectionError], [TooManyRedirects], ...).  [OutOfModel]
    marks an input this development does not describe (a pandas type
    coercion, a float, a code point above U+00FF). *)
Inductive exn : Type :=
| KeyError
| TypeError
| IndexError
| ValueError
| NotImplementedError
| FileNotFoundError
| NameError
| DecodeError
| RequestException
| OutOfModel.

(** The lines the program prints on the way: one constructor per
    [print] call of [get_data] and [check_dataframe], and the text of a
    line ([MsgText]) for [print_results] and the save messages. *)
Inductive msg : Type :=
| MsgDecodeError (detail : string)
| MsgRequestFailed (status : Z)
| MsgCheckFailed
| MsgEmpty
| MsgMissingColumns (cols : list string)
| MsgAllColumns
| MsgText (line : string).

(** ** The effect monad of a Python run

    A computation prints messages and then either returns, calls
    [exit(code)] or raises an uncaught exception. *)
Inductive outcome (A : Type) : Type :=
| Ret (a : A)
| Exit (code : Z)
| Raise (e : exn).
Arguments Ret {A} a.
Arguments Exit {A} code.
Arguments Raise {A} e.

Definition PyM (A : Type) : Type := (list msg * outcome A)%type.

Definition pret {A} (a : A) : PyM A := ([], Ret a).

Definition pbind {A B} (m : PyM A) (f : A -> PyM B) : PyM B :=
  match m with
  | (out, Ret a) => let '(out', o) := f a in (out ++ out', o)
  | (out, Exit c) => (out, Exit c)
  | (out, Raise e) => (out, Raise e)
  end.

Definition print (m : msg) : PyM unit := ([m], Ret tt).
Definition exit {A} (code : Z) : PyM A := ([], Exit code).
Definition raise {A} (e : exn) : PyM A := ([], Raise e).

Declare Scope py_scope.
Delimit Scope py_scope with py.
Notation "'let*' x ':=' c 'in' k" := (pbind c (fun x => k))
  (at level 10, x name, c at level 100, k at level 200) : py_scope.
Notation "'do' c ';' k" := (pbind c (fun _ => k))
  (at level 10, c at level 100, k at level 200) : py_scope.
Open Scope py_scope.

(** The value a computation returns, when it returns. *)
Definition result_of {A} (m : PyM A) : option A :=
  match snd m with Ret a => Some a | _ => None end.

(** Exit status of the interpreter: [exit(c)] gives [c mod 256], an
    uncaught exception gives 1, a normal return 0. *)
Definition exit_status {A} (o : outcome A) : Z :=
  match o with
  | Ret _ => 0
  | Exit c => c mod 256
  | Raise _ => 1
  end.

(** Monadic traversal of a list, left to right, stopping at the first
    failure. *)
Fixpoint mapM {A B} (f : A -> PyM B) (l : list A) : PyM (list B) :=
  match l with
  | [] => pret []
  | x :: l' => let* y := f x in let* ys := mapM f l' in pret (y :: ys)
  end.

(** A [for] loop whose body only has effects. *)
Fixpoint py_for {A} (l : list A) (body : A -> PyM unit) : PyM unit :=
  match l with
  | [] => pret tt
  | x :: l' => do body x; py_for l' body
  end.

(** ** Generic list helpers *)

(** [filter_map] in the style of Python's comprehension
    [[g(x) for x in l if g(x) is not None]]. *)
Fixpoint omap_list {A B} (g : A -> option B) (l : list A) : list B :=
  match l with
  | [] => []
  | x :: l' => match g x with Some y => y :: omap_list g l' | None => omap_list g l' end
  end.

Definition sumZ (l : list Z) : Z := fold_right Z.add 0%Z l.

Create Rewrite HintDb pysimp.

(** ** Monad laws *)

Lemma pbind_ret_l {A B} (a : A) (f : A -> PyM B) : pbind (pret a) f = f a.
Proof. unfold pbind, pret. destruct (f a). reflexivity. Qed.

Lemma pbind_ret_r {A} (m : PyM A) : pbind m pret = m.
Proof. destruct m as [out [a|c|e]]; cbn; rewrite ?app_nil_r; reflexivity. Qed.

Lemma pbind_assoc {A B C} (m : PyM A) (f : A -> PyM B) (g : B -> PyM C) :
  pbind (pbind m f) g = pbind m (fun a => pbind (f a) g).
Proof.
  destruct m as [out [a|c|e]]; cbn; try reflexivity.
  destruct (f a) as [out1 [b|c|e]]; cbn; try reflexivity.
  destruct (g b) as [out2 o]. rewrite app_assoc. reflexivity.
Qed.

Lemma pbind_ext {A B} (m : PyM A) (f g : A -> PyM B) :
  (forall a, f a = g a) -> pbind m f = pbind m g.
Proof. intros H. destruct m as [out [a|c|e]]; cbn; rewrite ?H; reflexivity. Qed.

Lemma pbind_exit {A B} (c : Z) (f : A -> PyM B) : pbind (exit c) f = exit c.
Proof. reflexivity. Qed.

Lemma pbind_raise {A B} (e : exn) (f : A -> PyM B) : pbind (raise e) f = raise e.
Proof. reflexivity. Qed.

Lemma pbind_print {B} (m : msg) (f : unit -> PyM B) :
  pbind (print m) f = let '(out, o) := f tt in (m :: out, o).
Proof. reflexivity. Qed.

#[export] Hint Rewrite @pbind_ret_l @pbind_ret_r @pbind_assoc @pbind_exit @pbind_raise : pysimp.

(** A sequence that returns splits into a first part that returns and a
    continuation that returns, their printed lines concatenated. *)
Lemma pbind_ret_inv {A B} (m : PyM A) (f : A -> PyM B) out b :
  pbind m f = (out, Ret b) ->
  exists out1 a out2, m = (out1, Ret a) /\ f a = (out2, Ret b) /\ out = out1 ++ out2.
Proof.
  destruct m as [out1 [a|c|e]]; cbn; try discriminate.
  destruct (f a) as [out2 o] eqn:E. intros [= <- ->].
  exists out1, a, out2. auto.
Qed.

Lemma mapM_ret {A B} (f : A -> B) (l : list A) :
  mapM (fun x => pret (f x)) l = pret (map f l).
Proof. induction l as [|x l IH]; cbn; [reflexivity|]. rewrite IH. reflexivity. Qed.

Lemma mapM_length {A B} (f : A -> PyM B) l out ys :
  mapM f l = (out, Ret ys) -> length ys = length l.
Proof.
  revert out ys. induction l as [|x l IH]; cbn; intros out ys H.
  - injection H as <- <-. reflexivity.
  - apply pbind_ret_inv in H as (o1 & y & o2 & _ & H & _).
    apply pbind_ret_inv in H as (o3 & ys' & o4 & H & H' & _).
    injection H' as _ <-. cbn. f_equal. eapply IH; eauto.
Qed.

Lemma omap_list_app {A B} (g : A -> option B) l1 l2 :
  omap_list g (l1 ++ l2) = omap_list g l1 ++ omap_list g l2.
Proof. induction l1 as [|x l1 IH]; cbn; [reflexivity|]. destruct (g x); cbn; congruence. Qed.

Lemma sumZ_app l1 l2 : sumZ (l1 ++ l2) = (sumZ l1 + sumZ l2)%Z.
Proof. unfold sumZ. induction l1 as [|x l1 IH]; cbn; lia. Qed.

Lemma list_sum_cons x l : list_sum (x :: l) = x + list_sum l.
Proof. reflexivity. Qed.

#[export] Hint Rewrite @omap_list_app sumZ_app : pysimp.

(** Split a hypothesis [pbind m f = (out, Ret b)] into its two parts. *)
Ltac ret_inv H :=
  let o1 := fresh "o" in let a := fresh "a" in let o2 := fresh "o" in
  let H1 := fresh "H" in let E := fresh "E" in
  apply pbind_ret_inv in H as (o1 & a & o2 & H1 & H & E).

(** Unfold one layer of the monad in the goal. *)
Ltac py_simpl := cbn [pbind pret print exit raise mapM fst snd] in *; autorewrite with pysimp in *.

(** ** Strings

    stdpp makes [String.append] opaque to [simpl] and [cbn]; its
    equations are the rewrite base [strsimp]. *)

Lemma str_app_nil_l s : (EmptyString ++ s)%string = s.
Proof. reflexivity. Qed.

Lemma str_app_cons c s1 s2 : (String c s1 ++ s2)%string = String c (s1 ++ s2)%string.
Proof. reflexivity. Qed.

Lemma str_app_nil_r s : (s ++ EmptyString)%string = s.
Proof. induction s as [|c s IH]; [reflexivity|]. rewrite str_app_cons, IH. reflexivity. Qed.

Lemma str_app_assoc s1 s2 s3 : (s1 ++ (s2 ++ s3))%string = ((s1 ++ s2) ++ s3)%string.
Proof. induction s1 as [|c s1 IH]; [reflexivity|]. rewrite !str_app_cons, IH. reflexivity. Qed.

Lemma str_length_app s1 s2 : String.length (s1 ++ s2) = String.length s1 + String.length s2.
Proof. induction s1 as [|c s1 IH]; [reflexivity|]. rewrite str_app_cons. cbn. rewrite IH. reflexivity. Qed.

Create Rewrite HintDb strsimp.
#[export] Hint Rewrite str_app_nil_l str_app_cons str_app_nil_r str_length_app : strsimp.

(** [filter] drops an element that fails the test, so the result is
    shorter. *)
Lemma filter_length_lt {A} (f : A -> bool) l :
  Exists (fun x => f x = false) l -> length (List.filter f l) < length l.
Proof.
  induction 1 as [x l Hx|x l _ IH]; cbn.
  - rewrite Hx. pose proof (List.filter_length_le f l). lia.
  - destruct (f x); cbn; lia.
Qed.

Lemma forallb_Forall {A} (p : A -> bool) l : forallb p l = true <-> Forall (fun x => p x = true) l.
Proof.
  induction l as [|x l IH]; cbn; [split; auto|].
  rewrite andb_true_iff, IH, Forall_cons. reflexivity.
Qed.

(** ** Exit paths *)

(** The two messages the script prints right before [exit(-1)]. *)
Definition exit_msg (m : msg) : Prop := m = MsgCheckFailed \/ exists e, m = MsgDecodeError e.

(** Every [exit] a computation takes is [exit(-1)] right after a
    message of [exit_msg]. *)
Definition exits_after {A} (m : PyM A) : Prop :=
  forall out c, m = (out, Exit c) -> c = (-1)%Z /\ exists out' x, out = out' ++ [x] /\ exit_msg x.

Create HintDb exits.

Lemma exits_after_ret {A} (a : A) : exits_after (pret a).
Proof. by intros ?? [=]. Qed.

Lemma exits_after_raise {A} e : exits_after (A:=A) (raise e).
Proof. by intros ?? [=]. Qed.

Lemma exits_after_print x : exits_after (print x).
Proof. by intros ?? [=]. Qed.

Lemma exits_after_print_exit {A} x : exit_msg x -> exits_after (A:=A) (do print x; exit (-1)).
Proof. intros Hx out c [= <- <-]. split; [done|]. by exists [], x. Qed.

Lemma exits_after_bind {A B} (m : PyM A) (f : A -> PyM B) :
  exits_after m -> (forall a, exits_after (f a)) -> exits_after (pbind m f).
Proof.
  intros Hm Hf out c. destruct m as [o1 [a|c'|e]]; cbn; [|intros [= <- <-]; by apply (Hm o1 c')|discriminate].
  destruct (f a) as [o2 o] eqn:E. intros [= <- ->].
  destruct (Hf a o2 c E) as (Hc & o' & x & -> & Hx). split; [done|].
  exists (o1 ++ o'), x. by rewrite app_assoc.
Qed.

Lemma exits_after_mapM {A B} (f : A -> PyM B) l :
  (forall x, exits_after (f x)) -> exits_after (mapM f l).
Proof.
  intros Hf. induction l as [|x l IH]; cbn; [apply exits_after_ret|].
  apply exits_after_bind; [done|]. intros y. apply exits_after_bind; [done|]. intros ys. apply exits_after_ret.
Qed.

Lemma exits_after_py_for {A} (l : list A) body :
  (forall x, exits_after (body x)) -> exits_after (py_for l body).
Proof.
  intros Hb. induction l as [|x l IH]; cbn; [apply exits_after_ret|]. by apply exits_after_bind.
Qed.

#[export] Hint Resolve exits_after_ret exits_after_raise exits_after_print : exits.

(** Follow a computation through its binds, branches and loops. *)
Ltac exits_step :=
  match goal with
  | |- exits_after (pbind (print _) (fun _ => exit _)) =>
      apply exits_after_print_exit; unfold exit_msg; eauto
  | |- exits_after (pbind _ _) => apply exits_after_bind; [|intros ?]
  | |- exits_after (mapM _ _) => apply exits_after_mapM; intros ?
  | |- exits_after (py_for _ _) => apply exits_after_py_for; intros ?
  | |- exits_after (match ?x with _ => _ end) => destruct x
  | _ => solve [eauto with exits]
  end.

Ltac exits_tac := cbv zeta; repeat exits_step.
