(* ===== verification/Decimal.v ===== *)
(** * [str(int)]: the decimal writing of Python integers

    [int.__str__], which f-strings, [print] and [json.dumps] use, writes
    an optional ['-'] and then the decimal digits of the absolute value,
    without leading zeros.  [digits_fuel] produces the digits from the
    last one; its fuel, one more than the bit length of the number, is
    more than the number of digits.  [digits_value] reads a string of
    digits back by Horner's rule, as [int] and the JSON scanner do.
    The main result is that [str_Z] writes the sign and then the
    canonical digits of the absolute value, which is the grammar
    [-?(0|[1-9][0-9]* )] of JSON integers. *)

From S2P Require Import Prelude.
From Stdlib Require Import Ascii.

Local Open Scope string_scope.

(** ** Digits *)

Definition digit_char (d : N) : ascii := ascii_of_N (48 + d).

Definition is_digit (c : ascii) : bool := ((48 <=? N_of_ascii c) && (N_of_ascii c <=? 57))%N.

Definition digit_val (c : ascii) : N := (N_of_ascii c - 48)%N.

(** Digits of [n] in front of [acc], most significant first. *)
Fixpoint digits_fuel (fuel : nat) (n : N) (acc : string) : string :=
  match fuel with
  | O => acc
  | S f =>
      let acc' := String (digit_char (n mod 10)) acc in
      if (n <? 10)%N then acc' else digits_fuel f (n / 10)%N acc'
  end.

Definition str_N (n : N) : string := digits_fuel (S (N.to_nat (N.size n))) n EmptyString.

(** [str(z)] for a Python [int]. *)
Definition str_Z (z : Z) : string :=
  if (z <? 0)%Z then String "-" (str_N (Z.to_N (- z))) else str_N (Z.to_N z).

(** Horner's reading of a digit string, with an accumulator. *)
Fixpoint digits_value_acc (acc : N) (s : string) : N :=
  match s with
  | EmptyString => acc
  | String c s' => digits_value_acc (acc * 10 + digit_val c)%N s'
  end.

Definition digits_value (s : string) : N := digits_value_acc 0 s.

Fixpoint all_digits (s : string) : bool :=
  match s with
  | EmptyString => true
  | String c s' => is_digit c && all_digits s'
  end.

(** The JSON integer grammar without sign: ["0"] or a non-zero digit
    followed by digits. *)
Definition canonical_digits (s : string) : bool :=
  match s with
  | EmptyString => false
  | String c s' => all_digits s && (negb (Ascii.eqb c "0") || String.eqb s' EmptyString)
  end.

(** ** Lemmas *)

Lemma digit_char_spec d : (d < 10)%N ->
  is_digit (digit_char d) = true /\ digit_val (digit_char d) = d /\
  (Ascii.eqb (digit_char d) "0" = true <-> d = 0%N).
Proof.
  intros Hd. unfold is_digit, digit_val, digit_char.
  rewrite N_ascii_embedding by lia. split; [rewrite andb_true_iff, !N.leb_le; lia|].
  split; [lia|]. rewrite Ascii.eqb_eq. split.
  - intros H. apply (f_equal N_of_ascii) in H. rewrite N_ascii_embedding in H by lia.
    cbn in H. lia.
  - intros ->. reflexivity.
Qed.

Lemma digits_value_acc_app acc s1 s2 :
  digits_value_acc acc (s1 ++ s2) = digits_value_acc (digits_value_acc acc s1) s2.
Proof. revert acc. induction s1 as [|c s1 IH]; intros acc; [reflexivity|]. rewrite str_app_cons. apply IH. Qed.

Lemma digits_value_snoc s c :
  digits_value (s ++ String c EmptyString) = (digits_value s * 10 + digit_val c)%N.
Proof. unfold digits_value. rewrite digits_value_acc_app. reflexivity. Qed.

Lemma all_digits_app s1 s2 : all_digits (s1 ++ s2) = all_digits s1 && all_digits s2.
Proof. induction s1 as [|c s1 IH]; [reflexivity|]. rewrite str_app_cons. cbn. rewrite IH. apply andb_assoc. Qed.

Lemma canonical_digits_snoc ds c :
  canonical_digits ds = true -> ds <> String "0" EmptyString -> is_digit c = true ->
  canonical_digits (ds ++ String c EmptyString) = true.
Proof.
  destruct ds as [|c0 ds]; [discriminate|]. intros Hc Hne Hd. rewrite str_app_cons.
  cbn [canonical_digits] in Hc |- *. apply andb_true_iff in Hc as [Hc1 Hc2].
  change (all_digits (String c0 (ds ++ String c EmptyString))) with
    (all_digits (String c0 ds ++ String c EmptyString)).
  rewrite all_digits_app, Hc1. cbn. rewrite Hd. cbn.
  apply orb_true_iff in Hc2 as [Hc2|Hc2]; [by rewrite Hc2|].
  apply String.eqb_eq in Hc2 as ->.
  destruct (Ascii.eqb_spec c0 "0") as [->|]; [done|reflexivity].
Qed.

(** What [digits_fuel] puts in front of its accumulator, when the fuel
    is more than the number of digits. *)
Lemma digits_fuel_spec f n acc :
  (n < 10 ^ N.of_nat f)%N -> (0 < f)%nat ->
  exists ds, digits_fuel f n acc = ds ++ acc /\ canonical_digits ds = true /\ digits_value ds = n.
Proof.
  revert n acc. induction f as [|f IH]; intros n acc Hn Hf; [lia|].
  cbn [digits_fuel]. destruct (N.ltb_spec n 10) as [Hlt|Hge].
  - exists (String (digit_char n) EmptyString).
    rewrite N.mod_small by done. destruct (digit_char_spec n Hlt) as (Hd & Hv & Hz).
    split; [reflexivity|]. cbn. rewrite Hd, Hv. split; [|reflexivity].
    destruct (Ascii.eqb (digit_char n) "0"); reflexivity.
  - assert (Hm : (n mod 10 < 10)%N) by (apply N.mod_lt; lia).
    destruct f as [|f]; [cbn in Hn; lia|].
    destruct (IH (n / 10)%N (String (digit_char (n mod 10)) acc)) as (ds & E & Hc & Hv).
    { apply N.Div0.div_lt_upper_bound. rewrite Nat2N.inj_succ, N.pow_succ_r' in Hn. lia. }
    { lia. }
    destruct (digit_char_spec _ Hm) as (Hd & Hdv & _).
    exists (ds ++ String (digit_char (n mod 10)) EmptyString).
    rewrite E, <- str_app_assoc. split; [reflexivity|]. split.
    + apply canonical_digits_snoc; [done| |done]. intros ->. change (digits_value (String "0" EmptyString)) with 0%N in Hv.
      pose proof (N.Div0.div_mod n 10). lia.
    + rewrite digits_value_snoc, Hv, Hdv. pose proof (N.Div0.div_mod n 10). lia.
Qed.

Lemma str_N_spec n :
  canonical_digits (str_N n) = true /\ digits_value (str_N n) = n.
Proof.
  destruct (digits_fuel_spec (S (N.to_nat (N.size n))) n EmptyString) as (ds & E & Hc & Hv).
  - pose proof (N.size_gt n) as Hs.
    assert (H2 : (2 ^ N.size n <= 10 ^ N.size n)%N) by (apply N.pow_le_mono_l; lia).
    rewrite Nat2N.inj_succ, N2Nat.id, N.pow_succ_r'. lia.
  - lia.
  - unfold str_N. rewrite E, str_app_nil_r. auto.
Qed.

(** ** Theorems *)

(** [str(z)] is the sign, when [z] is negative, followed by the
    canonical decimal digits of [|z|]: one digit ['0'] for zero,
    otherwise no leading zero. *)
Theorem str_Z_spec z :
  exists sign ds, str_Z z = sign ++ ds /\
    sign = (if (z <? 0)%Z then String "-" EmptyString else EmptyString) /\
    canonical_digits ds = true /\ Z.of_N (digits_value ds) = Z.abs z.
Proof.
  unfold str_Z. destruct (Z.ltb_spec z 0) as [Hz|Hz].
  - destruct (str_N_spec (Z.to_N (- z))) as [Hc Hv].
    exists (String "-" EmptyString), (str_N (Z.to_N (- z))). repeat split; [done|].
    rewrite Hv. lia.
  - destruct (str_N_spec (Z.to_N z)) as [Hc Hv].
    exists EmptyString, (str_N (Z.to_N z)). repeat split; [done|]. rewrite Hv. lia.
Qed.
