(* ===== verification/Json.v ===== *)
(** * Decoded JSON values and the Python operations applied to them

    [json] is what [json.loads] returns for one line of the feed: a
    JSON object becomes a Python [dict] (an association list in
    insertion order, one entry per key), an array a Python [list].
    Numbers are integers ([int]); fractional numbers are outside the
    model.  This file also gives the Python semantics the program relies
    on: dict lookup and update, [len], iteration, [obj['key']], and the
    hashing/equality that [collections.Counter] uses. *)

From S2P Require Import Prelude.

#[warnings="-register-all"]
Inductive json : Type :=
| JNull
| JBool (b : bool)
| JInt (z : Z)
| JStr (s : string)
| JArr (l : list json)
| JObj (kvs : list (string * json)).

(** Induction with hypotheses on the elements of arrays and objects. *)
Definition json_ind_deep (P : json -> Prop)
  (fnull : P JNull) (fbool : forall b, P (JBool b)) (fint : forall z, P (JInt z))
  (fstr : forall s, P (JStr s))
  (farr : forall l, Forall P l -> P (JArr l))
  (fobj : forall kvs, Forall (fun kv => P (snd kv)) kvs -> P (JObj kvs)) :
  forall j, P j :=
  fix go (j : json) : P j :=
    match j with
    | JNull => fnull
    | JBool b => fbool b
    | JInt z => fint z
    | JStr s => fstr s
    | JArr l => farr l ((fix goa (l : list json) : Forall P l :=
                           match l with
                           | [] => ListDef.Forall_nil _
                           | x :: l' => ListDef.Forall_cons _ _ _ (go x) (goa l')
                           end) l)
    | JObj kvs => fobj kvs ((fix goo (kvs : list (string * json)) :
                               Forall (fun kv => P (snd kv)) kvs :=
                               match kvs with
                               | [] => ListDef.Forall_nil _
                               | kv :: kvs' => ListDef.Forall_cons _ _ _ (go (snd kv)) (goo kvs')
                               end) kvs)
    end.

Fixpoint json_eqb (x y : json) : bool :=
  match x, y with
  | JNull, JNull => true
  | JBool a, JBool b => Bool.eqb a b
  | JInt a, JInt b => Z.eqb a b
  | JStr a, JStr b => String.eqb a b
  | JArr l1, JArr l2 =>
      (fix go (l1 l2 : list json) : bool :=
         match l1, l2 with
         | [], [] => true
         | a :: l1', b :: l2' => json_eqb a b && go l1' l2'
         | _, _ => false
         end) l1 l2
  | JObj k1, JObj k2 =>
      (fix go (k1 k2 : list (string * json)) : bool :=
         match k1, k2 with
         | [], [] => true
         | (s, a) :: k1', (t, b) :: k2' => String.eqb s t && json_eqb a b && go k1' k2'
         | _, _ => false
         end) k1 k2
  | _, _ => false
  end.

(** ** Python dicts with string keys: [d.get(k)] and [d[k] = v] *)

Definition dict := list (string * json).

Fixpoint dict_get (d : dict) (k : string) : option json :=
  match d with
  | [] => None
  | (k', v) :: d' => if String.eqb k k' then Some v else dict_get d' k
  end.

(** Assignment keeps the position of an existing key and appends a new
    one (CPython's insertion-ordered dict). *)
Fixpoint dict_set (d : dict) (k : string) (v : json) : dict :=
  match d with
  | [] => [(k, v)]
  | (k', v') :: d' => if String.eqb k k' then (k', v) :: d' else (k', v') :: dict_set d' k v
  end.

Definition dict_wf (d : dict) : Prop := NoDup (map fst d).

(** A value as Python holds it: no dict in it has a key twice. *)
Fixpoint json_wfb (v : json) : bool :=
  match v with
  | JArr l => forallb json_wfb l
  | JObj kvs => bool_decide (NoDup (map fst kvs)) && forallb (fun kv => json_wfb (snd kv)) kvs
  | _ => true
  end.

(** ** [len], iteration and [obj['key']] *)

(** [len(x)]: [None] is the [TypeError] of an object with no length. *)
Definition py_len (j : json) : option nat :=
  match j with
  | JStr s => Some (String.length s)
  | JArr l => Some (length l)
  | JObj kvs => Some (length kvs)
  | _ => None
  end.

Definition char_str (c : Ascii.ascii) : json := JStr (String c EmptyString).

(** The elements [for x in j] visits: list items, the characters of a
    string, the keys of a dict. *)
Definition py_iter (j : json) : option (list json) :=
  match j with
  | JArr l => Some l
  | JStr s => Some (map char_str (String.list_ascii_of_string s))
  | JObj kvs => Some (map (fun kv => JStr (fst kv)) kvs)
  | _ => None
  end.

(** [j['key']] on a decoded value: a dict lookup ([KeyError] when the
    key is absent); lists, strings and scalars raise [TypeError]. *)
Definition py_getitem_str (j : json) (k : string) : PyM json :=
  match j with
  | JObj kvs => match dict_get kvs k with Some v => pret v | None => raise KeyError end
  | _ => raise TypeError
  end.

(** ** Hashing and equality as [Counter] sees them

    [None], booleans, integers and strings are hashable; [True == 1]
    and [False == 0] in Python, so booleans share their key with the
    integers.  Lists and dicts are unhashable. *)
Inductive pykey : Type :=
| KNone
| KInt (z : Z)
| KStr (s : string).

Definition py_key (j : json) : option pykey :=
  match j with
  | JNull => Some KNone
  | JBool b => Some (KInt (if b then 1 else 0)%Z)
  | JInt z => Some (KInt z)
  | JStr s => Some (KStr s)
  | _ => None
  end.

Definition pykey_eqb (a b : pykey) : bool :=
  match a, b with
  | KNone, KNone => true
  | KInt x, KInt y => Z.eqb x y
  | KStr s, KStr t => String.eqb s t
  | _, _ => false
  end.

Definition py_hashable (j : json) : bool :=
  match py_key j with Some _ => true | None => false end.

(** [x == y] on hashable values; on unhashable ones (never counted) it
    falls back to structural equality, so that it is an equivalence. *)
Definition py_eqb (x y : json) : bool :=
  match py_key x, py_key y with
  | Some a, Some b => pykey_eqb a b
  | None, None => json_eqb x y
  | _, _ => false
  end.

(** ** Lemmas *)

Lemma json_eqb_eq x y : json_eqb x y = true <-> x = y.
Proof.
  revert y. induction x as [| b | z | s | l IH | kvs IH] using json_ind_deep;
    intros [| b' | z' | s' | l' | kvs']; cbn; try (split; congruence).
  - rewrite Bool.eqb_true_iff. split; congruence.
  - rewrite Z.eqb_eq. split; congruence.
  - rewrite String.eqb_eq. split; congruence.
  - revert l'. induction IH as [|x l Hx _ IHl]; intros [|y l']; try (split; congruence).
    rewrite andb_true_iff, Hx, IHl. split; [intros [-> [= ->]]; reflexivity|].
    intros [= -> ->]. auto.
  - revert kvs'. induction IH as [|[s x] kvs Hx _ IHk]; intros [|[t y] kvs'];
      try (split; congruence).
    cbn in Hx. rewrite !andb_true_iff, String.eqb_eq, Hx, IHk.
    split; [intros [[-> ->] [= ->]]; reflexivity|]. intros [= -> -> ->]. auto.
Qed.

#[export] Instance json_eq_dec : EqDecision json.
Proof.
  intros x y. destruct (json_eqb x y) eqn:E.
  - left. by apply json_eqb_eq.
  - right. intros H. apply json_eqb_eq in H. congruence.
Defined.

Lemma pykey_eqb_eq a b : pykey_eqb a b = true <-> a = b.
Proof.
  destruct a, b; cbn; rewrite ?Z.eqb_eq, ?String.eqb_eq; split; congruence.
Qed.

Lemma py_eqb_refl x : py_eqb x x = true.
Proof.
  unfold py_eqb. destruct (py_key x) eqn:E.
  - by apply pykey_eqb_eq.
  - by apply json_eqb_eq.
Qed.

Lemma py_eqb_sym x y : py_eqb x y = py_eqb y x.
Proof.
  unfold py_eqb. destruct (py_key x) as [a|], (py_key y) as [b|]; try reflexivity.
  - apply eq_true_iff_eq. rewrite !pykey_eqb_eq. split; congruence.
  - apply eq_true_iff_eq. rewrite !json_eqb_eq. split; congruence.
Qed.

Lemma py_eqb_trans x y z : py_eqb x y = true -> py_eqb y z = true -> py_eqb x z = true.
Proof.
  unfold py_eqb. destruct (py_key x) as [a|], (py_key y) as [b|], (py_key z) as [c|];
    rewrite ?pykey_eqb_eq, ?json_eqb_eq; congruence.
Qed.

Lemma dict_get_set_eq d k v : dict_get (dict_set d k v) k = Some v.
Proof.
  induction d as [|[k' v'] d IH]; cbn; rewrite ?String.eqb_refl; [reflexivity|].
  destruct (String.eqb_spec k k'); cbn; [subst; by rewrite String.eqb_refl|].
  apply String.eqb_neq in n. by rewrite n.
Qed.

Lemma dict_get_set_ne d k k2 v : k <> k2 -> dict_get (dict_set d k v) k2 = dict_get d k2.
Proof.
  intros Hne. induction d as [|[k' v'] d IH]; cbn.
  - apply String.eqb_neq in Hne. rewrite String.eqb_sym, Hne. reflexivity.
  - destruct (String.eqb_spec k k'); cbn.
    + subst. destruct (String.eqb_spec k2 k'); [congruence|reflexivity].
    + by rewrite IH.
Qed.

Lemma dict_set_keys d k v :
  map fst (dict_set d k v) = if bool_decide (k ∈ map fst d) then map fst d else map fst d ++ [k].
Proof.
  induction d as [|[k' v'] d IH]; cbn; [reflexivity|].
  destruct (String.eqb_spec k k') as [->|Hne]; cbn.
  - rewrite bool_decide_true; [reflexivity|]. by left.
  - rewrite IH. case_bool_decide as H1; case_bool_decide as H2; try reflexivity.
    + exfalso. apply H2. by right.
    + exfalso. apply elem_of_cons in H2 as [->|?]; [congruence|tauto].
Qed.

(** Assignment keeps a dict well formed. *)
Lemma dict_set_NoDup d k v : dict_wf d -> dict_wf (dict_set d k v).
Proof.
  unfold dict_wf. rewrite dict_set_keys. case_bool_decide as Hin; [done|].
  intros Hnd. apply NoDup_app. split; [done|]. split; [|apply NoDup_singleton].
  intros x Hx ->%list_elem_of_singleton. contradiction.
Qed.

#[export] Hint Resolve py_eqb_refl dict_set_NoDup : core.
#[export] Hint Rewrite dict_get_set_eq : pysimp.
