(* ===== verification/JsonEncode.v ===== *)
(** * [json.dumps] and [json.dump]: the JSON encoder

    [save_json] ([src/task.py] line 56) writes [json.dump(json_data,
    file, indent=4)], and a feed that [get_data] can read is written
    with [json.dumps(record)], one record per line.  Both go through
    [json.encoder._make_iterencode] (the C encoder [c_make_encoder]
    gives the same text for [json.dumps]) with [ensure_ascii=True]:

    - strings by [encode_basestring_ascii]: the double quote and the
      backslash are backslash-escaped, [\b \f \n \r \t] get their short escapes, and
      every other character outside [' '..'~'] becomes [\u00xx] with
      lower-case hexadecimal digits;
    - integers by [int.__repr__] ([str_Z]);
    - lists and dicts, empty ones as ["[]"] and ["{}"]; with
      [indent=None] the item separator is [", "]; with [indent=k] it is
      [","] followed by a newline and [k] spaces per nesting level, and
      the closing bracket goes on a line of its own; the key separator
      is [": "] in both layouts; dict items are written in insertion
      order ([sort_keys=False]).

    The encoder is [encode_json], parametrised by a [layout]: the
    escape of a string character, the text after an opening bracket,
    between items, before a closing bracket, after a colon, and inside
    an empty container.  [py_layout] is the layout of
    [_make_iterencode]; [Persistence.v] gives pandas' one.  The main
    result is that [json.dumps] text is printable ASCII and holds no
    line break. *)

From S2P Require Import Prelude Decimal Json.
From Stdlib Require Import Ascii.

Local Open Scope string_scope.

Definition quote : ascii := ascii_of_N 34.
Definition backslash : ascii := "\".
Definition newline : ascii := "010".

(** [Py_hexdigits]: ["0123456789abcdef"]. *)
Definition hex_digit (d : N) : ascii :=
  if (d <? 10)%N then digit_char d else ascii_of_N (87 + d).

(** The replacement of one character by [encode_basestring_ascii]. *)
Definition escape_char (c : ascii) : string :=
  let n := N_of_ascii c in
  if Ascii.eqb c quote then String backslash (String quote EmptyString)
  else if Ascii.eqb c backslash then String backslash (String backslash EmptyString)
  else if (n =? 8)%N then "\b"
  else if (n =? 12)%N then "\f"
  else if (n =? 10)%N then "\n"
  else if (n =? 13)%N then "\r"
  else if (n =? 9)%N then "\t"
  else if ((32 <=? n) && (n <=? 126))%N then String c EmptyString
  else String backslash (String "u" (String "0" (String "0"
         (String (hex_digit (n / 16)) (String (hex_digit (n mod 16)) EmptyString))))).

(** ** Layouts

    Both writers of the program, [json.dump] and pandas' [to_json],
    write the same JSON text up to its layout: how a character of a
    string literal is written, what follows an opening bracket, what
    separates two items, what precedes a closing bracket, what follows
    the colon of a member, and what an empty container holds. *)
Record layout : Type := {
  lay_escape : ascii -> string;
  lay_open : nat -> string;
  lay_sep : nat -> string;
  lay_close : nat -> string;
  lay_key : string;
  lay_empty : nat -> string
}.

Fixpoint escape_with (esc : ascii -> string) (s : string) : string :=
  match s with
  | EmptyString => EmptyString
  | String c s' => esc c ++ escape_with esc s'
  end.

(** A string literal: the escaped characters between double quotes. *)
Definition quote_with (esc : ascii -> string) (s : string) : string :=
  String quote (escape_with esc s ++ String quote EmptyString).

(** The text of a value at nesting depth [level]. *)
Fixpoint encode_json (L : layout) (level : nat) (v : json) : string :=
  match v with
  | JNull => "null"
  | JBool b => if b then "true" else "false"
  | JInt z => str_Z z
  | JStr s => quote_with (lay_escape L) s
  | JArr l =>
      match l with
      | [] => "[" ++ lay_empty L level ++ "]"
      | _ => "[" ++ lay_open L level ++
             String.concat (lay_sep L level) (map (encode_json L (S level)) l) ++
             lay_close L level ++ "]"
      end
  | JObj kvs =>
      match kvs with
      | [] => "{" ++ lay_empty L level ++ "}"
      | _ => "{" ++ lay_open L level ++
             String.concat (lay_sep L level)
               (map (fun kv => quote_with (lay_escape L) (fst kv) ++ lay_key L ++
                               encode_json L (S level) (snd kv)) kvs) ++
             lay_close L level ++ "}"
      end
  end.

(** [encode_basestring_ascii(s)] *)
Definition encode_basestring_ascii (s : string) : string := quote_with escape_char s.

Fixpoint spaces (n : nat) : string :=
  match n with O => EmptyString | S n' => String " " (spaces n') end.

(** ['\n' + _indent * _current_indent_level], or nothing without
    [indent]. *)
Definition newline_indent (indent : option nat) (level : nat) : string :=
  match indent with
  | None => EmptyString
  | Some k => String newline (spaces (k * level))
  end.

(** [item_separator]: [", "] by default, [","] when [indent] is set. *)
Definition item_separator (indent : option nat) : string :=
  match indent with None => ", " | Some _ => "," end.

Definition key_separator : string := ": ".

(** The layout of [json.encoder._make_iterencode]: [_iterencode_list]
    and [_iterencode_dict] write [newline_indent] after the opening
    bracket, [item_separator] and [newline_indent] between items, the
    indentation of the enclosing level before the closing bracket, and
    nothing in an empty container. *)
Definition py_layout (indent : option nat) : layout := {|
  lay_escape := escape_char;
  lay_open := fun level => newline_indent indent (S level);
  lay_sep := fun level => item_separator indent ++ newline_indent indent (S level);
  lay_close := fun level => newline_indent indent level;
  lay_key := key_separator;
  lay_empty := fun _ => EmptyString
|}.

(** [_iterencode(o, _current_indent_level)] of [_make_iterencode],
    the chunks joined. *)
Definition iterencode (indent : option nat) (level : nat) (v : json) : string :=
  encode_json (py_layout indent) level v.

(** [json.dumps(v)] *)
Definition dumps (v : json) : string := iterencode None 0 v.

(** The text [json.dump(v, file, indent=4)] writes. *)
Definition dump_indent4 (v : json) : string := iterencode (Some 4) 0 v.

(** Printable ASCII: [' '] to ['~']. *)
Definition printable (c : ascii) : bool := ((32 <=? N_of_ascii c) && (N_of_ascii c <=? 126))%N.

Fixpoint all_chars (p : ascii -> bool) (s : string) : bool :=
  match s with
  | EmptyString => true
  | String c s' => p c && all_chars p s'
  end.

(** ** Lemmas *)

Lemma all_chars_app p s1 s2 : all_chars p (s1 ++ s2) = all_chars p s1 && all_chars p s2.
Proof.
  induction s1 as [|c s1 IH]; [reflexivity|]. rewrite str_app_cons. cbn. rewrite IH.
  apply andb_assoc.
Qed.

Lemma all_chars_concat p sep l :
  all_chars p sep = true -> Forall (fun s => all_chars p s = true) l ->
  all_chars p (String.concat sep l) = true.
Proof.
  intros Hsep Hl. induction Hl as [|s l Hs Hl IH]; [reflexivity|].
  destruct l as [|s' l]; [exact Hs|]. cbn [String.concat].
  rewrite !all_chars_app, Hs, Hsep. exact IH.
Qed.

Lemma hex_digit_printable d : (d < 16)%N -> printable (hex_digit d) = true.
Proof.
  intros Hd. unfold hex_digit, printable, digit_char.
  destruct (N.ltb_spec d 10); rewrite N_ascii_embedding by lia; apply andb_true_iff; rewrite !N.leb_le; lia.
Qed.

Lemma escape_char_printable c : all_chars printable (escape_char c) = true.
Proof.
  unfold escape_char.
  destruct (Ascii.eqb c quote); [reflexivity|]. destruct (Ascii.eqb c backslash); [reflexivity|].
  repeat match goal with |- context [if ?b then _ else _] => destruct b eqn:? end;
    try reflexivity.
  - cbn. rewrite andb_true_r. assumption.
  - cbn. rewrite !hex_digit_printable; [reflexivity| |].
    + apply N.mod_lt. lia.
    + apply N.Div0.div_lt_upper_bound. pose proof (N_ascii_bounded c). lia.
Qed.

Lemma escape_with_printable s : all_chars printable (escape_with escape_char s) = true.
Proof.
  induction s as [|c s IH]; [reflexivity|]. cbn [escape_with].
  rewrite all_chars_app, escape_char_printable, IH. reflexivity.
Qed.

Lemma encode_basestring_ascii_printable s : all_chars printable (encode_basestring_ascii s) = true.
Proof.
  unfold encode_basestring_ascii, quote_with. cbn [all_chars].
  rewrite all_chars_app, escape_with_printable. reflexivity.
Qed.

Lemma str_N_printable n : all_chars printable (str_N n) = true.
Proof.
  destruct (str_N_spec n) as [Hc _]. destruct (str_N n) as [|c s]; [discriminate|].
  cbn [canonical_digits] in Hc. apply andb_true_iff in Hc as [Hc _].
  revert Hc. generalize (String c s). intros t. induction t as [|c' t IH]; [reflexivity|].
  cbn. intros [Hd Ht]%andb_true_iff. rewrite IH by done. unfold is_digit, printable in *.
  apply andb_true_iff in Hd as [H1 H2]. apply N.leb_le in H1, H2.
  rewrite andb_true_r. apply andb_true_iff; rewrite !N.leb_le; lia.
Qed.

Lemma str_Z_printable z : all_chars printable (str_Z z) = true.
Proof. unfold str_Z. destruct (z <? 0)%Z; cbn [all_chars]; rewrite str_N_printable; reflexivity. Qed.

Lemma all_chars_mono (p q : ascii -> bool) s :
  (forall c, q c = true -> p c = true) -> all_chars q s = true -> all_chars p s = true.
Proof.
  intros Hpq. induction s as [|c s IH]; [reflexivity|]. cbn.
  intros [Hc Hs]%andb_true_iff. rewrite Hpq, IH by done. reflexivity.
Qed.

Lemma escape_with_chars (p : ascii -> bool) esc s :
  (forall c, all_chars p (esc c) = true) -> all_chars p (escape_with esc s) = true.
Proof.
  intros Hesc. induction s as [|c s IH]; [reflexivity|]. cbn [escape_with].
  rewrite all_chars_app, Hesc, IH. reflexivity.
Qed.

Section LayoutChars.
Variables (p : ascii -> bool) (L : layout).
Hypothesis Hprint : forall c, printable c = true -> p c = true.
Hypothesis Hesc : forall c, all_chars p (lay_escape L c) = true.
Hypothesis Hopen : forall l, all_chars p (lay_open L l) = true.
Hypothesis Hsep : forall l, all_chars p (lay_sep L l) = true.
Hypothesis Hclose : forall l, all_chars p (lay_close L l) = true.
Hypothesis Hempty : forall l, all_chars p (lay_empty L l) = true.
Hypothesis Hkey : all_chars p (lay_key L) = true.

Lemma printable_chars s : all_chars printable s = true -> all_chars p s = true.
Proof. apply all_chars_mono, Hprint. Qed.

Lemma quote_with_chars s : all_chars p (quote_with (lay_escape L) s) = true.
Proof.
  unfold quote_with. cbn [all_chars]. rewrite all_chars_app, escape_with_chars by done.
  cbn. rewrite Hprint by reflexivity. reflexivity.
Qed.

(** A property of characters that holds of the printable ones and of
    every piece of the layout holds of the whole text. *)
Lemma encode_json_chars lvl v : all_chars p (encode_json L lvl v) = true.
Proof.
  revert lvl. induction v as [| b | z | s | l IH | kvs IH] using json_ind_deep; intros lvl;
    cbn [encode_json].
  - by apply printable_chars.
  - destruct b; by apply printable_chars.
  - apply printable_chars, str_Z_printable.
  - apply quote_with_chars.
  - destruct l as [|v l]; rewrite !all_chars_app, ?Hempty, ?Hopen, ?Hclose;
      rewrite ?(printable_chars "["), ?(printable_chars "]") by reflexivity; [reflexivity|].
    rewrite all_chars_concat; [reflexivity|done|].
    apply Forall_map. eapply Forall_impl; [exact IH|]. intros x Hx. apply Hx.
  - destruct kvs as [|kv kvs]; rewrite !all_chars_app, ?Hempty, ?Hopen, ?Hclose;
      rewrite ?(printable_chars "{"), ?(printable_chars "}") by reflexivity; [reflexivity|].
    rewrite all_chars_concat; [reflexivity|done|].
    apply Forall_map. eapply Forall_impl; [exact IH|]. intros x Hx.
    rewrite !all_chars_app, quote_with_chars, Hkey, Hx. reflexivity.
Qed.
End LayoutChars.

(** ** Theorems *)

(** [json.dumps] with [ensure_ascii] writes printable ASCII only: no
    control character, no line break, nothing beyond ['~']. *)
Theorem dumps_printable v : all_chars printable (dumps v) = true.
Proof. apply encode_json_chars; try done. apply escape_char_printable. Qed.
