(* ===== verification/Counter.v ===== *)
(** * [collections.Counter] and [most_common(1)]

    [src/task.py] counts names (line 95) and hobbies (line 106) with
    [Counter(xs)] and reads the winner with [most_common(1)[0]]
    (lines 97-98, 108).  CPython builds the counter by
    [_count_elements]: [for elem in xs: c[elem] = c.get(elem, 0) + 1],
    on an insertion-ordered dict whose keys are compared with [==];
    [most_common(1)] is [heapq.nlargest(1, c.items(), key=itemgetter(1))],
    which for [n = 1] is [max(c.items(), key=itemgetter(1))]: the first
    item of largest count.

    The Section is generic in the key type and its equality [eqk]
    (Python [==]), an equivalence.  The theorems say the counter is the
    frequency table of the input in first-occurrence order, and that
    [most_common(1)] picks the first key of that order reaching the
    maximal count. *)

From S2P Require Import Prelude.

Section Counter.
Context {K : Type} (eqk : K -> K -> bool).
Hypothesis eqk_refl : forall x, eqk x x = true.
Hypothesis eqk_sym : forall x y, eqk x y = eqk y x.
Hypothesis eqk_trans : forall x y z, eqk x y = true -> eqk y z = true -> eqk x z = true.

Definition counter := list (K * nat).

(** [c.get(k, 0)] *)
Fixpoint counter_get (c : counter) (k : K) : nat :=
  match c with
  | [] => 0
  | (k', n) :: c' => if eqk k k' then n else counter_get c' k
  end.

(** [c[k] = n]: an equal key already present keeps its place (and its
    first spelling); a new key goes last. *)
Fixpoint counter_set (c : counter) (k : K) (n : nat) : counter :=
  match c with
  | [] => [(k, n)]
  | (k', m) :: c' => if eqk k k' then (k', n) :: c' else (k', m) :: counter_set c' k n
  end.

(** [_count_elements(c, xs)] *)
Definition count_elements (c : counter) (xs : list K) : counter :=
  fold_left (fun c x => counter_set c x (S (counter_get c x))) xs c.

(** [Counter(xs)] *)
Definition counter_of (xs : list K) : counter := count_elements [] xs.

(** [max(items, key=itemgetter(1))]: replaces the best item only on a
    strictly larger count. *)
Fixpoint max_first (best : K * nat) (rest : counter) : K * nat :=
  match rest with
  | [] => best
  | x :: rest' => if snd best <? snd x then max_first x rest' else max_first best rest'
  end.

(** [c.most_common(1)] *)
Definition most_common1 (c : counter) : list (K * nat) :=
  match c with
  | [] => []
  | x :: c' => [max_first x c']
  end.

(** ** Reference definitions *)

(** How many elements of [xs] equal [k]. *)
Definition count_in (k : K) (xs : list K) : nat := length (List.filter (eqk k) xs).

(** The distinct elements of [xs] (up to [eqk]), each at its first
    occurrence. *)
Fixpoint dedup_first (xs : list K) : list K :=
  match xs with
  | [] => []
  | x :: xs' => x :: List.filter (fun y => negb (eqk x y)) (dedup_first xs')
  end.

(** The frequency table of [xs]. *)
Definition freq_table (xs : list K) : counter :=
  map (fun k => (k, count_in k xs)) (dedup_first xs).

(** [m] is the first item of [c] with the largest count. *)
Definition is_first_max (c : counter) (m : K * nat) : Prop :=
  exists c1 c2, c = c1 ++ m :: c2 /\
    Forall (fun p => snd p < snd m) c1 /\ Forall (fun p => snd p <= snd m) c2.

(** ** Helper lemmas on the reference definitions *)

Lemma eqk_sym_true x y : eqk x y = true -> eqk y x = true.
Proof. by rewrite eqk_sym. Qed.

Lemma eqk_sym_false x y : eqk x y = false -> eqk y x = false.
Proof. by rewrite eqk_sym. Qed.

Lemma count_in_app k xs ys : count_in k (xs ++ ys) = count_in k xs + count_in k ys.
Proof. unfold count_in. by rewrite List.filter_app, length_app. Qed.

Lemma count_in_single k x : count_in k [x] = if eqk k x then 1 else 0.
Proof. unfold count_in. cbn. by destruct (eqk k x). Qed.

Lemma count_in_compat k k' xs : eqk k k' = true -> count_in k xs = count_in k' xs.
Proof.
  intros Hk. unfold count_in. f_equal. apply List.filter_ext. intros y.
  destruct (eqk k y) eqn:E1, (eqk k' y) eqn:E2; try reflexivity.
  - rewrite (eqk_trans k' k y) in E2; [done| |done]. by apply eqk_sym_true.
  - rewrite (eqk_trans k k' y) in E1; done.
Qed.

Lemma count_in_zero k xs : existsb (eqk k) xs = false -> count_in k xs = 0.
Proof.
  unfold count_in. induction xs as [|x xs IH]; cbn; [done|].
  destruct (eqk k x); cbn; [discriminate|auto].
Qed.

Lemma existsb_dedup k xs : existsb (eqk k) (dedup_first xs) = existsb (eqk k) xs.
Proof.
  induction xs as [|x xs IH]; cbn; [done|].
  destruct (eqk k x) eqn:Ekx; cbn; [done|].
  rewrite <- IH. clear IH. induction (dedup_first xs) as [|y ys IHy]; cbn; [done|].
  destruct (eqk x y) eqn:Exy; cbn.
  - rewrite IHy. destruct (eqk k y) eqn:Eky; [|done].
    rewrite (eqk_trans k y x) in Ekx; [done|done|]. by apply eqk_sym_true.
  - by rewrite IHy.
Qed.

Lemma dedup_first_snoc xs x :
  dedup_first (xs ++ [x]) =
  if existsb (eqk x) xs then dedup_first xs else dedup_first xs ++ [x].
Proof.
  induction xs as [|y xs IH]; cbn; [done|].
  rewrite IH. destruct (eqk x y) eqn:Exy; cbn.
  - destruct (existsb (eqk x) xs); [done|].
    rewrite List.filter_app. cbn. rewrite eqk_sym, Exy. cbn. by rewrite app_nil_r.
  - destruct (existsb (eqk x) xs); [done|].
    rewrite List.filter_app. cbn. by rewrite (eqk_sym_false _ _ Exy).
Qed.

(** Two keys of [dedup_first xs] are never equal. *)
Lemma dedup_first_pairwise xs :
  ForallOrdPairs (fun a b => eqk a b = false) (dedup_first xs).
Proof.
  induction xs as [|x xs IH]; cbn; constructor.
  - apply List.Forall_forall. intros y Hy. apply List.filter_In in Hy as [_ Hy].
    by apply negb_true_iff.
  - clear -IH. induction IH as [|a l Ha _ IHl]; cbn; [constructor|].
    destruct (eqk x a); cbn; [done|]. constructor; [|done].
    apply List.Forall_forall. intros y Hy. apply List.filter_In in Hy as [Hy _].
    by eapply List.Forall_forall in Ha.
Qed.

Lemma In_dedup_existsb k xs : In k (dedup_first xs) -> existsb (eqk k) xs = true.
Proof.
  intros Hin. rewrite <- existsb_dedup. apply existsb_exists. eauto.
Qed.

(** ** The counter as a table of a function on distinct keys *)

Definition tab (f : K -> nat) (d : list K) : counter := map (fun k => (k, f k)) d.

Section Tab.
Variable f : K -> nat.
Hypothesis f_compat : forall k k', eqk k k' = true -> f k = f k'.

Lemma counter_get_tab d x :
  counter_get (tab f d) x = if existsb (eqk x) d then f x else 0.
Proof.
  induction d as [|k d IH]; cbn; [done|].
  destruct (eqk x k) eqn:E; cbn; [|done]. symmetry. by apply f_compat.
Qed.

Lemma counter_set_tab_new d x n :
  existsb (eqk x) d = false -> counter_set (tab f d) x n = tab f d ++ [(x, n)].
Proof.
  unfold tab. induction d as [|k d IH]; cbn; [done|].
  destruct (eqk x k); cbn; [discriminate|]. intros H. by rewrite IH.
Qed.

Lemma counter_set_tab_old d x n :
  ForallOrdPairs (fun a b => eqk a b = false) d -> existsb (eqk x) d = true ->
  counter_set (tab f d) x n = map (fun k => (k, if eqk x k then n else f k)) d.
Proof.
  unfold tab. induction 1 as [|k d Hk _ IH]; cbn; [discriminate|].
  destruct (eqk x k) eqn:E; cbn; [|intros H; by rewrite IH].
  intros _. f_equal. apply map_ext_in. intros k' Hk'.
  eapply List.Forall_forall in Hk; [|exact Hk'].
  destruct (eqk x k') eqn:E'; [|done].
  rewrite (eqk_trans k x k') in Hk; [done| |done]. by apply eqk_sym_true.
Qed.
End Tab.

Lemma freq_table_tab xs : freq_table xs = tab (fun k => count_in k xs) (dedup_first xs).
Proof. reflexivity. Qed.

(** One step of [_count_elements] turns the table of [xs] into the
    table of [xs ++ [x]]. *)
Lemma count_step_freq xs x :
  counter_set (freq_table xs) x (S (counter_get (freq_table xs) x)) = freq_table (xs ++ [x]).
Proof.
  assert (Hc : forall ys k k', eqk k k' = true -> count_in k ys = count_in k' ys)
    by (intros; by apply count_in_compat).
  rewrite !freq_table_tab, counter_get_tab by auto. rewrite existsb_dedup, dedup_first_snoc.
  destruct (existsb (eqk x) xs) eqn:Ex.
  - rewrite counter_set_tab_old; [|apply dedup_first_pairwise|by rewrite existsb_dedup].
    unfold tab. apply map_ext. intros k. f_equal.
    rewrite count_in_app, count_in_single, (eqk_sym k x).
    destruct (eqk x k) eqn:E; [|lia]. rewrite (Hc xs x k E). lia.
  - rewrite counter_set_tab_new by (auto; by rewrite existsb_dedup).
    unfold tab. rewrite map_app. cbn. f_equal.
    + apply map_ext_in. intros k Hk. f_equal.
      rewrite count_in_app, count_in_single.
      destruct (eqk k x) eqn:E; [|lia]. exfalso.
      apply In_dedup_existsb in Hk.
      assert (existsb (eqk x) xs = true); [|congruence].
      apply existsb_exists in Hk as (y & Hy & Hky). apply existsb_exists.
      exists y. split; [done|]. eapply eqk_trans; [|exact Hky]. by apply eqk_sym_true.
    + rewrite count_in_app, count_in_single, eqk_refl, count_in_zero by done. done.
Qed.

Lemma count_elements_freq xs ys :
  count_elements (freq_table xs) ys = freq_table (xs ++ ys).
Proof.
  revert xs. induction ys as [|y ys IH]; intros xs; cbn.
  - by rewrite app_nil_r.
  - unfold count_elements in IH. rewrite count_step_freq, IH, <- app_assoc. done.
Qed.

(** The scan of [max] with its accumulator: the items before the best
    one have smaller counts, the items after it no larger ones. *)
Lemma max_first_split pre b mid rest :
  Forall (fun p => snd p < snd b) pre -> Forall (fun p => snd p <= snd b) mid ->
  is_first_max (pre ++ b :: mid ++ rest) (max_first b rest).
Proof.
  revert pre b mid. induction rest as [|x rest IH]; intros pre b mid Hpre Hmid; cbn [max_first].
  - exists pre, mid. by rewrite app_nil_r.
  - destruct (Nat.ltb_spec (snd b) (snd x)).
    + replace (pre ++ b :: mid ++ x :: rest) with ((pre ++ b :: mid) ++ x :: [] ++ rest)
        by (by rewrite <- app_assoc).
      apply IH; [|constructor].
      apply Forall_app. split; [eapply Forall_impl; [exact Hpre|]; cbn; lia|].
      constructor; [done|]. eapply Forall_impl; [exact Hmid|]. cbn; lia.
    + replace (mid ++ x :: rest) with ((mid ++ [x]) ++ rest) by (by rewrite <- app_assoc).
      apply IH; [done|]. apply Forall_app. split; [done|]. by constructor.
Qed.

(** There is at most one first maximum. *)
Lemma is_first_max_unique c m m' : is_first_max c m -> is_first_max c m' -> m = m'.
Proof.
  intros (c1 & c2 & -> & H1 & H2) (d1 & d2 & Heq & G1 & G2).
  revert d1 Heq G1 H1. induction c1 as [|p c1 IH]; intros [|q d1] Heq G1 H1; cbn in *;
    injection Heq as E1 E2; subst; rewrite ?Forall_app, ?Forall_cons in *; destruct_and?;
    try lia; eauto.
Qed.

Lemma most_common1_first_max c m : most_common1 c = [m] -> is_first_max c m.
Proof.
  destruct c as [|x c]; cbn; [discriminate|]. intros [= <-].
  apply (max_first_split [] x [] c); constructor.
Qed.

Lemma most_common1_cons c : c <> [] -> exists m, most_common1 c = [m].
Proof. destruct c as [|x c]; [done|]. intros _. eexists. reflexivity. Qed.

Lemma most_common1_In c m : most_common1 c = [m] -> In m c.
Proof.
  intros (c1 & c2 & -> & _)%most_common1_first_max. apply in_or_app. right. by left.
Qed.

(** Every key of a counter is an element it was fed. *)
Lemma counter_set_keys (P : K -> Prop) c k n :
  Forall (fun kv => P (fst kv)) c -> P k -> Forall (fun kv => P (fst kv)) (counter_set c k n).
Proof.
  intros Hc Hk. induction Hc as [|[k' m] c Hk' Hc IH]; cbn; [by repeat constructor|].
  destruct (eqk k k'); constructor; auto.
Qed.

Lemma count_elements_keys (P : K -> Prop) c xs :
  Forall (fun kv => P (fst kv)) c -> Forall P xs -> Forall (fun kv => P (fst kv)) (count_elements c xs).
Proof.
  unfold count_elements. revert c.
  induction xs as [|x xs IH]; intros c Hc Hxs; cbn [fold_left]; [done|].
  apply Forall_cons_1 in Hxs as [Hx Hxs]. apply IH; [|done]. by apply counter_set_keys.
Qed.

(** C6: [Counter(xs)] is the frequency table of [xs]: its keys are the
    distinct elements in order of first occurrence, each with its number
    of occurrences. *)
Theorem counter_of_freq xs : counter_of xs = freq_table xs.
Proof. unfold counter_of. exact (count_elements_freq [] xs). Qed.

(** C7: [most_common(1)] returns exactly the first item of largest count. *)
Theorem most_common1_spec c m : most_common1 c = [m] <-> is_first_max c m.
Proof.
  split; [apply most_common1_first_max|].
  - intros Hm. destruct c as [|x c].
    + destruct Hm as (c1 & c2 & Hc & _). by destruct c1.
    + cbn. f_equal. eapply is_first_max_unique; [|exact Hm].
      apply (max_first_split [] x [] c); constructor.
Qed.

Lemma is_first_max_tab f d m :
  is_first_max (tab f d) m <->
  exists d1 d2, d = d1 ++ fst m :: d2 /\ snd m = f (fst m) /\
    Forall (fun y => f y < snd m) d1 /\ Forall (fun y => f y <= snd m) d2.
Proof.
  unfold is_first_max, tab. split.
  - intros (c1 & c2 & Hc & H1 & H2).
    apply map_eq_app in Hc as (d1 & d' & -> & <- & Hc).
    apply map_eq_cons in Hc as (k & d2 & -> & <- & <-). cbn.
    exists d1, d2. rewrite Forall_fmap in H1. rewrite Forall_fmap in H2. done.
  - intros (d1 & d2 & -> & Hm & H1 & H2). destruct m as [k n]. cbn in *. subst n.
    exists (map (fun k => (k, f k)) d1), (map (fun k => (k, f k)) d2).
    rewrite map_app. cbn. rewrite !Forall_fmap. done.
Qed.

(** The list-level reading of the winner, used by the clients. *)
Lemma most_common_counter_fwd xs k n :
  most_common1 (counter_of xs) = [(k, n)] ->
  n = count_in k xs /\
  exists d1 d2, dedup_first xs = d1 ++ k :: d2 /\
    Forall (fun y => count_in y xs < n) d1 /\ Forall (fun y => count_in y xs <= n) d2.
Proof.
  intros H. apply most_common1_first_max in H.
  change (counter_of xs) with (count_elements (freq_table []) xs) in H.
  rewrite (count_elements_freq [] xs), freq_table_tab in H.
  apply (is_first_max_tab (fun y => count_in y xs)) in H as (d1 & d2 & ? & ? & ? & ?). cbn in *.
  split; [done|]. by exists d1, d2.
Qed.

Lemma counter_of_nil_iff xs : counter_of xs = [] <-> xs = [].
Proof.
  change (counter_of xs) with (count_elements (freq_table []) xs).
  rewrite (count_elements_freq [] xs). destruct xs as [|x xs]; [done|]. split; discriminate.
Qed.

End Counter.

(** C8: Tie-break of [most_common(1)] on a counter built from a list: the
    winner [k] is counted exactly, no element occurs more often, and
    every element whose first occurrence comes before the first
    occurrence of [k] occurs strictly less often. *)
Theorem most_common_counter {K} (eqk : K -> K -> bool)
  (Hrefl : forall x, eqk x x = true) (Hsym : forall x y, eqk x y = eqk y x)
  (Htrans : forall x y z, eqk x y = true -> eqk y z = true -> eqk x z = true)
  xs k n :
  most_common1 (counter_of eqk xs) = [(k, n)] <->
  n = count_in eqk k xs /\
  exists d1 d2, dedup_first eqk xs = d1 ++ k :: d2 /\
    Forall (fun y => count_in eqk y xs < n) d1 /\ Forall (fun y => count_in eqk y xs <= n) d2.
Proof.
  rewrite most_common1_spec, counter_of_freq by done. rewrite freq_table_tab.
  rewrite (is_first_max_tab (fun y => count_in eqk y xs)). cbn.
  split; [intros (d1 & d2 & ? & ? & ? & ?); split; [done|]; by exists d1, d2|].
  intros [? (d1 & d2 & ? & ? & ?)]. exists d1, d2. done.
Qed.

(** [most_common(1)] of a counter is empty exactly when nothing was
    counted: the [IndexError] of [most_common(1)[0]]. *)
Theorem most_common_counter_nil {K} (eqk : K -> K -> bool) xs :
  most_common1 (counter_of eqk xs) = [] <-> xs = [].
Proof.
  destruct xs as [|x xs]; [done|]. split; [|discriminate].
  unfold counter_of, count_elements. cbn.
  assert (forall c ys, c <> [] -> fold_left (fun c x => counter_set eqk c x (S (counter_get eqk c x))) ys c <> [])
    as Hne.
  { intros c ys. revert c. induction ys as [|y ys IH]; intros c Hc; cbn; [done|].
    apply IH. destruct c as [|[k m] c]; cbn; [done|]. by destruct (eqk y k). }
  destruct (fold_left _ xs _) eqn:E; [|discriminate]. exfalso. by eapply Hne; [|exact E].
Qed.

(** ** Witnesses *)

Lemma str_eqb_trans (x y z : string) :
  String.eqb x y = true -> String.eqb y z = true -> String.eqb x z = true.
Proof. rewrite !String.eqb_eq. congruence. Qed.

Lemma counter_of_freq_witness :
  counter_of String.eqb ["b"; "a"; "b"]%string = freq_table String.eqb ["b"; "a"; "b"]%string.
Proof. apply counter_of_freq; [exact String.eqb_refl|exact String.eqb_sym|exact str_eqb_trans]. Defined.

Lemma most_common_counter_witness :
  most_common1 (counter_of String.eqb ["a"; "b"; "b"; "a"]%string) = [("a"%string, 2)].
Proof.
  apply (most_common_counter String.eqb String.eqb_refl String.eqb_sym str_eqb_trans).
  split; [reflexivity|]. exists [], ["b"%string]. split; [reflexivity|].
  split; [constructor|]. repeat constructor.
Defined.
