(* ===== verification/Stats.v ===== *)
(** * Means rounded half to even

    [src/task.py] lines 83 and 86 compute
    [df.groupby('city')[col].mean().round().astype(int)].  On an
    integer column pandas' [mean] is [sum / count] and [round()] is
    numpy's round-half-to-even.  This file computes that value exactly
    on the rational [sum / count], which equals the float computation
    as long as [|sum| < 2^52] (see the root header), and proves that it
    is the nearest integer, that ties go to the even neighbour, and that
    it stays within the bounds of the data. *)

From S2P Require Import Prelude.

Local Open Scope Z_scope.

(** [round(p / q)] with ties to even, for [q > 0]. *)
Definition round_half_even (p q : Z) : Z :=
  let n := p / q in
  let r := p mod q in
  match Z.compare (2 * r) q with
  | Lt => n
  | Gt => n + 1
  | Eq => if Z.even n then n else n + 1
  end.

(** The mean of a column, rounded; [None] is pandas' [NaN], the mean
    of no value. *)
Definition mean_round (xs : list Z) : option Z :=
  match xs with
  | [] => None
  | _ => Some (round_half_even (sumZ xs) (Z.of_nat (length xs)))
  end.

(** The distance from [p / q] to [z], doubled and scaled by [q]. *)
Definition twice_err (p q z : Z) : Z := 2 * (p - q * z).

Lemma even_add_one z : Z.even (z + 1) = negb (Z.even z).
Proof. rewrite Z.even_add. by destruct (Z.even z). Qed.

Lemma even_sub_one z : Z.even (z - 1) = negb (Z.even z).
Proof. rewrite Z.even_sub. by destruct (Z.even z). Qed.

Lemma round_half_even_cases p q :
  0 < q ->
  let z := round_half_even p q in
  (- q < twice_err p q z < q) \/ (Z.abs (twice_err p q z) = q /\ Z.even z = true).
Proof.
  intros Hq. unfold round_half_even, twice_err.
  pose proof (Z.div_mod p q ltac:(lia)) as Hdm.
  pose proof (Z.mod_pos_bound p q Hq) as Hb.
  set (n := p / q) in *. set (r := p mod q) in *.
  destruct (Z.compare_spec (2 * r) q) as [E|E|E].
  - destruct (Z.even n) eqn:Ev.
    + right. split; [lia|done].
    + right. split; [lia|]. by rewrite even_add_one, Ev.
  - left. lia.
  - left. lia.
Qed.

Lemma sumZ_bounds (xs : list Z) lo hi :
  Forall (fun x => lo <= x <= hi) xs ->
  lo * Z.of_nat (length xs) <= sumZ xs <= hi * Z.of_nat (length xs).
Proof.
  unfold sumZ. induction 1 as [|y ys Hy _ IH]; cbn [fold_right length]; [lia|].
  rewrite Nat2Z.inj_succ. lia.
Qed.

Lemma round_half_even_err p q :
  0 < q -> - q <= twice_err p q (round_half_even p q) <= q.
Proof. intros Hq. destruct (round_half_even_cases p q Hq) as [H|[H _]]; lia. Qed.

Lemma multiple_between q d : 0 < q -> - q <= q * d <= q -> -1 <= d <= 1.
Proof.
  intros Hq Hd. split; apply Znot_gt_le; intros Hc.
  - assert (q * d <= q * (-2)) by (apply Z.mul_le_mono_nonneg_l; lia). lia.
  - assert (q * 2 <= q * d) by (apply Z.mul_le_mono_nonneg_l; lia). lia.
Qed.

Lemma multiple_strictly_between q d : 0 < q -> - q < q * d < q -> d = 0.
Proof.
  intros Hq Hd. pose proof (multiple_between q d Hq ltac:(lia)).
  assert (d <> 1) by (intros ->; lia). assert (d <> -1) by (intros ->; lia). lia.
Qed.

Lemma round_half_even_within p q lo hi :
  0 < q -> lo * q <= p <= hi * q -> lo <= round_half_even p q <= hi.
Proof.
  intros Hq Hp. pose proof (round_half_even_err p q Hq) as Hn.
  set (m := round_half_even p q) in *. unfold twice_err in Hn.
  split; apply Znot_gt_le; intros Hc.
  - assert (q * m <= q * (lo - 1)) by (apply Z.mul_le_mono_nonneg_l; lia). lia.
  - assert (q * (hi + 1) <= q * m) by (apply Z.mul_le_mono_nonneg_l; lia). lia.
Qed.

(** ** Theorems *)

(** The rounded value is a nearest integer to [p / q]: it is off by at
    most one half. *)
Theorem round_half_even_nearest p q :
  0 < q -> Z.abs (twice_err p q (round_half_even p q)) <= q.
Proof. intros Hq. pose proof (round_half_even_err p q Hq). lia. Qed.

(** Any integer strictly closer than one half to [p / q] is the rounded
    value, and at an exact half the rounded value is even. *)
Theorem round_half_even_unique p q z :
  0 < q -> (Z.abs (twice_err p q z) < q \/ (Z.abs (twice_err p q z) = q /\ Z.even z = true)) ->
  round_half_even p q = z.
Proof.
  intros Hq Hz. unfold twice_err in *.
  destruct (round_half_even_cases p q Hq) as [H|[H Hev]]; unfold twice_err in H;
    set (w := round_half_even p q) in *.
  - assert (z - w = 0); [|lia]. apply (multiple_strictly_between q); [done|].
    destruct Hz as [Hz|[Hz _]]; lia.
  - destruct Hz as [Hz|[Hz Hevz]].
    + assert (z - w = 0); [|lia]. apply (multiple_strictly_between q); [done|lia].
    + pose proof (multiple_between q (z - w) Hq ltac:(lia)).
      assert (w = z \/ w = z + 1 \/ w = z - 1) as [E|[E|E]] by lia; [done| |];
        rewrite E, ?even_add_one, ?even_sub_one, Hevz in Hev; done.
Qed.

(** C33: The mean of values lying in [[lo, hi]] rounds into [[lo, hi]]. *)
Theorem mean_round_bounds (xs : list Z) lo hi m :
  Forall (fun x => lo <= x <= hi) xs -> mean_round xs = Some m -> lo <= m <= hi.
Proof.
  intros Hall Hm. destruct xs as [|x xs']; [discriminate|]. injection Hm as <-.
  pose proof (sumZ_bounds _ lo hi Hall) as Hs.
  apply round_half_even_within; [cbn [length]; lia|exact Hs].
Qed.

(** An exact mean is returned unchanged. *)
Lemma round_half_even_exact q k : 0 < q -> round_half_even (q * k) q = k.
Proof.
  intros Hq. pose proof (round_half_even_within (q * k) q k k Hq ltac:(lia)). lia.
Qed.

(** ** Witnesses *)

(** [round(5 / 2) = 2]: a tie, sent to the even neighbour. *)
Lemma round_half_even_unique_witness : round_half_even 7 2 = 4.
Proof. apply round_half_even_unique; [lia|]. right. split; reflexivity. Defined.

(** The mean 15.5 of 10 and 21 rounds to 16, inside [[10, 21]]. *)
Lemma mean_round_bounds_witness : mean_round [10; 21] = Some 16 /\ 10 <= 16 <= 21.
Proof.
  split; [reflexivity|].
  apply (mean_round_bounds [10; 21] 10 21 16); [repeat constructor; lia|reflexivity].
Defined.
