(* ===== verification/GroupBy.v ===== *)
(** * [df.groupby('city')[col].mean().round().astype(int).to_dict()]

    [src/task.py] lines 83 and 86.  pandas' [groupby] defaults to
    [sort=True] and [dropna=True]: the groups are the distinct non-missing
    keys in sorted order (Python string order, by code point), and rows
    whose key is missing belong to no group.  [mean] skips missing
    values and gives [NaN] on a group without any; [astype(int)] then
    raises [ValueError] ("Cannot convert non-finite values").

    [group_keys] builds the sorted key list by insertion, [groupby_mean]
    the series, [astype_int] the conversion; [to_dict()] keeps the
    series order, so the result is an association list sorted by key. *)

From S2P Require Import Prelude Stats.
From Stdlib Require Import Sorted OrdersEx.

Module SOT := String_as_OT.

(** Insert a key into a strictly sorted key list, once. *)
Fixpoint insert_key (k : string) (ks : list string) : list string :=
  match ks with
  | [] => [k]
  | k' :: ks' =>
      match SOT.compare k k' with
      | Lt => k :: ks
      | Eq => ks
      | Gt => k' :: insert_key k ks'
      end
  end.

(** Lookup in the dict produced by [to_dict()]. *)
Fixpoint assoc_get {A} (k : string) (l : list (string * A)) : option A :=
  match l with
  | [] => None
  | (k', v) :: l' => if String.eqb k k' then Some v else assoc_get k l'
  end.

Section GroupBy.
Context {R : Type} (key : R -> option string).

Definition group_keys (rs : list R) : list string :=
  fold_left (fun ks r => match key r with Some k => insert_key k ks | None => ks end) rs [].

Definition in_group (k : string) (r : R) : bool :=
  match key r with Some k' => String.eqb k k' | None => false end.

(** The rows of group [k], in input order. *)
Definition group (rs : list R) (k : string) : list R := List.filter (in_group k) rs.

(** [groupby(key)[val].mean().round()]: [None] is [NaN]. *)
Definition groupby_mean (val : R -> option Z) (rs : list R) : list (string * option Z) :=
  map (fun k => (k, mean_round (omap_list val (group rs k)))) (group_keys rs).

Definition has_key (r : R) : bool := match key r with Some _ => true | None => false end.

End GroupBy.

(** [astype(int)]: fails on the first [NaN]. *)
Definition astype_int (s : list (string * option Z)) : PyM (list (string * Z)) :=
  mapM (fun kv => match snd kv with Some z => pret (fst kv, z) | None => raise ValueError end) s.

(** ** Lemmas on the sorted key list *)

Lemma SOT_compare_eq k k' : SOT.compare k k' = Eq -> k = k'.
Proof. destruct (SOT.compare_spec k k'); congruence. Qed.

Lemma In_insert_key x k ks : In x (insert_key k ks) <-> x = k \/ In x ks.
Proof.
  induction ks as [|k' ks IH]; cbn; [intuition congruence|].
  destruct (SOT.compare k k') eqn:E; cbn.
  - apply SOT_compare_eq in E. subst. intuition congruence.
  - intuition congruence.
  - rewrite IH. intuition congruence.
Qed.

Lemma HdRel_insert_key a k ks :
  HdRel SOT.lt a ks -> SOT.lt a k -> HdRel SOT.lt a (insert_key k ks).
Proof.
  destruct ks as [|k' ks]; cbn; intros H Ha; [by constructor|].
  destruct (SOT.compare k k'); [done|by constructor|]. inversion H; by constructor.
Qed.

Lemma insert_key_sorted k ks : Sorted SOT.lt ks -> Sorted SOT.lt (insert_key k ks).
Proof.
  induction ks as [|k' ks IH]; cbn; intros Hs; [by repeat constructor|].
  destruct (SOT.compare_spec k k') as [E|E|E].
  - done.
  - constructor; [done|by constructor].
  - apply Sorted_inv in Hs as [Hs Hd]. constructor; [by apply IH|].
    by apply HdRel_insert_key.
Qed.

Section GroupByLemmas.
Context {R : Type} (key : R -> option string).

Lemma group_keys_fold_sorted rs ks :
  Sorted SOT.lt ks ->
  Sorted SOT.lt (fold_left (fun ks r => match key r with Some k => insert_key k ks | None => ks end) rs ks).
Proof.
  revert ks. induction rs as [|r rs IH]; intros ks Hs; cbn; [done|].
  apply IH. destruct (key r); [by apply insert_key_sorted|done].
Qed.

Lemma In_group_keys_fold x rs ks :
  In x (fold_left (fun ks r => match key r with Some k => insert_key k ks | None => ks end) rs ks) <->
  In x ks \/ exists r, In r rs /\ key r = Some x.
Proof.
  revert ks. induction rs as [|r rs IH]; intros ks; cbn.
  - split; [tauto|]. intros [H|(r & [] & _)]. done.
  - rewrite IH. destruct (key r) as [k|] eqn:Ek; [rewrite In_insert_key|]; split.
    + intros [[->|H]|(r' & H1 & H2)]; eauto.
    + intros [H|(r' & [->|H1] & H2)]; [tauto| |eauto]. left. left. congruence.
    + intros [H|(r' & H1 & H2)]; eauto.
    + intros [H|(r' & [->|H1] & H2)]; [tauto|congruence|eauto].
Qed.

Lemma In_group_keys x rs : In x (group_keys key rs) <-> exists r, In r rs /\ key r = Some x.
Proof.
  unfold group_keys. rewrite In_group_keys_fold. split; [intros [[]|H]; done|tauto].
Qed.

Lemma group_keys_sorted rs : Sorted SOT.lt (group_keys key rs).
Proof. apply group_keys_fold_sorted. constructor. Qed.

Lemma group_keys_NoDup rs : List.NoDup (group_keys key rs).
Proof.
  pose proof (Sorted_StronglySorted SOT.lt_strorder.(StrictOrder_Transitive) (group_keys_sorted rs)) as H.
  induction H as [|k ks _ IH Hall]; constructor; [|done].
  intros Hin. eapply List.Forall_forall in Hall; [|exact Hin].
  by apply (StrictOrder_Irreflexive k).
Qed.

Lemma in_group_true k r : in_group key k r = true <-> key r = Some k.
Proof.
  unfold in_group. destruct (key r) as [k'|]; [|done].
  rewrite String.eqb_eq. split; congruence.
Qed.

Lemma group_nil_iff rs k : group key rs k = [] <-> ~ exists r, In r rs /\ key r = Some k.
Proof.
  unfold group. split.
  - intros H (r & Hr & Hk). assert (In r (List.filter (in_group key k) rs)) as Hin.
    { apply List.filter_In. split; [done|]. by apply in_group_true. }
    rewrite H in Hin. done.
  - intros H. destruct (List.filter (in_group key k) rs) as [|r l] eqn:E; [done|].
    exfalso. apply H. exists r. assert (In r (List.filter (in_group key k) rs)) as Hin
      by (rewrite E; apply in_eq).
    apply List.filter_In in Hin as [Hin Hg]. split; [done|]. by apply in_group_true.
Qed.

Lemma assoc_get_tab {A} (F : string -> A) k ks :
  assoc_get k (map (fun k' => (k', F k')) ks) = if in_dec String.string_dec k ks then Some (F k) else None.
Proof.
  induction ks as [|k' ks IH]; cbn [assoc_get map]; [done|].
  destruct (String.eqb_spec k k') as [->|Hne].
  - destruct (in_dec String.string_dec k' (k' :: ks)) as [_|H]; [done|]. exfalso. apply H. apply in_eq.
  - rewrite IH. destruct (in_dec String.string_dec k ks) as [H1|H1], (in_dec String.string_dec k (k' :: ks)) as [H2|H2];
      try done.
    + exfalso. apply H2. by apply in_cons.
    + exfalso. destruct H2 as [->|?]; [done|tauto].
Qed.

(** The value of group [k] is computed from the rows of group [k]
    alone, and there is a value exactly when the group is non-empty. *)
Lemma assoc_get_groupby_mean val rs k :
  assoc_get k (groupby_mean key val rs) =
  match group key rs k with [] => None | g => Some (mean_round (omap_list val g)) end.
Proof.
  unfold groupby_mean. rewrite assoc_get_tab.
  destruct (in_dec String.string_dec k (group_keys key rs)) as [Hin|Hin]; rewrite In_group_keys in Hin;
    destruct (group key rs k) as [|r g] eqn:E; try done.
  - exfalso. by apply group_nil_iff in E.
  - exfalso. apply Hin. assert (In r (group key rs k)) as H by (rewrite E; apply in_eq).
    apply List.filter_In in H as [H Hg]. exists r. split; [done|]. by apply in_group_true.
Qed.

Lemma list_sum_map_add {A} (f g : A -> nat) l :
  list_sum (map (fun x => f x + g x) l) = list_sum (map f l) + list_sum (map g l).
Proof. unfold list_sum. induction l as [|x l IH]; cbn; lia. Qed.

Lemma list_sum_map_zero {A} (l : list A) : list_sum (map (fun _ => 0) l) = 0.
Proof. unfold list_sum. induction l; cbn; lia. Qed.

(** Over distinct keys containing the key of [r], [r] is counted once. *)
Lemma list_sum_indicator ks r :
  List.NoDup ks -> (forall k0, key r = Some k0 -> In k0 ks) ->
  list_sum (map (fun k => if in_group key k r then 1 else 0) ks) = if has_key key r then 1 else 0.
Proof.
  unfold has_key, in_group. destruct (key r) as [k0|]; [|intros; apply list_sum_map_zero].
  intros Hnd Hin. specialize (Hin k0 eq_refl). induction Hnd as [|k ks Hk Hnd IH]; [done|].
  cbn [map]. rewrite list_sum_cons. destruct (String.eqb_spec k k0) as [->|Hne].
  - rewrite (map_ext_in _ (fun _ => 0)); [rewrite list_sum_map_zero; lia|].
    intros k' Hk'. destruct (String.eqb_spec k' k0); [subst; contradiction|done].
  - destruct Hin as [->|Hin]; [done|]. by rewrite IH.
Qed.

Lemma sum_group_sizes ks rs :
  List.NoDup ks -> (forall r k, In r rs -> key r = Some k -> In k ks) ->
  list_sum (map (fun k => length (group key rs k)) ks) = length (List.filter (has_key key) rs).
Proof.
  intros Hnd. induction rs as [|r rs IH]; intros Hin; cbn [List.filter].
  - apply list_sum_map_zero.
  - rewrite (map_ext (fun k => length (group key (r :: rs) k))
                     (fun k => (if in_group key k r then 1 else 0) + length (group key rs k))).
    2: { intros k. unfold group. cbn. by destruct (in_group key k r). }
    rewrite list_sum_map_add, list_sum_indicator by eauto using in_eq.
    rewrite IH by eauto using in_cons. by destruct (has_key key r).
Qed.

Lemma astype_int_all s :
  Forall (fun kv => snd kv <> None) s ->
  astype_int s = pret (omap_list (fun kv => match snd kv with Some z => Some (fst kv, z) | None => None end) s).
Proof.
  induction 1 as [|[k [z|]] s Hkv _ IH]; cbn; [done| |done].
  unfold astype_int in IH. rewrite IH. reflexivity.
Qed.

Lemma astype_int_nan s :
  Exists (fun kv => snd kv = None) s -> astype_int s = raise ValueError.
Proof.
  induction 1 as [[k o] s Hkv|[k [z|]] s _ IH]; cbn in *; subst; [done| |done].
  unfold astype_int in IH. rewrite IH. reflexivity.
Qed.

End GroupByLemmas.

(** ** Theorems *)

(** C27: The groups of [groupby] come out sorted, without repetition, and
    are exactly the keys present in the rows: rows with a missing key
    form no group. *)
Theorem groupby_mean_keys {R} (key : R -> option string) val rs :
  Sorted SOT.lt (map fst (groupby_mean key val rs)) /\
  forall k, In k (map fst (groupby_mean key val rs)) <-> exists r, In r rs /\ key r = Some k.
Proof.
  unfold groupby_mean. rewrite map_map. cbn. rewrite map_id.
  split; [apply group_keys_sorted|]. intros k. apply In_group_keys.
Qed.

(** C28: Grouping isolation: the value of group [k] depends only on the rows
    of group [k]; rewriting the rows of other groups leaves it alone. *)
Theorem groupby_mean_isolation {R} (key : R -> option string) val rs rs' k :
  group key rs k = group key rs' k ->
  assoc_get k (groupby_mean key val rs) = assoc_get k (groupby_mean key val rs').
Proof. intros Hg. by rewrite !assoc_get_groupby_mean, Hg. Qed.

(** The group sizes add up to the number of rows that have a key. *)
Theorem groupby_partition {R} (key : R -> option string) rs :
  list_sum (map (fun k => length (group key rs k)) (group_keys key rs)) =
  length (List.filter (has_key key) rs).
Proof.
  apply sum_group_sizes; [apply group_keys_NoDup|].
  intros r k Hr Hk. apply In_group_keys. eauto.
Qed.

(** ** Witnesses *)

(** Rows are (city, age) pairs; the row of city "Y" differs between the
    two inputs, the group of "X" does not. *)
Lemma groupby_mean_isolation_witness :
  assoc_get "X" (groupby_mean fst snd [(Some "X"%string, Some 10%Z); (Some "Y"%string, Some 30%Z)]) =
  assoc_get "X" (groupby_mean fst snd [(Some "X"%string, Some 10%Z); (Some "Y"%string, Some 99%Z)]).
Proof. apply groupby_mean_isolation. reflexivity. Defined.
