(* ===== verification/Source.v ===== *)
(** * The record source: [get_data] ([src/task.py] lines 21-47)

    [get_data(url)] issues a streaming GET ([requests_get]: the class
    [Transport] gives the outcome [http_result] for the URL, a response
    or an exception of requests that nobody catches; [get_data_url]);
    on status 200 it walks
    [response.iter_lines()], skips empty lines ([if line:]), decodes
    each other line with [json.loads] and appends it, and on a
    [json.JSONDecodeError] prints the error and calls [exit(-1)]; on any
    other status it prints the status and returns [None].

    The response is a status code and the chunks of its body, as
    [iter_content(chunk_size=512)] yields them.  [iter_lines] is
    requests' loop over the chunks ([iter_lines_chunks]): each chunk,
    after the piece of line held back from the previous one, is split
    by [bytes.splitlines] (line breaks [\n], [\r], [\r\n]) and its last
    line is held back when the chunk does not end with a line break.
    [iter_lines_splitlines] shows that, up to the empty lines that
    [if line:] drops, this is [splitlines] of the whole body, whatever
    the chunk sizes: requests yields one more empty line where a
    [\r\n] is split between two chunks.  [json.loads] is reached through the class
    [JsonDecoder]: a line decodes to a value, fails with
    [JSONDecodeError], or fails earlier with [UnicodeDecodeError] on
    bytes that are not UTF-8 (not caught by the [except] clause);
    [LoadOutOfModel] is a document the model of the decoder does not
    describe (a float, a code point above U+00FF).  [Loads] gives the
    decoder of the standard library as an instance. *)

From S2P Require Import Prelude Json.

(** A response: its status and the chunks of the body in the order
    [iter_content(chunk_size=512)] yields them (their sizes depend on
    the transport). *)
Record response : Type := {
  status_code : Z;
  chunks : list (list Byte.byte)
}.

(** [response.content]: the whole body. *)
Definition content (r : response) : list Byte.byte := concat (chunks r).

Inductive load_result : Type :=
| Loaded (v : json)
| JSONDecodeError (detail : string)
| UnicodeDecodeError
| LoadOutOfModel.

(** What [json.loads] does to one line of bytes. *)
Class JsonDecoder : Type := json_loads : list Byte.byte -> load_result.

(** [bytes.splitlines()]. *)
Fixpoint splitlines (bs : list Byte.byte) : list (list Byte.byte) :=
  match bs with
  | [] => []
  | Byte.x0d :: Byte.x0a :: rest => [] :: splitlines rest
  | Byte.x0d :: rest => [] :: splitlines rest
  | Byte.x0a :: rest => [] :: splitlines rest
  | b :: rest =>
      match splitlines rest with
      | [] => [[b]]
      | l :: ls => (b :: l) :: ls
      end
  end.

(** [lines and lines[-1] and chunk and lines[-1][-1] == chunk[-1]]:
    the chunk does not end with a line break, so its last line goes on
    in the next chunk. *)
Definition keeps_pending (lines : list (list Byte.byte)) (chunk : list Byte.byte) : bool :=
  match last lines, last chunk with
  | Some l, Some c => match last l with Some x => Byte.eqb x c | None => false end
  | _, _ => false
  end.

(** The loop of requests' [Response.iter_lines] ([delimiter=None]):
    the pending piece of line is put in front of the next chunk, the
    chunk is split with [splitlines], and its last line is held back
    when it may go on. *)
Fixpoint iter_lines_chunks (pending : option (list Byte.byte)) (cs : list (list Byte.byte))
    : list (list Byte.byte) :=
  match cs with
  | [] => match pending with Some p => [p] | None => [] end
  | c :: cs' =>
      let chunk := match pending with Some p => p ++ c | None => c end in
      let lines := splitlines chunk in
      if keeps_pending lines chunk then removelast lines ++ iter_lines_chunks (last lines) cs'
      else lines ++ iter_lines_chunks None cs'
  end.

(** [response.iter_lines()] *)
Definition iter_lines (r : response) : list (list Byte.byte) := iter_lines_chunks None (chunks r).

(** What [requests.get(url, stream=True)] of line 27 gives: the
    response, once its status line and headers have arrived, or one of
    the exceptions of requests (the host is not reached, too many
    redirects, ...), which [get_data] does not catch.  No [timeout] is
    passed, so a server that accepts the connection and then stalls
    keeps the call, and [iter_lines], waiting: that case has no
    outcome here. *)
Inductive http_result : Type :=
| Responded (r : response)
| RequestFailed.

(** The network as the script sees it: what [requests.get(url,
    stream=True)] gives for each URL.  The theorems hold for every
    instance. *)
Class Transport : Type := http_get : string -> http_result.

(** [response = requests.get(url, stream=True)] *)
Definition requests_get `{Transport} (url : string) : PyM response :=
  match http_get url with
  | Responded r => pret r
  | RequestFailed => raise RequestException
  end.

Section Source.
Context `{JsonDecoder}.

(** The loop of lines 34-43, with [json_objects] as accumulator. *)
Fixpoint decode_loop (json_objects : list json) (lines : list (list Byte.byte)) : PyM (list json) :=
  match lines with
  | [] => pret json_objects
  | [] :: rest => decode_loop json_objects rest
  | line :: rest =>
      match json_loads line with
      | Loaded v => decode_loop (json_objects ++ [v]) rest
      | JSONDecodeError e => do print (MsgDecodeError e); exit (-1)
      | UnicodeDecodeError => raise ValueError  (* UnicodeDecodeError is a ValueError *)
      | LoadOutOfModel => raise OutOfModel
      end
  end.

(** Lines 28-47: the body of [get_data] once the request of line 27
    has returned [r]. *)
Definition get_data (r : response) : PyM (option (list json)) :=
  if Z.eqb (status_code r) 200 then
    let* objs := decode_loop [] (iter_lines r) in pret (Some objs)
  else do print (MsgRequestFailed (status_code r)); pret None.

(** [get_data(url)] with its request: [get_data] runs on the response
    that [requests.get] returns. *)
Definition get_data_url `{Transport} (url : string) : PyM (option (list json)) :=
  let* response := requests_get url in
  get_data response.

End Source.

(** A line break byte of [splitlines]. *)
Definition is_newline (b : Byte.byte) : bool :=
  match b with Byte.x0a | Byte.x0d => true | _ => false end.

Definition nonblank (l : list Byte.byte) : bool := match l with [] => false | _ => true end.

(** ** Lemmas *)

Lemma splitlines_cons_plain b rest :
  is_newline b = false ->
  splitlines (b :: rest) = match splitlines rest with [] => [[b]] | l :: ls => (b :: l) :: ls end.
Proof. destruct b; try discriminate; reflexivity. Qed.

Lemma splitlines_line_nl l rest :
  Forall (fun b => is_newline b = false) l ->
  splitlines (l ++ Byte.x0a :: rest) = l :: splitlines rest.
Proof.
  induction 1 as [|b l Hb _ IH]; [reflexivity|].
  cbn [app]. rewrite splitlines_cons_plain by done. by rewrite IH.
Qed.

Section SourceLemmas.
Context `{JsonDecoder}.

Lemma decode_loop_acc acc lines :
  decode_loop acc lines =
  let '(out, o) := decode_loop [] lines in
  (out, match o with Ret vs => Ret (acc ++ vs) | Exit c => Exit c | Raise e => Raise e end).
Proof.
  revert acc. induction lines as [|[|b l] lines IH]; intros acc; cbn.
  - by rewrite app_nil_r.
  - apply IH.
  - destruct (json_loads (b :: l)); try reflexivity.
    rewrite (IH (acc ++ [v])), (IH [v]).
    destruct (decode_loop [] lines) as [out [vs|c|e]]; by rewrite ?app_assoc.
Qed.

Lemma decode_loop_ok lines vs :
  decode_loop [] lines = ([], Ret vs) <->
  Forall2 (fun l v => json_loads l = Loaded v) (List.filter nonblank lines) vs.
Proof.
  revert vs. induction lines as [|[|b l] lines IH]; intros vs; cbn.
  - split; [intros [= <-]; constructor|]. intros Hf. inversion Hf. reflexivity.
  - apply IH.
  - destruct (json_loads (b :: l)) as [v|e| |] eqn:E.
    + rewrite decode_loop_acc. destruct (decode_loop [] lines) as [out [vs'|c|e']] eqn:D;
        split; intros Hv.
      * injection Hv as -> <-. constructor; [done|]. by apply IH.
      * inversion Hv as [|? ? ? vs'' Hl Hr]; subst. rewrite E in Hl. injection Hl as ->.
        apply IH in Hr. by injection Hr as -> ->.
      * discriminate.
      * inversion Hv as [|? ? ? vs'' Hl Hr]; subst. apply IH in Hr. congruence.
      * discriminate.
      * inversion Hv as [|? ? ? vs'' Hl Hr]; subst. apply IH in Hr. congruence.
    + split; [discriminate|]. intros Hv. inversion Hv. congruence.
    + split; [discriminate|]. intros Hv. inversion Hv. congruence.
    + split; [discriminate|]. intros Hv. inversion Hv. congruence.
Qed.

(** Lines that are empty or decode are read past, adding to the
    accumulator. *)
Lemma decode_loop_prefix acc ls1 rest :
  Forall (fun l => nonblank l = false \/ exists v, json_loads l = Loaded v) ls1 ->
  exists acc', decode_loop acc (ls1 ++ rest) = decode_loop acc' rest.
Proof.
  intros Hls1. revert acc. induction Hls1 as [|l1 ls1 Hl1 _ IH]; intros acc; [by exists acc|].
  destruct l1 as [|b1 l1]; [apply IH|].
  destruct Hl1 as [Hb|[v Hv]]; [discriminate|]. cbn. rewrite Hv. apply IH.
Qed.

Lemma decode_loop_fail acc ls1 l ls2 e :
  Forall (fun l => nonblank l = false \/ exists v, json_loads l = Loaded v) ls1 ->
  nonblank l = true -> json_loads l = JSONDecodeError e ->
  decode_loop acc (ls1 ++ l :: ls2) = ([MsgDecodeError e], Exit (-1)).
Proof.
  intros Hls1 Hl He. destruct (decode_loop_prefix acc ls1 (l :: ls2) Hls1) as [acc' ->].
  destruct l as [|b l]; [discriminate|]. cbn. by rewrite He.
Qed.

(** A [UnicodeDecodeError] is not caught by the [except] clause. *)
Lemma decode_loop_unicode acc ls1 l ls2 :
  Forall (fun l => nonblank l = false \/ exists v, json_loads l = Loaded v) ls1 ->
  nonblank l = true -> json_loads l = UnicodeDecodeError ->
  decode_loop acc (ls1 ++ l :: ls2) = ([], Raise ValueError).
Proof.
  intros Hls1 Hl He. destruct (decode_loop_prefix acc ls1 (l :: ls2) Hls1) as [acc' ->].
  destruct l as [|b l]; [discriminate|]. cbn. by rewrite He.
Qed.

Lemma decode_loop_exits acc ls : exits_after (decode_loop acc ls).
Proof.
  revert acc. induction ls as [|[|b l] ls IH]; intros acc; cbn [decode_loop]; [exits_tac|apply IH|].
  destruct (json_loads (b :: l)); [apply IH|exits_tac..].
Qed.

#[local] Hint Resolve decode_loop_exits : exits.

Lemma get_data_exits r : exits_after (get_data r).
Proof. unfold get_data. exits_tac. Qed.

#[local] Hint Resolve get_data_exits : exits.

Lemma get_data_url_exits `{Transport} url : exits_after (get_data_url url).
Proof. unfold get_data_url, requests_get. exits_tac. Qed.

End SourceLemmas.

#[export] Hint Resolve decode_loop_exits get_data_exits get_data_url_exits : exits.

Lemma splitlines_newline_free bs :
  Forall (Forall (fun b => is_newline b = false)) (splitlines bs).
Proof.
  induction bs as [|b bs IH]; [constructor|].
  destruct (is_newline b) eqn:Eb.
  - destruct b; try discriminate; cbn; try (constructor; [constructor|done]).
    destruct bs as [|b' bs]; [repeat constructor|].
    destruct b'; cbn in *; (constructor; [constructor|]); try done.
    by apply Forall_cons_1 in IH as [_ IH].
  - rewrite splitlines_cons_plain by done.
    destruct (splitlines bs) as [|l ls]; [repeat constructor; done|].
    apply Forall_cons_1 in IH as [Hl Hls]. constructor; [by constructor|done].
Qed.


(** ** [iter_lines] over chunks and [splitlines] of the body *)

(** What follows a line break byte once [splitlines] has read it: the
    [\n] of a [\r\n] pair is read with the [\r]. *)
Definition after_break (b : Byte.byte) (s : list Byte.byte) : list Byte.byte :=
  match s with Byte.x0a :: r => if Byte.eqb b Byte.x0d then r else s | _ => s end.

Definition newline_free (l : list Byte.byte) : Prop := Forall (fun b => is_newline b = false) l.

(** A text that is empty or ends with a line break. *)
Definition ends_break (s : list Byte.byte) : Prop :=
  s = [] \/ exists s' b, s = s' ++ [b] /\ is_newline b = true.

(** The non-empty lines of a text. *)
Definition nb (s : list Byte.byte) : list (list Byte.byte) := List.filter nonblank (splitlines s).

Lemma splitlines_break b s : is_newline b = true -> splitlines (b :: s) = [] :: splitlines (after_break b s).
Proof.
  destruct b; try discriminate; intros _;
    (destruct s as [|c r]; [reflexivity|]); destruct c; reflexivity.
Qed.

Lemma splitlines_nil s : splitlines s = [] -> s = [].
Proof.
  destruct s as [|b s]; [done|]. destruct (is_newline b) eqn:Eb.
  - by rewrite splitlines_break.
  - rewrite splitlines_cons_plain by done. by destruct (splitlines s).
Qed.

Lemma after_break_cons c d X :
  after_break c (d :: X) = if Byte.eqb d Byte.x0a && Byte.eqb c Byte.x0d then X else d :: X.
Proof. destruct d; reflexivity. Qed.

Lemma after_break_app c s1 b s2 :
  is_newline b = true ->
  (exists s1', after_break c (s1 ++ b :: s2) = s1' ++ b :: s2 /\
               after_break c (s1 ++ [b]) = s1' ++ [b] /\ length s1' <= length s1) \/
  (after_break c (s1 ++ b :: s2) = s2 /\ after_break c (s1 ++ [b]) = [] /\ after_break b s2 = s2).
Proof.
  intros Hb. destruct s1 as [|d s1]; cbn [app]; rewrite !after_break_cons.
  - destruct (Byte.eqb b Byte.x0a && Byte.eqb c Byte.x0d) eqn:E; [|left; exists []; auto].
    right. apply andb_true_iff in E as [E _]. destruct b; try discriminate.
    repeat split. destruct s2 as [|[] r]; reflexivity.
  - left. destruct (Byte.eqb d Byte.x0a && Byte.eqb c Byte.x0d);
      [exists s1|exists (d :: s1)]; cbn; auto.
Qed.

Lemma cons_first_app (b : Byte.byte) L M :
  L <> [] ->
  match L ++ M with [] => [[b]] | l :: ls => (b :: l) :: ls end =
  (match L with [] => [[b]] | l :: ls => (b :: l) :: ls end) ++ M.
Proof. by destruct L. Qed.

(** [splitlines] of a text cut after a line break. *)
Lemma splitlines_app_break s1 b s2 :
  is_newline b = true ->
  splitlines (s1 ++ b :: s2) = splitlines (s1 ++ [b]) ++ splitlines (after_break b s2).
Proof.
  intros Hb.
  induction s1 as [s1 IH] using (well_founded_ind (well_founded_ltof _ (@length Byte.byte))).
  unfold ltof in IH.
  destruct s1 as [|c s1]; cbn [app].
  - rewrite !splitlines_break by done. reflexivity.
  - destruct (is_newline c) eqn:Ec.
    + rewrite !splitlines_break by done.
      destruct (after_break_app c s1 b s2 Hb) as [(s1' & -> & -> & Hl)|(-> & -> & ->)]; [|reflexivity].
      rewrite IH; [reflexivity|cbn; lia].
    + rewrite !splitlines_cons_plain by done. rewrite IH by (cbn; lia).
      apply cons_first_app. intros Hn%splitlines_nil. by destruct s1.
Qed.

Lemma nb_after_break b s : is_newline b = true -> nb (after_break b s) = nb s.
Proof.
  intros Hb. destruct s as [|d r]; [reflexivity|]. rewrite after_break_cons.
  destruct (Byte.eqb d Byte.x0a && Byte.eqb b Byte.x0d) eqn:E; [|reflexivity].
  apply andb_true_iff in E as [E _]. destruct d; try discriminate. reflexivity.
Qed.

(** The non-empty lines of a text cut after a line break are those of
    the two pieces. *)
Lemma nb_app s1 s2 : ends_break s1 -> nb (s1 ++ s2) = nb s1 ++ nb s2.
Proof.
  intros [->|(s' & b & -> & Hb)]; [reflexivity|].
  unfold nb. rewrite <- app_assoc. cbn [app]. rewrite splitlines_app_break, List.filter_app by done.
  fold (nb (after_break b s2)). by rewrite nb_after_break.
Qed.

Lemma splitlines_line l : l <> [] -> newline_free l -> splitlines l = [l].
Proof.
  intros Hne Hl. induction Hl as [|b l Hb Hl IH]; [done|].
  rewrite splitlines_cons_plain by done. destruct l as [|b' l]; [reflexivity|]. by rewrite IH.
Qed.

Lemma splitlines_app_line a l :
  ends_break a -> l <> [] -> newline_free l -> splitlines (a ++ l) = splitlines a ++ [l].
Proof.
  intros [->|(s' & b & -> & Hb)] Hne Hl; [by apply splitlines_line|].
  rewrite <- app_assoc. cbn [app]. rewrite splitlines_app_break by done.
  destruct l as [|d l]; [done|]. apply Forall_cons_1 in Hl as [Hd Hl'].
  rewrite after_break_cons. replace (Byte.eqb d Byte.x0a) with false by (by destruct d).
  cbn [andb]. rewrite (splitlines_line (d :: l)); [reflexivity|discriminate|by constructor].
Qed.

(** Every text is complete lines, or complete lines followed by a
    piece of line. *)
Lemma split_last_line s :
  ends_break s \/ exists a l, s = a ++ l /\ ends_break a /\ l <> [] /\ newline_free l.
Proof.
  induction s as [|x s IH] using rev_ind; [by left; left|].
  destruct (is_newline x) eqn:Ex; [left; right; eauto|right].
  destruct IH as [Hs|(a & l & -> & Ha & Hne & Hl)].
  - exists s, [x]. repeat split; [done|done|by repeat constructor].
  - exists a, (l ++ [x]). rewrite <- app_assoc. repeat split; [done| |].
    + by destruct l.
    + apply Forall_app. split; [done|by repeat constructor].
Qed.

Lemma last_newline_free (ls : list (list Byte.byte)) s l x :
  ls = splitlines s -> last ls = Some l -> last l = Some x -> is_newline x = false.
Proof.
  intros -> Hl%last_Some_elem_of Hx%last_Some_elem_of.
  pose proof (splitlines_newline_free s) as Hf. rewrite Forall_forall in Hf.
  specialize (Hf l Hl). rewrite Forall_forall in Hf. by apply Hf.
Qed.

(** A chunk that ends with a line break keeps nothing back. *)
Lemma keeps_pending_break chunk : ends_break chunk -> keeps_pending (splitlines chunk) chunk = false.
Proof.
  unfold keeps_pending. intros [->|(s' & b & -> & Hb)]; [by destruct (last (splitlines []))|].
  rewrite last_snoc. destruct (last (splitlines (s' ++ [b]))) as [l|] eqn:El; [|done].
  destruct (last l) as [x|] eqn:Ex; [|done].
  pose proof (last_newline_free _ _ _ _ eq_refl El Ex) as Hx.
  destruct (Byte.eqb x b) eqn:E; [|done]. apply Byte.byte_dec_bl in E as ->. congruence.
Qed.

Lemma keeps_pending_line a l :
  ends_break a -> l <> [] -> newline_free l -> keeps_pending (splitlines a ++ [l]) (a ++ l) = true.
Proof.
  intros _ Hne _. unfold keeps_pending. rewrite last_snoc, last_app.
  destruct (last l) as [x|] eqn:Ex; [by apply Byte.byte_dec_lb|]. by apply last_None in Ex.
Qed.

Definition pending_text (o : option (list Byte.byte)) : list Byte.byte :=
  match o with Some p => p | None => [] end.

Definition pending_ok (o : option (list Byte.byte)) : Prop :=
  match o with Some p => p <> [] /\ newline_free p | None => True end.

(** requests' loop yields, up to empty lines, the lines of the pending
    piece followed by the remaining chunks. *)
Lemma iter_lines_chunks_nb o cs :
  pending_ok o -> List.filter nonblank (iter_lines_chunks o cs) = nb (pending_text o ++ concat cs).
Proof.
  revert o. induction cs as [|c cs IH]; intros o Ho; cbn [iter_lines_chunks concat].
  - destruct o as [p|]; [|reflexivity]. destruct Ho as [Hne Hp].
    unfold nb. rewrite app_nil_r, splitlines_line by done. by destruct p.
  - replace (match o with Some p => p ++ c | None => c end) with (pending_text o ++ c)
      by (by destruct o). rewrite app_assoc.
    destruct (split_last_line (pending_text o ++ c)) as [Hb|(a & l & E & Ha & Hne & Hl)].
    + rewrite (keeps_pending_break _ Hb), List.filter_app, (IH None I), (nb_app _ _ Hb). reflexivity.
    + rewrite E, splitlines_app_line, keeps_pending_line by done.
      rewrite last_snoc, removelast_last, List.filter_app, (IH (Some l) (conj Hne Hl)). cbn [pending_text].
      rewrite <- app_assoc, (nb_app _ _ Ha). reflexivity.
Qed.

(** Two lists of lines are the same to [get_data] when they hold the
    same non-empty lines in the same order. *)
Definition same_lines (ls1 ls2 : list (list Byte.byte)) : Prop :=
  List.filter nonblank ls1 = List.filter nonblank ls2.

#[global] Instance same_lines_equiv : Equivalence same_lines.
Proof. unfold same_lines. split; [done|by intros ?? ->|by intros ??? -> ->]. Qed.

Lemma iter_lines_same r : same_lines (iter_lines r) (splitlines (content r)).
Proof. exact (iter_lines_chunks_nb None (chunks r) I). Qed.

Section DecodeLines.
Context `{JsonDecoder}.

Lemma decode_loop_filter acc ls : decode_loop acc (List.filter nonblank ls) = decode_loop acc ls.
Proof.
  revert acc. induction ls as [|[|b l] ls IH]; intros acc; cbn; [reflexivity|apply IH|].
  destruct (json_loads (b :: l)); rewrite ?IH; reflexivity.
Qed.

(** The loop skips empty lines, so it respects [same_lines]. *)
#[global] Instance decode_loop_proper acc : Proper (same_lines ==> eq) (decode_loop acc).
Proof. intros ls1 ls2 E. by rewrite <- decode_loop_filter, E, decode_loop_filter. Qed.

(** The loop of [get_data] reads the same from requests' lines as from
    the lines of the whole body. *)
Lemma decode_loop_iter_lines acc r : decode_loop acc (iter_lines r) = decode_loop acc (splitlines (content r)).
Proof. by rewrite iter_lines_same. Qed.

Lemma get_data_content r :
  get_data r =
    if Z.eqb (status_code r) 200 then
      let* objs := decode_loop [] (splitlines (content r)) in pret (Some objs)
    else do print (MsgRequestFailed (status_code r)); pret None.
Proof. unfold get_data. by rewrite decode_loop_iter_lines. Qed.

End DecodeLines.

(** ** Theorems *)

(** C17: The chunks of a body do not matter: requests' [iter_lines] gives,
    up to empty lines, the lines [bytes.splitlines] finds in the whole
    body, whatever the sizes of the chunks [iter_content] yields.
    Where a [\r\n] is split between two chunks, requests yields one
    more, empty, line, which [if line:] skips. *)
Theorem iter_lines_splitlines r :
  List.filter nonblank (iter_lines r) = List.filter nonblank (splitlines (content r)).
Proof. apply iter_lines_same. Qed.

(** [bytes.splitlines] undoes the writing of lines each terminated by
    ["\n"], when no line holds a line break byte. *)
Theorem splitlines_roundtrip (ls : list (list Byte.byte)) :
  Forall (Forall (fun b => is_newline b = false)) ls ->
  splitlines (concat (map (fun l => l ++ [Byte.x0a]) ls)) = ls.
Proof.
  induction 1 as [|l ls Hl _ IH]; [reflexivity|].
  cbn [map concat]. rewrite <- app_assoc. cbn [app]. by rewrite splitlines_line_nl, IH.
Qed.

Section SourceTheorems.
Context `{JsonDecoder}.

(** C18: On status 200, [get_data] returns the decoded objects, one per
    non-empty line and in line order, without printing anything,
    exactly when every non-empty line decodes. *)
Theorem get_data_ok r vs :
  status_code r = 200%Z ->
  get_data r = ([], Ret (Some vs)) <->
  Forall2 (fun l v => json_loads l = Loaded v) (List.filter nonblank (iter_lines r)) vs.
Proof.
  intros Hs. unfold get_data. rewrite Hs. cbn [Z.eqb Pos.eqb]. rewrite <- decode_loop_ok.
  destruct (decode_loop [] (iter_lines r)) as [out [vs'|c|e]]; cbn; rewrite ?app_nil_r;
    split; congruence.
Qed.

(** C19: Fail-fast decoding: the first non-empty line that is not JSON ends
    the run with [exit(-1)] after printing its error; the lines decoded
    before it are dropped. *)
Theorem get_data_fail_fast r ls1 l ls2 e :
  status_code r = 200%Z -> iter_lines r = ls1 ++ l :: ls2 ->
  Forall (fun l => nonblank l = false \/ exists v, json_loads l = Loaded v) ls1 ->
  nonblank l = true -> json_loads l = JSONDecodeError e ->
  get_data r = ([MsgDecodeError e], Exit (-1)%Z).
Proof.
  intros Hs Hl H1 Hnb He. unfold get_data. rewrite Hs, Hl. cbn [Z.eqb Pos.eqb].
  by rewrite (decode_loop_fail [] ls1 l ls2 e).
Qed.

(** Any status other than 200 prints the status and returns [None]. *)
Theorem get_data_bad_status r :
  status_code r <> 200%Z -> get_data r = ([MsgRequestFailed (status_code r)], Ret None).
Proof. intros Hs. unfold get_data. by rewrite (proj2 (Z.eqb_neq _ _) Hs). Qed.

End SourceTheorems.

(** ** Witnesses *)

(** A decoder that agrees with [json.loads] on the lines used below:
    ["1"] is the integer 1, anything else (a lone space included) is
    not a JSON document. *)
Definition sample_loads : JsonDecoder := fun l =>
  match l with
  | [Byte.x31] => Loaded (JInt 1)
  | _ => JSONDecodeError "Expecting value"
  end.

(** Two records separated by an empty keep-alive line, in three chunks,
    the last [\r\n] split between two of them. *)
Definition sample_ok : response :=
  {| status_code := 200; chunks := [[Byte.x31; Byte.x0a]; [Byte.x0a; Byte.x31; Byte.x0d]; [Byte.x0a]] |}.

(** The middle line holds a single space: it is not empty, so it is
    decoded, and it is not JSON.  It straddles two chunks. *)
Definition sample_space : response :=
  {| status_code := 200; chunks := [[Byte.x31; Byte.x0a; Byte.x20]; [Byte.x0a; Byte.x31]] |}.

Lemma get_data_ok_witness :
  @get_data sample_loads sample_ok = ([], Ret (Some [JInt 1; JInt 1])).
Proof. apply (@get_data_ok sample_loads); [reflexivity|]. repeat constructor. Defined.

Lemma get_data_fail_fast_witness :
  @get_data sample_loads sample_space = ([MsgDecodeError "Expecting value"], Exit (-1)%Z).
Proof.
  apply (@get_data_fail_fast sample_loads sample_space [[Byte.x31]] [Byte.x20] [[Byte.x31]]);
    [reflexivity|reflexivity| |reflexivity|reflexivity].
  constructor; [right; eexists; reflexivity|constructor].
Defined.

Lemma get_data_bad_status_witness :
  @get_data sample_loads {| status_code := 503; chunks := [] |} = ([MsgRequestFailed 503], Ret None).
Proof. apply (@get_data_bad_status sample_loads). discriminate. Defined.

(** Unfiltered, requests' lines differ from those of the whole body
    where a [\r\n] is split: one more, empty, line. *)
Example iter_lines_split_crlf :
  iter_lines sample_ok = [[Byte.x31]; []; [Byte.x31]; []] /\
  splitlines (content sample_ok) = [[Byte.x31]; []; [Byte.x31]].
Proof. split; reflexivity. Qed.
