(* ===== verification/JsonDecode.v ===== *)
(** * [json.loads] on a [str]: the scanner of [_json.c]

    [get_data] ([src/task.py] line 39) and [load_json] (line 66) decode
    JSON text with [json.loads] / [json.load].  CPython runs the C
    scanner of [Modules/_json.c] ([c_make_scanner]); this file follows
    it, with the messages of Python 3.13:

    - [scan_once] is [scan_once_unicode]: it dispatches on the first
      character to a string, an object, an array, the constants [null],
      [true], [false], or a number; anything else is [StopIteration],
      which [raw_decode] reports as ["Expecting value"];
    - [array_items] and [object_items] are the loops of
      [_parse_array_unicode] and [_parse_object_unicode]: whitespace is
      skipped around every token, a trailing comma is an error, an
      object builds its dict by assignment ([PyDict_SetItem]: the last
      value of a repeated key wins, at the key's first position);
    - [scanstring] is [scanstring_unicode] in strict mode: control
      characters are refused, the escapes are the JSON ones, [\uXXXX]
      needs four hexadecimal digits and one more character after them;
    - [match_number] is [_match_number_unicode]: an optional minus, ['0']
      or a non-zero digit and digits, and a float when a fraction or an
      exponent follows;
    - [loads_str] is [JSONDecoder.decode]: leading and trailing
      whitespace is allowed, anything else after the value is
      ["Extra data"]; an error is reported as
      [msg: line L column C (char P)] ([JSONDecodeError.__str__]).

    The input is a string of code points up to U+00FF (Stdlib [ascii]).
    Floats, [NaN], [Infinity] and escapes of code points above U+00FF
    are outside the model ([Unmodelled]).  The recursion is bounded by
    fuel: [loads_str] gives [2 * length + 1], which is enough
    ([scan_once_total]).  CPython's recursion limit on deeply nested
    documents is not modelled. *)

From S2P Require Import Prelude Decimal Json JsonEncode Source.
From Stdlib Require Import Ascii.

Local Open Scope string_scope.

(** The outcome of scanning a value at the front of a string: the value
    and the text after it, a [JSONDecodeError] with its message and the
    text from the position it reports, a document outside the model, or
    exhausted fuel. *)
Inductive scan (A : Type) : Type :=
| Scanned (a : A) (rest : string)
| ScanError (what : string) (at_ : string)
| Unmodelled
| NoFuel.
Arguments Scanned {A} a rest.
Arguments ScanError {A} what at_.
Arguments Unmodelled {A}.
Arguments NoFuel {A}.

(** [IS_WHITESPACE]: space, tab, line feed, carriage return. *)
Definition is_ws (c : ascii) : bool :=
  let n := N_of_ascii c in ((n =? 32) || (n =? 9) || (n =? 10) || (n =? 13))%N.

Fixpoint skip_ws (s : string) : string :=
  match s with
  | String c s' => if is_ws c then skip_ws s' else s
  | EmptyString => s
  end.

(** The text after the character [c], when [s] starts with it. *)
Definition next_is (c : ascii) (s : string) : option string :=
  match s with
  | String c' s' => if Ascii.eqb c c' then Some s' else None
  | EmptyString => None
  end.

(** The text after the prefix [p], when [s] starts with it. *)
Fixpoint strip_prefix (p s : string) : option string :=
  match p, s with
  | EmptyString, _ => Some s
  | String a p', String b s' => if Ascii.eqb a b then strip_prefix p' s' else None
  | _, _ => None
  end.

Definition hex_val (c : ascii) : option N :=
  let n := N_of_ascii c in
  if ((48 <=? n) && (n <=? 57))%N then Some (n - 48)%N
  else if ((97 <=? n) && (n <=? 102))%N then Some (n - 87)%N
  else if ((65 <=? n) && (n <=? 70))%N then Some (n - 55)%N
  else None.

(** The backslash escapes of [scanstring_unicode] other than [\u]. *)
Definition simple_escape (e : ascii) : option ascii :=
  if Ascii.eqb e quote then Some quote
  else if Ascii.eqb e backslash then Some backslash
  else if Ascii.eqb e "/" then Some "/"%char
  else if Ascii.eqb e "b" then Some (ascii_of_N 8)
  else if Ascii.eqb e "f" then Some (ascii_of_N 12)
  else if Ascii.eqb e "n" then Some (ascii_of_N 10)
  else if Ascii.eqb e "r" then Some (ascii_of_N 13)
  else if Ascii.eqb e "t" then Some (ascii_of_N 9)
  else None.

(** Continue with the value scanned and the text after it; errors,
    [Unmodelled] and [NoFuel] pass through. *)
Definition scan_bind {A B} (r : scan A) (k : A -> string -> scan B) : scan B :=
  match r with
  | Scanned a rest => k a rest
  | ScanError w at_ => ScanError w at_
  | Unmodelled => Unmodelled
  | NoFuel => NoFuel
  end.

Definition scan_cons (c : ascii) (r : scan string) : scan string :=
  scan_bind r (fun s rest => Scanned (String c s) rest).

(** [scanstring_unicode(pystr, end, strict=1)]: [s] is the text after
    the opening quote, [begin] the text from it. *)
Fixpoint scanstring (begin s : string) : scan string :=
  match s with
  | EmptyString => ScanError "Unterminated string starting at" begin
  | String c s' =>
      if Ascii.eqb c quote then Scanned EmptyString s'
      else if Ascii.eqb c backslash then
        match s' with
        | EmptyString => ScanError "Unterminated string starting at" begin
        | String e s2 =>
            if Ascii.eqb e "u" then
              match s2 with
              | String h1 (String h2 (String h3 (String h4 (String _ _ as s5)))) =>
                  match hex_val h1, hex_val h2, hex_val h3, hex_val h4 with
                  | Some d1, Some d2, Some d3, Some d4 =>
                      let cp := (((d1 * 16 + d2) * 16 + d3) * 16 + d4)%N in
                      if (cp <=? 255)%N then scan_cons (ascii_of_N cp) (scanstring begin s5)
                      else Unmodelled
                  | _, _, _, _ => ScanError "Invalid \uXXXX escape" s'
                  end
              | _ => ScanError "Invalid \uXXXX escape" s'
              end
            else
              match simple_escape e with
              | Some ch => scan_cons ch (scanstring begin s2)
              | None => ScanError "Invalid \escape" s
              end
        end
      else if (N_of_ascii c <=? 31)%N then ScanError "Invalid control character at" s
      else scan_cons c (scanstring begin s')
  end.

Fixpoint span_digits (s : string) : string * string :=
  match s with
  | String c s' =>
      if is_digit c then let '(ds, r) := span_digits s' in (String c ds, r) else (EmptyString, s)
  | EmptyString => (EmptyString, EmptyString)
  end.

(** A fraction ['.' digit] or an exponent [e[+-]?digit] follows: the
    number is a float. *)
Definition float_tail (r : string) : bool :=
  match r with
  | String c (String d r') =>
      (Ascii.eqb c "." && is_digit d) ||
      ((Ascii.eqb c "e" || Ascii.eqb c "E") &&
       (is_digit d ||
        ((Ascii.eqb d "+" || Ascii.eqb d "-") &&
         match r' with String d2 _ => is_digit d2 | EmptyString => false end)))
  | _ => false
  end.

(** [_match_number_unicode] *)
Definition match_number (s : string) : scan json :=
  let '(neg, s1) := match next_is "-" s with Some s' => (true, s') | None => (false, s) end in
  match s1 with
  | String c s2 =>
      let int_part :=
        if Ascii.eqb c "0" then Some (String c EmptyString, s2)
        else if is_digit c then let '(ds, r) := span_digits s2 in Some (String c ds, r)
        else None in
      match int_part with
      | Some (ds, r) =>
          if float_tail r then Unmodelled
          else let n := Z.of_N (digits_value ds) in Scanned (JInt (if neg then (- n)%Z else n)) r
      | None => ScanError "Expecting value" s
      end
  | EmptyString => ScanError "Expecting value" s
  end.

Definition scan_str (r : scan string) : scan json :=
  scan_bind r (fun s rest => Scanned (JStr s) rest).

Definition is_prefix (p s : string) : bool := if strip_prefix p s is Some _ then true else false.

(** [scan_once_unicode], [_parse_array_unicode] and
    [_parse_object_unicode]. *)
Fixpoint scan_once (fuel : nat) (s : string) {struct fuel} : scan json :=
  match fuel with
  | O => NoFuel
  | S f =>
      match s with
      | EmptyString => ScanError "Expecting value" s
      | String c s' =>
          if Ascii.eqb c quote then scan_str (scanstring s s')
          else if Ascii.eqb c "{" then
            let s1 := skip_ws s' in
            match next_is "}" s1 with
            | Some s2 => Scanned (JObj []) s2
            | None => object_items f s1 []
            end
          else if Ascii.eqb c "[" then
            let s1 := skip_ws s' in
            match next_is "]" s1 with
            | Some s2 => Scanned (JArr []) s2
            | None => array_items f s1 []
            end
          else
            match strip_prefix "null" s with
            | Some r => Scanned JNull r
            | None =>
            match strip_prefix "true" s with
            | Some r => Scanned (JBool true) r
            | None =>
            match strip_prefix "false" s with
            | Some r => Scanned (JBool false) r
            | None =>
                if is_prefix "NaN" s || is_prefix "Infinity" s || is_prefix "-Infinity" s
                then Unmodelled
                else match_number s
            end
            end
            end
      end
  end
with array_items (fuel : nat) (s : string) (acc : list json) {struct fuel} : scan json :=
  match fuel with
  | O => NoFuel
  | S f =>
      scan_bind (scan_once f s) (fun v s1 =>
        let s2 := skip_ws s1 in
        match next_is "]" s2 with
        | Some s3 => Scanned (JArr (acc ++ [v])) s3
        | None =>
            match next_is "," s2 with
            | Some s3 =>
                let s4 := skip_ws s3 in
                match next_is "]" s4 with
                | Some _ => ScanError "Illegal trailing comma before end of array" s2
                | None => array_items f s4 (acc ++ [v])
                end
            | None => ScanError "Expecting ',' delimiter" s2
            end
        end)
  end
with object_items (fuel : nat) (s : string) (acc : dict) {struct fuel} : scan json :=
  match fuel with
  | O => NoFuel
  | S f =>
      match next_is quote s with
      | None => ScanError "Expecting property name enclosed in double quotes" s
      | Some s1 =>
          scan_bind (scanstring s s1) (fun key s2 =>
            let s3 := skip_ws s2 in
            match next_is ":" s3 with
            | None => ScanError "Expecting ':' delimiter" s3
            | Some s4 =>
                scan_bind (scan_once f (skip_ws s4)) (fun v s5 =>
                  let acc' := dict_set acc key v in
                  let s6 := skip_ws s5 in
                  match next_is "}" s6 with
                  | Some s7 => Scanned (JObj acc') s7
                  | None =>
                      match next_is "," s6 with
                      | Some s7 =>
                          let s8 := skip_ws s7 in
                          match next_is "}" s8 with
                          | Some _ => ScanError "Illegal trailing comma before end of object" s6
                          | None => object_items f s8 acc'
                          end
                      | None => ScanError "Expecting ',' delimiter" s6
                      end
                  end)
            end)
      end
  end.

(** Line and column counters over the text before an error. *)
Fixpoint line_col (s : string) (line col : nat) : nat * nat :=
  match s with
  | EmptyString => (line, col)
  | String c s' => if Ascii.eqb c newline then line_col s' (S line) 0 else line_col s' line (S col)
  end.

(** [str(JSONDecodeError(what, doc, pos))], [pos] being where [at_]
    starts in [doc]. *)
Definition decode_error_detail (what doc at_ : string) : string :=
  let pos := String.length doc - String.length at_ in
  let '(l, c) := line_col (String.substring 0 pos doc) 0 0 in
  what ++ ": line " ++ str_Z (Z.of_nat (S l)) ++ " column " ++ str_Z (Z.of_nat (S c)) ++
  " (char " ++ str_Z (Z.of_nat pos) ++ ")".

(** [json.loads(doc)] for a [str] ([JSONDecoder.decode]). *)
Definition loads_str (doc : string) : load_result :=
  match scan_once (S (2 * String.length doc)) (skip_ws doc) with
  | Scanned v rest =>
      match skip_ws rest with
      | EmptyString => Loaded v
      | r => JSONDecodeError (decode_error_detail "Extra data" doc r)
      end
  | ScanError w a => JSONDecodeError (decode_error_detail w doc a)
  | Unmodelled | NoFuel => LoadOutOfModel
  end.

(** ** Lemmas: every scan consumes text *)

Lemma skip_ws_len s : String.length (skip_ws s) <= String.length s.
Proof. induction s as [|c s IH]; cbn; [lia|]. destruct (is_ws c); cbn; lia. Qed.

Lemma next_is_len c s r : next_is c s = Some r -> String.length s = S (String.length r).
Proof. destruct s as [|c' s]; cbn; [discriminate|]. destruct (Ascii.eqb c c'); congruence. Qed.

Lemma strip_prefix_len p s r :
  strip_prefix p s = Some r -> String.length s = String.length p + String.length r.
Proof.
  revert s. induction p as [|a p IH]; intros [|b s] H; cbn in H |- *.
  - by injection H as <-.
  - by injection H as <-.
  - discriminate.
  - destruct (Ascii.eqb a b); [|discriminate]. rewrite (IH s H). reflexivity.
Qed.

Lemma span_digits_len s ds r :
  span_digits s = (ds, r) -> String.length s = String.length ds + String.length r.
Proof.
  revert ds r. induction s as [|c s IH]; intros ds r; cbn; [by intros [= <- <-]|].
  destruct (is_digit c); [|by intros [= <- <-]]. destruct (span_digits s) as [ds' r'] eqn:E.
  intros [= <- <-]. cbn. rewrite (IH _ _ eq_refl). reflexivity.
Qed.

(** Turn the equations of a case analysis into length facts. *)
Ltac len_facts :=
  repeat match goal with
  | H : next_is _ _ = Some _ |- _ => apply next_is_len in H
  | H : strip_prefix _ _ = Some _ |- _ => apply strip_prefix_len in H; cbn [String.length] in H
  | H : span_digits _ = (_, _) |- _ => apply span_digits_len in H
  | |- context [skip_ws ?x] =>
      lazymatch goal with
      | _ : String.length (skip_ws x) <= _ |- _ => fail
      | _ => pose proof (skip_ws_len x)
      end
  | H : context [skip_ws ?x] |- _ =>
      lazymatch goal with
      | _ : String.length (skip_ws x) <= _ |- _ => fail
      | _ => pose proof (skip_ws_len x)
      end
  end.

Lemma scan_bind_Scanned {A B} (r : scan A) (k : A -> string -> scan B) b t :
  scan_bind r k = Scanned b t -> exists a s, r = Scanned a s /\ k a s = Scanned b t.
Proof. destruct r; cbn; try discriminate. eauto. Qed.

Lemma scan_bind_NoFuel {A B} (r : scan A) (k : A -> string -> scan B) :
  scan_bind r k = NoFuel -> r = NoFuel \/ exists a s, r = Scanned a s /\ k a s = NoFuel.
Proof. destruct r; cbn; try discriminate; eauto. Qed.

(** [x] holds no case analysis of its own. *)
Ltac atomic x :=
  lazymatch x with
  | context [if _ then _ else _] => fail
  | context [match _ with Some _ => _ | None => _ end] => fail
  | context [match _ with (_, _) => _ end] => fail
  | context [match _ with EmptyString => _ | String _ _ => _ end] => fail
  | _ => idtac
  end.

(** One case split in a hypothesis [H] about a scan: a [scan_bind], or
    the innermost test, option, pair or string it depends on. *)
Ltac scan_split H :=
  match type of H with
  | scan_bind _ _ = Scanned _ _ =>
      let a := fresh "a" in let t := fresh "t" in let Hr := fresh "Hr" in
      apply scan_bind_Scanned in H as (a & t & Hr & H)
  | scan_bind _ _ = NoFuel =>
      let a := fresh "a" in let t := fresh "t" in let Hr := fresh "Hr" in
      apply scan_bind_NoFuel in H as [Hr|(a & t & Hr & H)]
  | context [if ?b then _ else _] => atomic b; let E := fresh "E" in destruct b eqn:E
  | context [match ?x with (_, _) => _ end] => atomic x; let E := fresh "E" in destruct x eqn:E
  | context [match ?x with Some _ => _ | None => _ end] =>
      atomic x; let E := fresh "E" in destruct x eqn:E
  | context [match ?x with EmptyString => _ | String _ _ => _ end] =>
      atomic x; let E := fresh "E" in destruct x eqn:E
  end; cbv beta iota zeta in H.

Lemma scanstring_len b s x r : scanstring b s = Scanned x r -> String.length r < String.length s.
Proof.
  revert x r. induction s as [s IH] using (induction_ltof1 _ String.length); intros x r H.
  unfold ltof in IH. destruct s as [|c s']; cbn [scanstring] in H; [discriminate|].
  unfold scan_cons in H.
  repeat scan_split H; try discriminate; try (injection H as _ <-; cbn; lia);
    injection H as _ <-; apply IH in Hr; cbn [String.length] in *; lia.
Qed.



Lemma match_number_len s v r : match_number s = Scanned v r -> String.length r < String.length s.
Proof.
  unfold match_number. intros H.
  repeat scan_split H; try discriminate; injection H as _ <-; len_facts; cbn [String.length] in *; lia.
Qed.

(** Use the length lemmas on the scans among the hypotheses. *)
Ltac scan_len_facts IH1 IH2 IH3 :=
  repeat match goal with
  | H : scanstring _ _ = Scanned _ _ |- _ => apply scanstring_len in H
  | H : match_number _ = Scanned _ _ |- _ => apply match_number_len in H
  | H : scan_once _ _ = Scanned _ _ |- _ => apply IH1 in H
  | H : array_items _ _ _ = Scanned _ _ |- _ => apply IH2 in H
  | H : object_items _ _ _ = Scanned _ _ |- _ => apply IH3 in H
  end.

(** Every scan that succeeds consumes at least one character. *)
Lemma scan_len f :
  (forall s v r, scan_once f s = Scanned v r -> String.length r < String.length s) /\
  (forall s acc v r, array_items f s acc = Scanned v r -> String.length r < String.length s) /\
  (forall s acc v r, object_items f s acc = Scanned v r -> String.length r < String.length s).
Proof.
  induction f as [|f (IH1 & IH2 & IH3)]; [repeat split; discriminate|].
  repeat split.
  - intros [|c s] v r H; cbn [scan_once] in H; [discriminate|]. unfold scan_str in H.
    repeat scan_split H; try discriminate; try (injection H as _ <-);
      len_facts; scan_len_facts IH1 IH2 IH3; cbn [String.length] in *; lia.
  - intros s acc v r H; cbn [array_items] in H.
    repeat scan_split H; try discriminate; try (injection H as _ <-);
      len_facts; scan_len_facts IH1 IH2 IH3; cbn [String.length] in *; lia.
  - intros s acc v r H; cbn [object_items] in H.
    repeat scan_split H; try discriminate; try (injection H as _ <-);
      len_facts; scan_len_facts IH1 IH2 IH3; cbn [String.length] in *; lia.
Qed.

Lemma scanstring_fuel b s : scanstring b s <> NoFuel.
Proof.
  induction s as [s IH] using (induction_ltof1 _ String.length). unfold ltof in IH.
  intros H. destruct s as [|c s']; cbn [scanstring] in H; [discriminate|].
  unfold scan_cons in H. repeat scan_split H; try discriminate;
    (eapply IH; [|exact Hr]); cbn [String.length]; lia.
Qed.

Lemma match_number_fuel s : match_number s <> NoFuel.
Proof. unfold match_number. intros H. repeat scan_split H; discriminate. Qed.

(** Where each scan can run out of fuel: only on a text at least half
    as long as the fuel. *)
Lemma scan_fuel f :
  (forall s, scan_once f s = NoFuel -> (f <= 2 * String.length s)%nat) /\
  (forall s acc, array_items f s acc = NoFuel -> (f <= 2 * String.length s + 1)%nat) /\
  (forall s acc, object_items f s acc = NoFuel -> (f <= 2 * String.length s + 1)%nat).
Proof.
  induction f as [|f (IH1 & IH2 & IH3)]; [repeat split; intros; lia|].
  pose proof (scan_len f) as (L1 & L2 & L3).
  repeat split.
  - intros [|c s] H; cbn [scan_once] in H; [discriminate|]. unfold scan_str in H.
    repeat scan_split H; try discriminate;
      try (exfalso; eapply scanstring_fuel; eassumption);
      try (exfalso; eapply match_number_fuel; eassumption);
      len_facts; scan_len_facts L1 L2 L3;
      repeat match goal with
      | H : array_items f _ _ = NoFuel |- _ => apply IH2 in H
      | H : object_items f _ _ = NoFuel |- _ => apply IH3 in H
      end; cbn [String.length] in *; lia.
  - intros s acc H; cbn [array_items] in H.
    repeat scan_split H; try discriminate;
      len_facts; scan_len_facts L1 L2 L3;
      repeat match goal with
      | H : scan_once f _ = NoFuel |- _ => apply IH1 in H
      | H : array_items f _ _ = NoFuel |- _ => apply IH2 in H
      end; cbn [String.length] in *; lia.
  - intros s acc H; cbn [object_items] in H.
    repeat scan_split H; try discriminate;
      try (exfalso; eapply scanstring_fuel; eassumption);
      len_facts; scan_len_facts L1 L2 L3;
      repeat match goal with
      | H : scan_once f _ = NoFuel |- _ => apply IH1 in H
      | H : object_items f _ _ = NoFuel |- _ => apply IH3 in H
      end; cbn [String.length] in *; lia.
Qed.

(** ** Lemmas: the values scanned are well formed *)

Lemma json_wfb_obj d :
  json_wfb (JObj d) = true <-> NoDup (map fst d) /\ forallb (fun kv => json_wfb (snd kv)) d = true.
Proof. cbn. rewrite andb_true_iff, bool_decide_eq_true. reflexivity. Qed.

Lemma dict_set_forallb (p : json -> bool) d k v :
  forallb (fun kv => p (snd kv)) d = true -> p v = true ->
  forallb (fun kv => p (snd kv)) (dict_set d k v) = true.
Proof.
  induction d as [|[k' v'] d IH]; cbn; intros Hd Hv; [by rewrite Hv|].
  apply andb_true_iff in Hd as [H1 H2].
  destruct (String.eqb k k'); cbn; rewrite ?Hv, ?H1, ?H2; cbn; [reflexivity|].
  by rewrite IH.
Qed.

Lemma match_number_int s v r : match_number s = Scanned v r -> exists z, v = JInt z.
Proof. unfold match_number. intros H. repeat scan_split H; try discriminate; injection H as <- _; eauto. Qed.

(** Every value the scanner builds is one Python holds: its dicts have
    distinct keys, an object being built by assignment. *)
Lemma scan_wf f :
  (forall s v r, scan_once f s = Scanned v r -> json_wfb v = true) /\
  (forall s acc v r, forallb json_wfb acc = true ->
     array_items f s acc = Scanned v r -> json_wfb v = true) /\
  (forall s acc v r, NoDup (map fst acc) -> forallb (fun kv => json_wfb (snd kv)) acc = true ->
     object_items f s acc = Scanned v r -> json_wfb v = true).
Proof.
  induction f as [|f (IH1 & IH2 & IH3)]; [repeat split; discriminate|].
  repeat split.
  - intros [|c s] v r H; cbn [scan_once] in H; [discriminate|]. unfold scan_str in H.
    repeat scan_split H; try discriminate; try (injection H as <- _; reflexivity).
    + eapply (IH3 _ []); [apply NoDup_nil_2|reflexivity|eassumption].
    + eapply (IH2 _ []); [reflexivity|eassumption].
    + apply match_number_int in H as [z ->]. reflexivity.
  - intros s acc v r Hacc H; cbn [array_items] in H.
    repeat scan_split H; try discriminate; pose proof (IH1 _ _ _ Hr) as Ha.
    + injection H as <- _. cbn [json_wfb]. rewrite forallb_app, Hacc. cbn [forallb]. by rewrite Ha.
    + eapply IH2; [|eassumption]. rewrite forallb_app, Hacc. cbn [forallb]. by rewrite Ha.
  - intros s acc v r Hnd Hacc H; cbn [object_items] in H.
    repeat scan_split H; try discriminate; pose proof (IH1 _ _ _ Hr0) as Ha.
    + injection H as <- _. apply json_wfb_obj. split; [by apply dict_set_NoDup|].
      by apply dict_set_forallb.
    + eapply IH3; [by apply dict_set_NoDup|by apply dict_set_forallb|eassumption].
Qed.

(** ** Theorems *)

(** C13: The fuel [json.loads] gives the scanner, twice the length of the
    document and one, is always enough: the scan never runs out of fuel,
    so [loads_str] answers [LoadOutOfModel] only for a float, [NaN],
    [Infinity] or a code point above U+00FF. *)
Theorem loads_str_fuel_enough doc : scan_once (S (2 * String.length doc)) (skip_ws doc) <> NoFuel.
Proof. intros H. apply (proj1 (scan_fuel _)) in H. pose proof (skip_ws_len doc). lia. Qed.

(** C14: Every value [json.loads] returns is a Python value: each of its
    dicts has distinct keys (a repeated key keeps its last value). *)
Theorem loads_str_wf doc v : loads_str doc = Loaded v -> json_wfb v = true.
Proof.
  unfold loads_str. destruct (scan_once _ _) as [v' rest| | |] eqn:E; try discriminate.
  destruct (skip_ws rest); [|discriminate]. intros [= <-]. by apply (proj1 (scan_wf _)) in E.
Qed.

(** ** Witnesses *)

(** [{"k": 1, "k": 2}] *)
Definition dup_key_doc : string :=
  "{" ++ encode_basestring_ascii "k" ++ ": 1, " ++ encode_basestring_ascii "k" ++ ": 2}".

Lemma loads_str_wf_witness :
  loads_str dup_key_doc = Loaded (JObj [("k", JInt 2)]) /\ json_wfb (JObj [("k", JInt 2)]) = true.
Proof.
  split; [vm_compute; reflexivity|].
  apply (loads_str_wf dup_key_doc). vm_compute. reflexivity.
Defined.
