(* ===== verification/JsonRoundtrip.v ===== *)
(** * [json.loads] inverts [json.dumps] and [json.dump(indent=4)]

    The encoder of [JsonEncode] and the scanner of [JsonDecode] are
    inverse on the values Python holds (no dict with a repeated key):
    [loads_str (encode_json L 0 v) = Loaded v] for every layout [L]
    that obeys the laws of [LayoutOk]: each escaped character is read
    back as itself, the text after an opening bracket, before a closing
    one and inside an empty container is whitespace, items are
    separated by a comma and whitespace, and a key by a colon and
    whitespace.  [py_layout] obeys them for the compact layout of
    [json.dumps] as for the indented layout [save_json] writes.  The
    proof follows the text the encoder writes: a value is scanned back
    from its text followed by any text that cannot extend it
    ([num_stop]).  The fuel is the one [loads_str] uses,
    [2 * length + 1], and the statements carry it as a bound. *)

From S2P Require Import Prelude Decimal Json JsonEncode Source JsonDecode.
From Stdlib Require Import Ascii.

Local Open Scope string_scope.
#[local] Set Warnings "-clear-no-such-hyp".

(** A text that cannot continue a number: empty, or starting with
    neither a digit nor one of [. e E]. *)
Definition num_stop (s : string) : bool :=
  match s with
  | EmptyString => true
  | String c _ =>
      negb (is_digit c) && negb (Ascii.eqb c ".") && negb (Ascii.eqb c "e") && negb (Ascii.eqb c "E")
  end.

(** A character that can start the text of a value: not whitespace,
    not a closing bracket. *)
Definition value_start (c : ascii) : bool :=
  negb (is_ws c) && negb (Ascii.eqb c "]") && negb (Ascii.eqb c "}").

(** ** Whitespace and separators *)

Lemma skip_ws_app_ws w s : all_chars is_ws w = true -> skip_ws (w ++ s) = skip_ws s.
Proof.
  induction w as [|c w IH]; [reflexivity|]. rewrite str_app_cons. cbn.
  intros [-> Hw]%andb_true_iff. by apply IH.
Qed.

Lemma skip_ws_start c s : value_start c = true -> skip_ws (String c s) = String c s.
Proof. unfold value_start. intros [[H _]%andb_true_iff _]%andb_true_iff. cbn. by destruct (is_ws c). Qed.

Lemma spaces_ws n : all_chars is_ws (spaces n) = true.
Proof. induction n as [|n IH]; [reflexivity|]. exact IH. Qed.

Lemma newline_indent_ws ind lvl : all_chars is_ws (newline_indent ind lvl) = true.
Proof. destruct ind; [apply spaces_ws|reflexivity]. Qed.

(** Whitespace cannot continue a number. *)
Lemma ws_num_stop c r : is_ws c = true -> num_stop (String c r) = true.
Proof. destruct c as [[] [] [] [] [] [] [] []]; try discriminate; reflexivity. Qed.

(** ** Laws of a layout *)

Class LayoutOk (L : layout) : Prop := {
  lay_escape_scan : forall b c x X,
    scanstring b (lay_escape L c ++ String x X) = scan_cons c (scanstring b (String x X));
  lay_open_ws : forall l, all_chars is_ws (lay_open L l) = true;
  lay_close_ws : forall l, all_chars is_ws (lay_close L l) = true;
  lay_empty_ws : forall l, all_chars is_ws (lay_empty L l) = true;
  lay_sep_comma : forall l, exists w, lay_sep L l = String "," w /\ all_chars is_ws w = true;
  lay_key_colon : exists w, lay_key L = String ":" w /\ all_chars is_ws w = true
}.

Lemma str_app_not_empty s c r : s ++ String c r <> EmptyString.
Proof. destruct s; discriminate. Qed.

Lemma strip_prefix_app p s : strip_prefix p (p ++ s) = Some s.
Proof.
  induction p as [|a p IH]; [by destruct s|]. rewrite str_app_cons. cbn.
  by rewrite Ascii.eqb_refl.
Qed.

(** ** Strings *)

(** One escaped character followed by more text is read back as that
    character: checked on all 256 characters. *)
Lemma scanstring_escape_char b c x X :
  scanstring b (escape_char c ++ String x X) = scan_cons c (scanstring b (String x X)).
Proof. destruct c as [[] [] [] [] [] [] [] []]; reflexivity. Qed.

Lemma scanstring_escape_with esc b s rest :
  (forall c x X, scanstring b (esc c ++ String x X) = scan_cons c (scanstring b (String x X))) ->
  scanstring b (escape_with esc s ++ String quote rest) = Scanned s rest.
Proof.
  intros Hesc. induction s as [|c s IH]; [reflexivity|]. cbn [escape_with].
  rewrite <- str_app_assoc.
  destruct (escape_with esc s ++ String quote rest) as [|x X] eqn:E;
    [by apply str_app_not_empty in E|].
  rewrite Hesc, IH. reflexivity.
Qed.

(** ** Numbers *)

Lemma span_digits_app ds rest :
  all_digits ds = true -> num_stop rest = true -> span_digits (ds ++ rest) = (ds, rest).
Proof.
  induction ds as [|d ds IH]; intros Hds Hr.
  - rewrite str_app_nil_l. destruct rest as [|c r]; [reflexivity|]. cbn in Hr |- *.
    destruct (is_digit c); [discriminate|reflexivity].
  - rewrite str_app_cons. cbn in Hds |- *. apply andb_true_iff in Hds as [-> Hds].
    by rewrite IH.
Qed.

Lemma num_stop_float_tail r : num_stop r = true -> float_tail r = false.
Proof.
  destruct r as [|c [|d r]]; cbn; [reflexivity| |];
    destruct (Ascii.eqb c "."), (Ascii.eqb c "e"), (Ascii.eqb c "E"); cbn;
    rewrite ?andb_false_r; try discriminate; reflexivity.
Qed.

Lemma match_number_canonical (neg : bool) (ds rest : string) :
  canonical_digits ds = true -> num_stop rest = true ->
  match_number ((if neg then String "-" ds else ds) ++ rest) =
  Scanned (JInt (if neg then (- Z.of_N (digits_value ds))%Z else Z.of_N (digits_value ds))) rest.
Proof.
  destruct ds as [|d ds]; [discriminate|]. intros Hc Hr.
  cbn [canonical_digits all_digits] in Hc. apply andb_true_iff in Hc as [Hc Hz].
  apply andb_true_iff in Hc as [Hd Hds].
  assert (Hm : Ascii.eqb "-" d = false)
    by (destruct (Ascii.eqb_spec "-" d) as [<-|]; [discriminate|reflexivity]).
  unfold match_number.
  destruct neg; rewrite !str_app_cons; cbn [next_is]; rewrite ?Ascii.eqb_refl, ?Hm.
  all: cbv beta iota zeta.
  all: destruct (Ascii.eqb_spec d "0") as [->|Hne].
  all: try (apply orb_true_iff in Hz as [Hz|Hz]; [discriminate|];
            apply String.eqb_eq in Hz as ->; rewrite str_app_nil_l, num_stop_float_tail by done;
            reflexivity).
  all: rewrite Hd, span_digits_app, num_stop_float_tail by done; reflexivity.
Qed.

Lemma match_number_str_Z z rest :
  num_stop rest = true -> match_number (str_Z z ++ rest) = Scanned (JInt z) rest.
Proof.
  intros Hr. destruct (str_Z_spec z) as (sign & ds & E & -> & Hc & Hv). rewrite E.
  destruct (Z.ltb_spec z 0).
  - rewrite str_app_cons, str_app_nil_l, (match_number_canonical true ds rest Hc Hr), Hv.
    do 2 f_equal. lia.
  - rewrite str_app_nil_l, (match_number_canonical false ds rest Hc Hr), Hv. do 2 f_equal. lia.
Qed.

(** A text that starts like a number is scanned as one: checked on the
    ten digits, after a minus sign or not. *)
Lemma scan_once_number f c t :
  is_digit c = true \/ (c = "-"%char /\ exists d t', t = String d t' /\ is_digit d = true) ->
  scan_once (S f) (String c t) = match_number (String c t).
Proof.
  intros [Hc|[-> (d & t' & -> & Hd)]].
  - destruct c as [[] [] [] [] [] [] [] []]; try discriminate Hc; reflexivity.
  - destruct d as [[] [] [] [] [] [] [] []]; try discriminate Hd; reflexivity.
Qed.

Lemma scan_once_str_Z f z rest :
  num_stop rest = true -> scan_once (S f) (str_Z z ++ rest) = Scanned (JInt z) rest.
Proof.
  intros Hr. rewrite <- (match_number_str_Z z rest Hr).
  destruct (str_Z_spec z) as (sign & ds & E & -> & Hc & _). rewrite E.
  destruct ds as [|d ds]; [discriminate|].
  cbn [canonical_digits all_digits] in Hc. apply andb_true_iff in Hc as [[Hd _]%andb_true_iff _].
  destruct (z <? 0)%Z; autorewrite with strsimp; apply scan_once_number.
  - right. split; [reflexivity|]. eauto.
  - by left.
Qed.

(** ** The text of a value *)

Lemma digit_value_start c : is_digit c = true -> value_start c = true.
Proof. destruct c as [[] [] [] [] [] [] [] []]; try discriminate; reflexivity. Qed.

Lemma next_is_start c t d :
  value_start c = true -> (d = "]" \/ d = "}")%char -> next_is d (String c t) = None.
Proof.
  unfold value_start. intros H Hd.
  apply andb_true_iff in H as [[_ H1]%andb_true_iff H2]. apply negb_true_iff in H1, H2.
  destruct Hd as [-> | ->]; cbn [next_is]; rewrite Ascii.eqb_sym; [by rewrite H1|by rewrite H2].
Qed.

Lemma next_is_refl c s : next_is c (String c s) = Some s.
Proof. cbn. by rewrite Ascii.eqb_refl. Qed.

Lemma concat_cons_app sep x l s : exists s', String.concat sep (x :: l) ++ s = x ++ s'.
Proof.
  destruct l as [|y l]; cbn [String.concat]; [by exists s|].
  exists ((sep ++ String.concat sep (y :: l)) ++ s). by rewrite <- !str_app_assoc.
Qed.

(** Arithmetic on the lengths of composed strings. *)
Ltac str_lia H :=
  autorewrite with strsimp in H |- *; cbn [String.length] in H |- *; lia.

Lemma dict_set_fresh d k v : k ∉ map fst d -> dict_set d k v = (d ++ [(k, v)])%list.
Proof.
  induction d as [|[k' v'] d IH]; intros Hk; [reflexivity|]. cbn in Hk |- *.
  destruct (String.eqb_spec k k') as [->|]; [set_solver|]. rewrite IH by set_solver. reflexivity.
Qed.

Section Layout.
Context (L : layout) `{!LayoutOk L}.

Local Abbreviation esc := (lay_escape L).

Lemma quote_with_scan b s rest :
  scanstring b ((escape_with esc s ++ String quote EmptyString) ++ rest) = Scanned s rest.
Proof.
  rewrite <- str_app_assoc, str_app_cons, str_app_nil_l.
  apply scanstring_escape_with. intros. apply lay_escape_scan.
Qed.

(** Every encoded value starts with a character that starts a value. *)
Lemma encode_head lvl v :
  exists c t, encode_json L lvl v = String c t /\ value_start c = true.
Proof.
  destruct v as [| [] | z | s | [|x l] | [|kv kvs]]; cbn [encode_json];
    try (eexists _, _; split; reflexivity).
  destruct (str_Z_spec z) as (sign & ds & E & -> & Hc & _). rewrite E.
  destruct ds as [|d ds]; [discriminate|].
  cbn [canonical_digits all_digits] in Hc. apply andb_true_iff in Hc as [[Hd _]%andb_true_iff _].
  destruct (z <? 0)%Z; autorewrite with strsimp; eexists _, _; (split; [reflexivity|]);
    [reflexivity|by apply digit_value_start].
Qed.

(** Scanning at the start of an encoded value. *)
Lemma skip_ws_encode lvl v s :
  skip_ws (encode_json L lvl v ++ s) = encode_json L lvl v ++ s /\
  next_is "]" (encode_json L lvl v ++ s) = None /\ next_is "}" (encode_json L lvl v ++ s) = None /\
  1 <= String.length (encode_json L lvl v).
Proof.
  destruct (encode_head lvl v) as (c & t & -> & Hc). rewrite str_app_cons.
  rewrite skip_ws_start by done. split; [done|]. cbn [String.length].
  split; [|split; [|lia]]; apply next_is_start; auto.
Qed.

Lemma num_stop_close lvl c rest :
  (c = "]" \/ c = "}")%char -> num_stop (lay_close L lvl ++ String c rest) = true.
Proof.
  intros Hc. pose proof (lay_close_ws lvl) as Hw.
  destruct (lay_close L lvl) as [|x w]; [by destruct Hc as [-> | ->]|].
  apply andb_true_iff in Hw as [Hx _]. rewrite str_app_cons. by apply ws_num_stop.
Qed.

Lemma skip_ws_close lvl c rest :
  (c = "]" \/ c = "}")%char -> skip_ws (lay_close L lvl ++ String c rest) = String c rest.
Proof. intros Hc. rewrite skip_ws_app_ws by apply lay_close_ws. by destruct Hc as [-> | ->]. Qed.

(** After a value, a separator: the comma is found and the whitespace
    that follows it skipped. *)
Lemma after_separator lvl s :
  num_stop (lay_sep L lvl ++ s) = true /\
  skip_ws (lay_sep L lvl ++ s) = lay_sep L lvl ++ s /\
  next_is "]" (lay_sep L lvl ++ s) = None /\
  next_is "}" (lay_sep L lvl ++ s) = None /\
  exists w, next_is "," (lay_sep L lvl ++ s) = Some (w ++ s) /\
    all_chars is_ws w = true /\ String.length (lay_sep L lvl) = S (String.length w).
Proof.
  destruct (lay_sep_comma lvl) as (w & Hsep & Hw). rewrite Hsep, str_app_cons.
  repeat split; try reflexivity. exists w. rewrite next_is_refl. auto.
Qed.

(** ** Items of a list or a dict *)

Section Items.
Variable lvl : nat.

(** The round trip of one item at depth [S lvl]. *)
Definition item_scans (v : json) : Prop :=
  forall rest f, num_stop rest = true ->
  2 * String.length (encode_json L (S lvl) v ++ rest) < f ->
  scan_once f (encode_json L (S lvl) v ++ rest) = Scanned v rest.

Local Abbreviation sep := (lay_sep L lvl).
Local Abbreviation g := (encode_json L (S lvl)).

Lemma concat_map_cons2 x y l :
  String.concat sep (map g (x :: y :: l)) = g x ++ sep ++ String.concat sep (map g (y :: l)).
Proof. reflexivity. Qed.

Lemma array_items_scan vs acc rest f :
  vs <> [] -> Forall item_scans vs ->
  2 * String.length (String.concat sep (map g vs) ++ lay_close L lvl ++ String "]" rest) + 1 < f ->
  array_items f (String.concat sep (map g vs) ++ lay_close L lvl ++ String "]" rest) acc =
    Scanned (JArr (acc ++ vs)%list) rest.
Proof.
  revert acc f. induction vs as [|v vs IH]; intros acc f Hne Hall Hf; [done|].
  apply Forall_cons_1 in Hall as [Hv Hall].
  destruct f as [|f]; [lia|]. cbn [array_items].
  destruct vs as [|v' vs].
  - change (String.concat sep (map g [v])) with (g v) in Hf |- *.
    rewrite Hv; [|by apply num_stop_close; left|autorewrite with strsimp in *; lia].
    cbn [scan_bind]. rewrite skip_ws_close by (by left). by rewrite next_is_refl.
  - rewrite concat_map_cons2 in Hf |- *. rewrite <- !str_app_assoc in Hf |- *.
    destruct (after_separator lvl
                (String.concat sep (map g (v' :: vs)) ++ lay_close L lvl ++ String "]" rest))
      as (Hn & Hs & Hb & _ & w & Hc & Hw & Hl).
    rewrite Hv; [|done|autorewrite with strsimp in *; lia].
    cbn [scan_bind]. rewrite Hs, Hb, Hc, skip_ws_app_ws by done.
    destruct (concat_cons_app sep (g v') (map g vs) (lay_close L lvl ++ String "]" rest))
      as [s' Es'].
    change (map g (v' :: vs)) with (g v' :: map g vs). rewrite Es'.
    destruct (skip_ws_encode (S lvl) v' s') as (Hs' & Hb' & _ & _).
    rewrite Hs', Hb', <- Es', IH; [by rewrite <- app_assoc|done|done|].
    autorewrite with strsimp in *. lia.
Qed.

Local Abbreviation gk := (fun kv : string * json =>
  quote_with esc (fst kv) ++ lay_key L ++ encode_json L (S lvl) (snd kv)).

Lemma concat_map_kv_cons2 k v y l :
  String.concat sep (map gk ((k, v) :: y :: l)) =
  (quote_with esc k ++ lay_key L ++ g v) ++ sep ++ String.concat sep (map gk (y :: l)).
Proof. reflexivity. Qed.

(** One member [key: value] followed by [R]: the key is read back, the
    colon and its whitespace are skipped, the value is scanned. *)
Lemma object_member_step k v R f acc :
  scan_once f (g v ++ R) = Scanned v R ->
  object_items (S f) ((quote_with esc k ++ lay_key L ++ g v) ++ R) acc =
    let acc' := dict_set acc k v in
    let s6 := skip_ws R in
    match next_is "}" s6 with
    | Some s7 => Scanned (JObj acc') s7
    | None =>
        match next_is "," s6 with
        | Some s7 =>
            let s8 := skip_ws s7 in
            match next_is "}" s8 with
            | Some _ => ScanError "Illegal trailing comma before end of object" s6
            | None => object_items f s8 acc'
            end
        | None => ScanError "Expecting ',' delimiter" s6
        end
    end.
Proof.
  intros Hv. destruct lay_key_colon as (w & Hk & Hw). rewrite Hk. unfold quote_with.
  rewrite <- !str_app_assoc, str_app_cons.
  cbn [object_items]. rewrite next_is_refl. cbn [scan_bind].
  rewrite quote_with_scan. cbn [scan_bind]. rewrite ?str_app_cons.
  rewrite skip_ws_start by reflexivity. rewrite next_is_refl, skip_ws_app_ws by done.
  destruct (skip_ws_encode (S lvl) v R) as (-> & _).
  rewrite Hv. reflexivity.
Qed.

Lemma gk_start k v s :
  skip_ws ((quote_with esc k ++ lay_key L ++ g v) ++ s) =
    (quote_with esc k ++ lay_key L ++ g v) ++ s /\
  next_is "}" ((quote_with esc k ++ lay_key L ++ g v) ++ s) = None.
Proof. unfold quote_with. rewrite <- !str_app_assoc, str_app_cons. split; reflexivity. Qed.

Lemma key_length k v : String.length (quote_with esc k ++ lay_key L ++ g v) >= String.length (g v).
Proof. autorewrite with strsimp. lia. Qed.

Lemma object_items_scan kvs acc rest f :
  kvs <> [] -> Forall (fun kv => item_scans (snd kv)) kvs -> NoDup (map fst (acc ++ kvs)%list) ->
  2 * String.length (String.concat sep (map gk kvs) ++ lay_close L lvl ++ String "}" rest) + 1 < f ->
  object_items f (String.concat sep (map gk kvs) ++ lay_close L lvl ++ String "}" rest) acc =
    Scanned (JObj (acc ++ kvs)%list) rest.
Proof.
  revert acc f. induction kvs as [|[k v] kvs IH]; intros acc f Hne Hall Hnd Hf; [done|].
  apply Forall_cons_1 in Hall as [Hv Hall]. cbn [snd] in Hv.
  assert (Hk : k ∉ map fst acc).
  { rewrite map_app in Hnd. apply NoDup_app in Hnd as (_ & Hd & _). intros Hin.
    apply (Hd k Hin). by left. }
  pose proof (key_length k v) as Hkl.
  destruct f as [|f]; [lia|].
  destruct kvs as [|kv' kvs].
  - change (String.concat sep (map gk [(k, v)])) with
      (quote_with esc k ++ lay_key L ++ g v) in Hf |- *.
    rewrite object_member_step.
    + cbv zeta. rewrite skip_ws_close by (by right). rewrite next_is_refl, dict_set_fresh by done.
      reflexivity.
    + apply Hv; [by apply num_stop_close; right|].
      str_lia Hf.
  - rewrite concat_map_kv_cons2 in Hf |- *. rewrite <- !str_app_assoc in Hf |- *.
    destruct (after_separator lvl
                (String.concat sep (map gk (kv' :: kvs)) ++ lay_close L lvl ++ String "}" rest))
      as (Hn & Hs & _ & Hb & w & Hc & Hw & Hl).
    rewrite (str_app_assoc (lay_key L) (g v)), (str_app_assoc (quote_with esc k)).
    rewrite object_member_step.
    + cbv zeta. rewrite Hs, Hb, Hc, skip_ws_app_ws by done.
      destruct kv' as [k' v'].
      destruct (concat_cons_app sep (quote_with esc k' ++ lay_key L ++ g v')
                  (map gk kvs) (lay_close L lvl ++ String "}" rest)) as [s' Es'].
      change (map gk ((k', v') :: kvs)) with
        ((quote_with esc k' ++ lay_key L ++ g v') :: map gk kvs).
      rewrite Es'. destruct (gk_start k' v' s') as [Hs1 Hb1].
      rewrite Hs1, Hb1, <- Es', dict_set_fresh by done. rewrite IH;
        [by rewrite <- app_assoc|done|done|by rewrite <- app_assoc|str_lia Hf].
    + apply Hv; [done|]. str_lia Hf.
Qed.
End Items.

(** ** The round trip *)

Lemma scan_once_bracket f s :
  scan_once (S f) (String "[" s) =
  match next_is "]" (skip_ws s) with
  | Some s2 => Scanned (JArr []) s2
  | None => array_items f (skip_ws s) []
  end.
Proof. reflexivity. Qed.

Lemma scan_once_brace f s :
  scan_once (S f) (String "{" s) =
  match next_is "}" (skip_ws s) with
  | Some s2 => Scanned (JObj []) s2
  | None => object_items f (skip_ws s) []
  end.
Proof. reflexivity. Qed.

(** The induction hypothesis on the items of a list (or the values of
    a dict) gives their round trip one level down. *)
Lemma items_scan {A} (sel : A -> json) lvl (l : list A) :
  Forall (fun a => json_wfb (sel a) = true -> forall lvl rest f, num_stop rest = true ->
    2 * String.length (encode_json L lvl (sel a) ++ rest) < f ->
    scan_once f (encode_json L lvl (sel a) ++ rest) = Scanned (sel a) rest) l ->
  forallb (fun a => json_wfb (sel a)) l = true -> Forall (fun a => item_scans lvl (sel a)) l.
Proof.
  intros IH Hwf. apply forallb_Forall in Hwf.
  eapply Forall_impl; [apply Forall_and; split; [exact IH|exact Hwf]|].
  intros x [Hx Hwx] r' f'. by apply Hx.
Qed.

Lemma empty_scan lvl rest f :
  scan_once (S f) (encode_json L lvl (JArr []) ++ rest) = Scanned (JArr []) rest /\
  scan_once (S f) (encode_json L lvl (JObj []) ++ rest) = Scanned (JObj []) rest.
Proof.
  cbn [encode_json]. rewrite <- !str_app_assoc. autorewrite with strsimp.
  rewrite scan_once_bracket, scan_once_brace, !skip_ws_app_ws by apply lay_empty_ws.
  autorewrite with strsimp. split; reflexivity.
Qed.

Lemma array_scan lvl v l rest f :
  Forall (item_scans lvl) (v :: l) ->
  2 * String.length (encode_json L lvl (JArr (v :: l)) ++ rest) < S f ->
  scan_once (S f) (encode_json L lvl (JArr (v :: l)) ++ rest) = Scanned (JArr (v :: l)) rest.
Proof.
  intros Hall Hf. cbn [encode_json] in Hf |- *. rewrite <- !str_app_assoc in Hf |- *.
  autorewrite with strsimp. rewrite scan_once_bracket, skip_ws_app_ws by apply lay_open_ws.
  destruct (concat_cons_app (lay_sep L lvl) (encode_json L (S lvl) v)
              (map (encode_json L (S lvl)) l) (lay_close L lvl ++ String "]" rest)) as [s' Es'].
  change (map (encode_json L (S lvl)) (v :: l)) with
    (encode_json L (S lvl) v :: map (encode_json L (S lvl)) l).
  rewrite Es'. destruct (skip_ws_encode (S lvl) v s') as (-> & -> & _).
  rewrite <- Es'. apply (array_items_scan lvl (v :: l) [] rest f); [done|done|str_lia Hf].
Qed.

Lemma object_scan lvl k v kvs rest f :
  Forall (fun kv => item_scans lvl (snd kv)) ((k, v) :: kvs) -> NoDup (map fst ((k, v) :: kvs)) ->
  2 * String.length (encode_json L lvl (JObj ((k, v) :: kvs)) ++ rest) < S f ->
  scan_once (S f) (encode_json L lvl (JObj ((k, v) :: kvs)) ++ rest) = Scanned (JObj ((k, v) :: kvs)) rest.
Proof.
  intros Hall Hnd Hf. cbn [encode_json] in Hf |- *. rewrite <- !str_app_assoc in Hf |- *.
  autorewrite with strsimp. rewrite scan_once_brace, skip_ws_app_ws by apply lay_open_ws.
  set (gk := fun kv : string * json =>
               quote_with esc (fst kv) ++ lay_key L ++ encode_json L (S lvl) (snd kv)).
  destruct (concat_cons_app (lay_sep L lvl) (gk (k, v)) (map gk kvs)
              (lay_close L lvl ++ String "}" rest)) as [s' Es'].
  change (map gk ((k, v) :: kvs)) with (gk (k, v) :: map gk kvs).
  rewrite Es'. subst gk. cbn [fst snd] in Es' |- *. destruct (gk_start lvl k v s') as (-> & ->).
  rewrite <- Es'. apply (object_items_scan lvl ((k, v) :: kvs) [] rest f);
    [done|done|done|str_lia Hf].
Qed.

(** Every well-formed value is scanned back from its text, whatever
    follows that cannot extend it, with the fuel bound of [loads_str]. *)
Lemma encode_scan v :
  json_wfb v = true -> forall lvl rest f, num_stop rest = true ->
  2 * String.length (encode_json L lvl v ++ rest) < f ->
  scan_once f (encode_json L lvl v ++ rest) = Scanned v rest.
Proof.
  induction v as [| b | z | s | l IH | kvs IH] using json_ind_deep;
    intros Hwf lvl rest f Hr Hf; (destruct f as [|f]; [lia|]).
  - reflexivity.
  - destruct b; reflexivity.
  - by apply scan_once_str_Z.
  - cbn [encode_json]. unfold quote_with. rewrite str_app_cons. cbn [scan_once].
    rewrite Ascii.eqb_refl, quote_with_scan. reflexivity.
  - destruct l as [|v l]; [apply empty_scan|]. apply array_scan; [|done].
    apply (items_scan (fun x => x)); [done|exact Hwf].
  - destruct kvs as [|[k v] kvs]; [apply empty_scan|].
    apply json_wfb_obj in Hwf as [Hnd Hwf]. by apply object_scan; [apply (items_scan snd)| |].
Qed.

(** Decoding the whole text of a well-formed value gives the value. *)
Lemma loads_str_encode v : json_wfb v = true -> loads_str (encode_json L 0 v) = Loaded v.
Proof.
  intros Hwf. unfold loads_str.
  destruct (skip_ws_encode 0 v EmptyString) as (Hs & _). rewrite str_app_nil_r in Hs.
  pose proof (encode_scan v Hwf 0 EmptyString (S (2 * String.length (encode_json L 0 v)))) as Hv.
  rewrite str_app_nil_r in Hv. rewrite Hs, Hv by (reflexivity || lia). reflexivity.
Qed.
End Layout.

(** ** The layout of [_make_iterencode] *)

Lemma separator_shape ind lvl :
  exists w, item_separator ind ++ newline_indent ind lvl = String "," w /\ all_chars is_ws w = true.
Proof.
  destruct ind as [k|]; cbn.
  - exists (String newline (spaces (k * lvl))). split; [reflexivity|]. apply spaces_ws.
  - exists " ". split; reflexivity.
Qed.

#[export] Instance py_layout_ok ind : LayoutOk (py_layout ind).
Proof.
  split; cbn [py_layout lay_escape lay_open lay_close lay_empty lay_sep lay_key].
  - apply scanstring_escape_char.
  - intros. apply newline_indent_ws.
  - intros. apply newline_indent_ws.
  - reflexivity.
  - intros. apply separator_shape.
  - exists " ". split; reflexivity.
Qed.

(** [json.loads] reads back what [json.dumps] ([indent=None]) and
    [json.dump(..., indent=4)] write: for every value whose dicts have
    distinct keys, decoding its text gives the value itself. *)
Lemma loads_str_iterencode ind v : json_wfb v = true -> loads_str (iterencode ind 0 v) = Loaded v.
Proof. apply loads_str_encode, _. Qed.
