(* ===== verification/Loads.v ===== *)
(** * [json.loads] on bytes: the decoder [get_data] calls

    [get_data] passes each line of [response.iter_lines()], a [bytes]
    object, to [json.loads] ([src/task.py] line 39).  For bytes,
    [json.loads] first guesses the encoding with
    [json.detect_encoding] (byte-order marks, then the position of zero
    bytes among the first four), decodes with that codec and
    [errors='surrogatepass'], and then scans the text as [JsonDecode]
    describes.  Here UTF-8 (with or without its mark) is decoded; a
    sequence that UTF-8 refuses raises [UnicodeDecodeError]; a code
    point above U+00FF, or a UTF-16/UTF-32 document, is outside the
    model.  [py_json_loads] is this decoder as the instance of
    [JsonDecoder] that [Source] is parameterised by.

    The theorems compose the source with the real decoder: a feed of
    records written by [json.dumps], one per line, is read back by
    [get_data] exactly; a keep-alive line holding a space, or a byte
    that is not UTF-8, ends the run. *)

From S2P Require Import Prelude Decimal Json JsonEncode Source JsonDecode JsonRoundtrip.
From Stdlib Require Import Ascii.

Local Open Scope string_scope.

(** [b.startswith(prefix)] on the byte values. *)
Fixpoint starts_with (p ns : list N) : bool :=
  match p, ns with
  | [], _ => true
  | x :: p', n :: ns' => (x =? n)%N && starts_with p' ns'
  | _ :: _, [] => false
  end.

(** [json.detect_encoding(b)] *)
Definition detect_encoding (b : list Byte.byte) : string :=
  let ns := map Byte.to_N b in
  if starts_with [0; 0; 254; 255]%N ns || starts_with [255; 254; 0; 0]%N ns then "utf-32"
  else if starts_with [254; 255]%N ns || starts_with [255; 254]%N ns then "utf-16"
  else if starts_with [239; 187; 191]%N ns then "utf-8-sig"
  else
    match ns with
    | n0 :: n1 :: n2 :: n3 :: _ =>
        if (n0 =? 0)%N then (if (n1 =? 0)%N then "utf-32-be" else "utf-16-be")
        else if (n1 =? 0)%N then
          (if (n2 =? 0)%N && (n3 =? 0)%N then "utf-32-le" else "utf-16-le")
        else "utf-8"
    | [n0; n1] =>
        if (n0 =? 0)%N then "utf-16-be" else if (n1 =? 0)%N then "utf-16-le" else "utf-8"
    | _ => "utf-8"
    end.

Inductive decoded : Type :=
| Decoded (s : string)
| DecodeFailed
| DecodeUnmodelled.

Definition decoded_cons (c : ascii) (d : decoded) : decoded :=
  match d with Decoded s => Decoded (String c s) | e => e end.

(** [b.decode('utf-8', 'surrogatepass')]: one byte below 0x80, or a
    lead byte 0xC2-0xDF and a continuation byte 0x80-0xBF; lead bytes
    0xE0-0xF4 start code points above U+07FF (outside the model); any
    other byte is refused. *)
Fixpoint utf8_decode (bs : list Byte.byte) : decoded :=
  match bs with
  | [] => Decoded EmptyString
  | b :: bs' =>
      let n := Byte.to_N b in
      if (n <? 128)%N then decoded_cons (ascii_of_N n) (utf8_decode bs')
      else if ((194 <=? n) && (n <=? 223))%N then
        match bs' with
        | b2 :: bs'' =>
            let m := Byte.to_N b2 in
            if ((128 <=? m) && (m <=? 191))%N then
              let cp := ((n - 192) * 64 + (m - 128))%N in
              if (cp <=? 255)%N then decoded_cons (ascii_of_N cp) (utf8_decode bs'')
              else DecodeUnmodelled
            else DecodeFailed
        | [] => DecodeFailed
        end
      else if ((224 <=? n) && (n <=? 244))%N then DecodeUnmodelled
      else DecodeFailed
  end.

(** [json.loads(b)] for [bytes]. *)
Definition json_loads_bytes (b : list Byte.byte) : load_result :=
  let enc := detect_encoding b in
  if String.eqb enc "utf-8" || String.eqb enc "utf-8-sig" then
    let body := if String.eqb enc "utf-8-sig" then skipn 3 b else b in
    match utf8_decode body with
    | Decoded s => loads_str s
    | DecodeFailed => UnicodeDecodeError
    | DecodeUnmodelled => LoadOutOfModel
    end
  else LoadOutOfModel.

#[export] Instance py_json_loads : JsonDecoder := json_loads_bytes.

(** A feed of records as a server writes it: [json.dumps(record)]
    and a line feed per record, encoded as UTF-8. *)
Definition ndjson_feed (vs : list json) : list Byte.byte :=
  concat (map (fun v => String.list_byte_of_string (dumps v) ++ [Byte.x0a])%list vs).

(** ** Lemmas *)

Lemma byte_of_ascii_N c : Byte.to_N (byte_of_ascii c) = N_of_ascii c.
Proof.
  pose proof (ascii_of_byte_via_N (byte_of_ascii c)) as H.
  rewrite ascii_of_byte_of_ascii in H. apply (f_equal N_of_ascii) in H.
  pose proof (Byte.to_N_bounded (byte_of_ascii c)).
  rewrite N_ascii_embedding in H by lia. by symmetry.
Qed.

(** The bytes of a printable string are the ASCII codes 32 to 126. *)
Lemma printable_bytes s :
  all_chars printable s = true ->
  Forall (fun n => 32 <= n <= 126)%N (map Byte.to_N (String.list_byte_of_string s)).
Proof.
  induction s as [|c s IH]; cbn; [constructor|]. intros [Hc Hs]%andb_true_iff.
  constructor; [|by apply IH]. rewrite byte_of_ascii_N.
  unfold printable in Hc. apply andb_true_iff in Hc as [H1 H2]. apply N.leb_le in H1, H2. lia.
Qed.

Lemma starts_with_above p x p' ns n :
  p = x :: p' -> (x < 32 \/ 126 < x)%N -> Forall (fun n => 32 <= n <= 126)%N (n :: ns) ->
  starts_with p (n :: ns) = false.
Proof.
  intros -> Hx Hn. apply Forall_cons_1 in Hn as [Hn _]. cbn.
  destruct (N.eqb_spec x n); [lia|reflexivity].
Qed.

(** Text bytes without a zero byte and without a byte-order mark are
    UTF-8 to [detect_encoding]. *)
Lemma detect_encoding_text b :
  Forall (fun n => 32 <= n <= 126)%N (map Byte.to_N b) -> detect_encoding b = "utf-8".
Proof.
  unfold detect_encoding. intros H.
  destruct (map Byte.to_N b) as [|n0 ns] eqn:E; [reflexivity|].
  rewrite !(starts_with_above _ _ _ _ _ eq_refl) by (lia || exact H). cbn [orb].
  apply Forall_cons_1 in H as [H0 H]. destruct ns as [|n1 [|n2 [|n3 ns]]]; [reflexivity| | |].
  all: rewrite ?Forall_cons in H; destruct_and?.
  all: repeat match goal with |- context [(?a =? ?b)%N] => destruct (N.eqb_spec a b); [lia|] end.
  all: reflexivity.
Qed.

Lemma utf8_decode_text s :
  all_chars printable s = true -> utf8_decode (String.list_byte_of_string s) = Decoded s.
Proof.
  unfold String.list_byte_of_string.
  induction s as [|c s IH]; [reflexivity|]. intros Hs.
  cbn [String.list_ascii_of_string map all_chars utf8_decode] in Hs |- *.
  apply andb_true_iff in Hs as [Hc Hs]. rewrite byte_of_ascii_N, IH by done.
  unfold printable in Hc. apply andb_true_iff in Hc as [_ Hc]. apply N.leb_le in Hc.
  destruct (N.ltb_spec (N_of_ascii c) 128); [|lia]. cbn. by rewrite ascii_N_embedding.
Qed.

(** [json.loads] on the bytes of a line [json.dumps] wrote. *)
Lemma json_loads_bytes_dumps v :
  json_wfb v = true -> json_loads_bytes (String.list_byte_of_string (dumps v)) = Loaded v.
Proof.
  intros Hwf. unfold json_loads_bytes.
  rewrite detect_encoding_text by (apply printable_bytes, dumps_printable). cbn.
  rewrite utf8_decode_text by apply dumps_printable. by apply loads_str_iterencode.
Qed.

Lemma is_newline_N b : is_newline b = true -> Byte.to_N b = 10%N \/ Byte.to_N b = 13%N.
Proof. destruct b; cbn; try discriminate; auto. Qed.

Lemma dumps_line v :
  Forall (fun b => is_newline b = false) (String.list_byte_of_string (dumps v)) /\
  String.list_byte_of_string (dumps v) <> [].
Proof.
  split.
  - pose proof (printable_bytes _ (dumps_printable v)) as H.
    rewrite List.Forall_map in H. eapply Forall_impl; [exact H|]. intros b Hb.
    cbv beta in Hb. destruct (is_newline b) eqn:E; [|reflexivity]. apply is_newline_N in E. lia.
  - unfold dumps, iterencode. destruct (encode_head (py_layout None) 0 v) as (c & t & -> & _). discriminate.
Qed.

Lemma splitlines_feed vs :
  splitlines (ndjson_feed vs) = map (fun v => String.list_byte_of_string (dumps v)) vs.
Proof.
  induction vs as [|v vs IH]; [reflexivity|]. unfold ndjson_feed in *. cbn [map concat].
  rewrite <- app_assoc. cbn [app]. rewrite splitlines_line_nl, IH; [reflexivity|].
  apply dumps_line.
Qed.

Lemma filter_nonblank_id (ls : list (list Byte.byte)) :
  Forall (fun l => l <> []) ls -> List.filter nonblank ls = ls.
Proof.
  induction 1 as [|l ls Hl _ IH]; [reflexivity|]. cbn. destruct l; [done|]. cbn. by rewrite IH.
Qed.

Lemma spaces_bytes k : String.list_byte_of_string (spaces k) = repeat Byte.x20 k.
Proof. induction k as [|k IH]; [reflexivity|]. cbn. unfold String.list_byte_of_string in IH. by rewrite IH. Qed.

Lemma spaces_printable k : all_chars printable (spaces k) = true.
Proof. induction k as [|k IH]; [reflexivity|]. exact IH. Qed.

Lemma skip_ws_spaces k : skip_ws (spaces k) = EmptyString.
Proof. induction k as [|k IH]; [reflexivity|]. exact IH. Qed.

Lemma line_col_spaces k l c : line_col (spaces k) l c = (l, c + k).
Proof. revert c. induction k as [|k IH]; intros c; cbn; [f_equal; lia|]. rewrite IH. f_equal. lia. Qed.

Lemma substring_all s : String.substring 0 (String.length s) s = s.
Proof. induction s as [|c s IH]; [reflexivity|]. cbn. by rewrite IH. Qed.

Lemma length_spaces k : String.length (spaces k) = k.
Proof. induction k as [|k IH]; [reflexivity|]. cbn. by rewrite IH. Qed.

Lemma splitlines_repeat_space k : 0 < k -> splitlines (repeat Byte.x20 k) = [repeat Byte.x20 k].
Proof.
  induction k as [|[|k] IH]; intros Hk; [lia|reflexivity|].
  change (repeat Byte.x20 (S (S k))) with (Byte.x20 :: repeat Byte.x20 (S k)).
  rewrite splitlines_cons_plain by reflexivity. rewrite IH by lia. reflexivity.
Qed.

(** ** Theorems *)

(** C15: A feed of records written by [json.dumps], one per line, is read
    back by [get_data] with the standard decoder, however the body is
    cut into chunks: exactly the records, in their order, and nothing
    printed. *)
Theorem get_data_reads_feed vs cs :
  Forall (fun v => json_wfb v = true) vs -> concat cs = ndjson_feed vs ->
  get_data {| status_code := 200; chunks := cs |} = ([], Ret (Some vs)).
Proof.
  intros Hwf Hc. rewrite get_data_content. cbn [status_code Z.eqb Pos.eqb].
  assert (Hd : decode_loop [] (splitlines (content {| status_code := 200; chunks := cs |})) =
               ([], Ret vs)).
  { apply decode_loop_ok. unfold content. cbn [chunks]. rewrite Hc, splitlines_feed.
    rewrite filter_nonblank_id.
    - clear Hc. induction Hwf as [|v vs Hv _ IH]; constructor; [|exact IH].
      by apply json_loads_bytes_dumps.
    - apply List.Forall_map, List.Forall_forall. intros v _. apply dumps_line. }
  rewrite Hd. reflexivity.
Qed.

(** A line of [k > 0] spaces: "Expecting value" at its end. *)
Lemma json_loads_spaces k :
  0 < k ->
  json_loads_bytes (repeat Byte.x20 k) =
  JSONDecodeError ("Expecting value: line 1 column " ++ str_Z (Z.of_nat (S k)) ++
                   " (char " ++ str_Z (Z.of_nat k) ++ ")").
Proof.
  intros Hk. rewrite <- spaces_bytes. unfold json_loads_bytes.
  rewrite detect_encoding_text by (apply printable_bytes, spaces_printable). cbn.
  rewrite utf8_decode_text by apply spaces_printable.
  unfold loads_str. rewrite skip_ws_spaces. destruct (2 * String.length (spaces k)); cbn [scan_once].
  all: unfold decode_error_detail; cbn [String.length]; rewrite Nat.sub_0_r, substring_all,
    line_col_spaces, length_spaces; reflexivity.
Qed.

(** A byte that starts no UTF-8 sequence: a continuation byte
    [0x80-0xbf], an overlong lead [0xc0-0xc1], or [0xf5-0xff]. *)
Definition invalid_lead (b : Byte.byte) : bool :=
  let n := Byte.to_N b in (((128 <=? n) && (n <=? 193)) || (245 <=? n))%N.

(** A text whose first byte is not [NUL] and starts no byte order mark,
    and whose second byte is not [NUL], is detected as UTF-8. *)
Lemma detect_encoding_utf8 x l :
  (0 < Byte.to_N x)%N -> Byte.to_N x <> 239%N -> (Byte.to_N x < 254)%N ->
  hd_error l <> Some Byte.x00 -> detect_encoding (x :: l) = "utf-8".
Proof.
  intros H0 H239 H254 Hl. unfold detect_encoding. cbn [map starts_with].
  rewrite (proj2 (N.eqb_neq 0 _)), (proj2 (N.eqb_neq 255 _)), (proj2 (N.eqb_neq 254 _)),
    (proj2 (N.eqb_neq 239 _)) by lia. cbn [andb orb].
  assert (Hy : forall y l', l = y :: l' -> (Byte.to_N y =? 0)%N = false).
  { intros y l' ->. apply N.eqb_neq. intros Hy. apply Hl. cbn. f_equal.
    by apply (f_equal Byte.of_N) in Hy; rewrite Byte.of_to_N in Hy. }
  rewrite (proj2 (N.eqb_neq (Byte.to_N x) 0)) by lia.
  destruct l as [|y [|z [|w l']]]; cbn [map]; try reflexivity; by rewrite (Hy y _ eq_refl).
Qed.

Lemma utf8_decode_invalid_lead b c : invalid_lead b = true -> utf8_decode (b :: c) = DecodeFailed.
Proof.
  unfold invalid_lead. intros Hb. cbn [utf8_decode].
  apply orb_true_iff in Hb as [Hb|Hb]; [apply andb_true_iff in Hb as [H1 H2]|];
    apply N.leb_le in H1 || apply N.leb_le in Hb; try apply N.leb_le in H2;
    repeat match goal with |- context [(?a <=? ?b)%N] => destruct (N.leb_spec a b) end;
    repeat match goal with |- context [(?a <? ?b)%N] => destruct (N.ltb_spec a b) end;
    cbn [andb]; try lia; reflexivity.
Qed.

(** ASCII bytes decode one by one, so a failure after them is the
    failure of the whole. *)
Lemma utf8_decode_ascii_app a rest :
  Forall (fun x => Byte.to_N x < 128)%N a -> utf8_decode rest = DecodeFailed ->
  utf8_decode (a ++ rest)%list = DecodeFailed.
Proof.
  induction 1 as [|x a Hx _ IH]; intros Hr; [done|].
  cbn [app utf8_decode]. rewrite (proj2 (N.ltb_lt _ _) Hx), IH by done. reflexivity.
Qed.

(** C20: The script on a feed whose second line is a keep-alive of spaces:
    [get_data] prints the decoding error and exits with status 255. *)
Theorem get_data_spaces_line_exits k cs :
  0 < k -> concat cs = Byte.x31 :: Byte.x0a :: repeat Byte.x20 k ->
  @get_data py_json_loads {| status_code := 200; chunks := cs |} =
  ([MsgDecodeError ("Expecting value: line 1 column " ++ str_Z (Z.of_nat (S k)) ++
                    " (char " ++ str_Z (Z.of_nat k) ++ ")")], Exit (-1)%Z).
Proof.
  intros Hk Hc. rewrite get_data_content. cbn [status_code Z.eqb Pos.eqb]. unfold content.
  cbn [chunks]. rewrite Hc.
  change (Byte.x31 :: Byte.x0a :: repeat Byte.x20 k) with
    ([Byte.x31] ++ Byte.x0a :: repeat Byte.x20 k)%list.
  rewrite (splitlines_line_nl [Byte.x31]) by repeat constructor.
  rewrite splitlines_repeat_space by done.
  assert (H1 : Forall (fun l => nonblank l = false \/ exists v, json_loads l = Loaded v)
                 [[Byte.x31]]).
  { constructor; [|constructor]. right. eexists. reflexivity. }
  assert (H2 : nonblank (repeat Byte.x20 k) = true) by (destruct k; [lia|reflexivity]).
  pose proof (@decode_loop_fail py_json_loads [] [[Byte.x31]] (repeat Byte.x20 k) [] _ H1 H2
                (json_loads_spaces k Hk)) as E.
  cbn [app] in E. rewrite E. reflexivity.
Qed.

(** C21: A line that is not UTF-8 raises [UnicodeDecodeError], which the
    [except json.JSONDecodeError] clause does not catch: whatever lines
    that decode come before it, a line made of ASCII characters
    followed by a byte that starts no UTF-8 sequence makes [get_data]
    raise, with nothing printed (exit status 1).  The ASCII part holds
    no [NUL]; when it is empty, the bad byte is below [0xfe] and the
    next byte is not [NUL], so that [detect_encoding] sees neither a
    byte order mark nor UTF-16 and reads the line as UTF-8. *)
Theorem get_data_non_utf8_raises r ls1 a b c ls2 :
  status_code r = 200%Z -> iter_lines r = (ls1 ++ (a ++ b :: c) :: ls2)%list ->
  Forall (fun l => nonblank l = false \/ exists v, json_loads_bytes l = Loaded v) ls1 ->
  Forall (fun x => 0 < Byte.to_N x < 128)%N a -> invalid_lead b = true ->
  (a <> [] \/ (Byte.to_N b <= 253)%N /\ hd_error c <> Some Byte.x00) ->
  @get_data py_json_loads r = ([], Raise ValueError) /\
  exit_status (snd (@get_data py_json_loads r)) = 1%Z.
Proof.
  intros Hs Hl H1 Ha Hb Hstart.
  assert (Hd : detect_encoding ((a ++ b :: c)%list) = "utf-8").
  { destruct a as [|x a]; cbn [app].
    - destruct Hstart as [[]|[H253 Hc]]; [done|].
      unfold invalid_lead in Hb. apply orb_true_iff in Hb as [Hb|Hb];
        [apply andb_true_iff in Hb as [Hb1 Hb2]; apply N.leb_le in Hb1, Hb2|apply N.leb_le in Hb];
        apply detect_encoding_utf8; try lia; done.
    - apply Forall_cons_1 in Ha as [Hx Ha]. apply detect_encoding_utf8; [lia|lia|lia|].
      destruct a as [|y a]; cbn.
      + intros [= ->]. unfold invalid_lead in Hb. cbn in Hb. discriminate.
      + intros [= ->]. apply Forall_cons_1 in Ha as [Hy _]. cbn in Hy. lia. }
  assert (Hu : json_loads_bytes ((a ++ b :: c)%list) = UnicodeDecodeError).
  { unfold json_loads_bytes. rewrite Hd. cbn.
    rewrite utf8_decode_ascii_app; [reflexivity| |by apply utf8_decode_invalid_lead].
    eapply Forall_impl; [exact Ha|]. cbn. lia. }
  unfold get_data. rewrite Hs, Hl. cbn [Z.eqb Pos.eqb].
  rewrite (@decode_loop_unicode py_json_loads [] ls1 ((a ++ b :: c)%list) ls2 H1); [split; reflexivity| |exact Hu].
  by destruct a.
Qed.

(** ** Witnesses *)

(** Two records, the body cut into two chunks inside the first one. *)
Definition sample_feed_records : list json := [JObj [("id", JInt 1)]; JArr []].

Definition sample_feed_chunks : list (list Byte.byte) :=
  [firstn 5 (ndjson_feed sample_feed_records); skipn 5 (ndjson_feed sample_feed_records)].

Lemma get_data_reads_feed_witness :
  get_data {| status_code := 200; chunks := sample_feed_chunks |} = ([], Ret (Some sample_feed_records)).
Proof. apply get_data_reads_feed; [repeat constructor|vm_compute; reflexivity]. Defined.

Lemma get_data_spaces_line_exits_witness :
  get_data {| status_code := 200; chunks := [[Byte.x31; Byte.x0a; Byte.x20]; [Byte.x20]] |} =
  ([MsgDecodeError ("Expecting value: line 1 column " ++ str_Z (Z.of_nat 3) ++
                    " (char " ++ str_Z (Z.of_nat 2) ++ ")")], Exit (-1)%Z).
Proof. apply get_data_spaces_line_exits; [lia|reflexivity]. Defined.

(** The second line of the feed [1], [0xc0]: an overlong lead byte [0xc0]. *)
Lemma get_data_non_utf8_raises_witness :
  @get_data py_json_loads {| status_code := 200; chunks := [[Byte.x31; Byte.x0a; Byte.xc0; Byte.x0a]] |} =
    ([], Raise ValueError) /\
  exit_status (snd (@get_data py_json_loads {| status_code := 200; chunks := [[Byte.x31; Byte.x0a; Byte.xc0; Byte.x0a]] |})) = 1%Z.
Proof.
  apply (get_data_non_utf8_raises _ [[Byte.x31]] [] Byte.xc0 [] []); [reflexivity|reflexivity| |constructor|reflexivity|].
  - constructor; [right; eexists; reflexivity|constructor].
  - right. split; [cbn; lia|discriminate].
Defined.
