(* ===== verification/Frame.v ===== *)
(** * [pd.json_normalize] and the schema validator [check_dataframe]

    [process_json] starts with [df = pd.json_normalize(json)]
    ([src/task.py] line 76) and [check_dataframe(df)] (lines 125-142).

    [json_normalize] with no [record_path], [meta] or [max_level] (pandas
    1.3 and later): [None] raises [NotImplementedError]; an empty list
    gives an empty frame; each record that is a dict is flattened by
    [_normalise_json_ordered] (nested dicts become ["a.b"] keys, an empty
    nested dict vanishes, the top-level non-dict entries come first);
    a record that is neither dict nor list becomes an empty row.  A
    record that is itself a list is outside the model.  The frame is
    [DataFrame(rows)]: its columns are the keys of all rows in order of
    first appearance, a row without a column holds [NaN] there.

    The validator is the hard gate of the pipeline: the frame must have
    rows and columns, and every required column must exist in {e some}
    row (column-level, not record-level, presence). *)

From S2P Require Import Prelude Json.

#[local] Set Warnings "-clear-no-such-hyp".

(** [f"{key_string}{sep}{key}"], with the separator prefix removed at
    the top level ([if not key_string]). *)
Definition new_key (key_string k : string) : string :=
  if String.eqb key_string EmptyString then k else (key_string ++ "." ++ k)%string.

(** [_normalise_json(data, key_string, normalized_dict, sep)]: the
    dictionary is shared by the recursive calls, here threaded. *)
Fixpoint normalise_json (key_string : string) (data : json) (acc : dict) : dict :=
  match data with
  | JObj kvs =>
      (fix go (kvs : list (string * json)) (acc : dict) : dict :=
         match kvs with
         | [] => acc
         | (k, v) :: kvs' => go kvs' (normalise_json (new_key key_string k) v acc)
         end) kvs acc
  | _ => dict_set acc key_string data
  end.

Definition is_obj (j : json) : bool := match j with JObj _ => true | _ => false end.

(** [{**d1, **d2}] *)
Definition dict_merge (d1 d2 : dict) : dict :=
  fold_left (fun d kv => dict_set d (fst kv) (snd kv)) d2 d1.

(** [_normalise_json_ordered(data, sep)] *)
Definition normalise_json_ordered (d : dict) : dict :=
  let top := List.filter (fun kv => negb (is_obj (snd kv))) d in
  let nested := normalise_json EmptyString (JObj (List.filter (fun kv => is_obj (snd kv)) d)) [] in
  dict_merge top nested.

(** [_simple_json_normalize(row)] for one record of the list. *)
Definition normalize_row (j : json) : PyM dict :=
  match j with
  | JObj d => pret (normalise_json_ordered d)
  | JArr _ => raise OutOfModel
  | _ => pret []
  end.

Record frame : Type := {
  columns : list string;
  rows : list dict
}.

(** Add the keys of a row that are not yet columns, in row order. *)
Definition add_columns (cols : list string) (d : dict) : list string :=
  fold_left (fun cols k => if bool_decide (k ∈ cols) then cols else cols ++ [k]) (map fst d) cols.

(** [DataFrame(list_of_dicts)] *)
Definition frame_of_rows (ds : list dict) : frame :=
  {| columns := fold_left add_columns ds []; rows := ds |}.

(** [pd.json_normalize(data)] *)
Definition json_normalize (data : option (list json)) : PyM frame :=
  match data with
  | None => raise NotImplementedError
  | Some [] => pret {| columns := []; rows := [] |}
  | Some recs => let* ds := mapM normalize_row recs in pret (frame_of_rows ds)
  end.

(** [df.empty]: no row or no column. *)
Definition frame_empty (df : frame) : bool :=
  match rows df, columns df with
  | [], _ | _, [] => true
  | _, _ => false
  end.

Definition required_columns : list string := ["id"; "name"; "city"; "age"; "friends"]%string.

(** [check_dataframe(df)] *)
Definition check_dataframe (df : frame) : PyM bool :=
  if frame_empty df then do print MsgEmpty; pret false
  else
    let missing_columns := List.filter (fun c => negb (bool_decide (c ∈ columns df))) required_columns in
    match missing_columns with
    | [] => do print MsgAllColumns; pret true
    | _ => do print (MsgMissingColumns missing_columns); pret false
    end.

(** [df[c]] on row [d]: [None] is [NaN]. *)
Definition cell (d : dict) (c : string) : option json := dict_get d c.

(** ** Lemmas *)

Lemma dict_set_Forall (P : string * json -> Prop) d k v :
  Forall P d -> P (k, v) -> Forall (fun kv => P kv \/ fst kv = k /\ snd kv = v) (dict_set d k v).
Proof.
  induction 1 as [|[k' v'] d Hkv Hd IH]; intros Hp; cbn; [repeat constructor; cbn; tauto|].
  destruct (String.eqb_spec k k') as [->|]; constructor; cbn.
  - by left.
  - eapply Forall_impl; [exact Hd|]. tauto.
  - by left.
  - by apply IH.
Qed.

Lemma dict_set_Forall_snd (P : json -> Prop) d k v :
  Forall (fun kv => P (snd kv)) d -> P v -> Forall (fun kv => P (snd kv)) (dict_set d k v).
Proof.
  intros Hd Hv. eapply Forall_impl; [by apply (dict_set_Forall (fun kv => P (snd kv)))|].
  intros [k' v'] [H|[_ ->]]; done.
Qed.

Lemma normalise_json_flat ks v acc :
  Forall (fun kv => is_obj (snd kv) = false) acc ->
  Forall (fun kv => is_obj (snd kv) = false) (normalise_json ks v acc).
Proof.
  revert ks acc.
  induction v as [| b | z | s | l _ | kvs IH] using json_ind_deep; intros ks acc Hacc; cbn;
    try (by apply (dict_set_Forall_snd (fun j => is_obj j = false))).
  revert acc Hacc. induction IH as [|[k v] kvs Hv _ IHk]; intros acc Hacc; [done|].
  apply IHk. by apply Hv.
Qed.

Lemma dict_merge_Forall_snd (P : json -> Prop) d1 d2 :
  Forall (fun kv => P (snd kv)) d1 -> Forall (fun kv => P (snd kv)) d2 ->
  Forall (fun kv => P (snd kv)) (dict_merge d1 d2).
Proof.
  unfold dict_merge. revert d1. induction d2 as [|[k v] d2 IH]; intros d1 H1 H2; cbn; [done|].
  apply Forall_cons_1 in H2 as [Hv H2]. apply IH; [|done]. by apply dict_set_Forall_snd.
Qed.

Lemma In_add_columns c cols d : c ∈ add_columns cols d <-> c ∈ cols \/ c ∈ map fst d.
Proof.
  unfold add_columns. generalize (map fst d) as ks. intros ks. revert cols.
  induction ks as [|k ks IH]; intros cols; cbn; [set_solver|].
  rewrite IH. case_bool_decide; set_solver.
Qed.

Lemma In_fold_add_columns c cols ds :
  c ∈ fold_left add_columns ds cols <-> c ∈ cols \/ exists d, d ∈ ds /\ c ∈ map fst d.
Proof.
  revert cols. induction ds as [|d ds IH]; intros cols; cbn.
  - split; [tauto|]. intros [H|(d & Hd & _)]; [done|set_solver].
  - rewrite IH, In_add_columns. set_solver.
Qed.

Lemma missing_columns_nil (cols : list string) :
  List.filter (fun c => negb (bool_decide (c ∈ cols))) required_columns = [] <->
  Forall (fun c => c ∈ cols) required_columns.
Proof.
  unfold required_columns. cbn.
  repeat (case_bool_decide; cbn); rewrite ?Forall_cons; split; intros; destruct_and?;
    try discriminate; try contradiction; repeat split; auto using Forall_nil_2.
Qed.

Lemma json_normalize_exits data : exits_after (json_normalize data).
Proof. unfold json_normalize, normalize_row. exits_tac. Qed.

Lemma check_dataframe_exits df : exits_after (check_dataframe df).
Proof. unfold check_dataframe. exits_tac. Qed.

#[export] Hint Resolve json_normalize_exits check_dataframe_exits : exits.

(** ** Theorems *)

(** Column-level presence: a column exists in the frame as soon as one
    row has that key. *)
Theorem frame_columns_spec (ds : list dict) c :
  c ∈ columns (frame_of_rows ds) <-> exists d, d ∈ ds /\ c ∈ map fst d.
Proof. cbn. rewrite In_fold_add_columns. set_solver. Qed.

(** Flattening leaves no nested dict in a row. *)
Theorem normalise_json_ordered_flat (d : dict) :
  Forall (fun kv => is_obj (snd kv) = false) (normalise_json_ordered d).
Proof.
  unfold normalise_json_ordered. apply (dict_merge_Forall_snd (fun j => is_obj j = false)).
  - apply List.Forall_forall. intros kv Hkv. apply List.filter_In in Hkv as [_ H].
    by apply negb_true_iff in H.
  - by apply normalise_json_flat.
Qed.

(** The validator accepts exactly the non-empty frames with every
    required column. *)
Lemma check_dataframe_true df :
  snd (check_dataframe df) = Ret true <->
  frame_empty df = false /\ Forall (fun c => c ∈ columns df) required_columns.
Proof.
  unfold check_dataframe. destruct (frame_empty df) eqn:E.
  - cbn. split; [discriminate|]. intros [? _]; discriminate.
  - rewrite <- missing_columns_nil.
    destruct (List.filter (fun c => negb (bool_decide (c ∈ columns df))) required_columns)
      as [|m ms]; cbn; [tauto|]. split; [discriminate|]. intros [_ H]; discriminate.
Qed.

(** C10: The validator accepts exactly the frames that have rows and columns
    and hold every required column; it never exits or raises. *)
Theorem check_dataframe_accepts df :
  (exists out b, check_dataframe df = (out, Ret b)) /\
  (snd (check_dataframe df) = Ret true <->
   frame_empty df = false /\ Forall (fun c => c ∈ columns df) required_columns).
Proof.
  split; [|apply check_dataframe_true].
  unfold check_dataframe. destruct (frame_empty df); [by eexists _, _|].
  destruct (List.filter _ required_columns); by eexists _, _.
Qed.

(** C31: Presence is checked per column, not per record: on the frame of
    a list of rows, the validator accepts exactly when there is a row
    and every required column is a key of some row.  A row may lack any
    required field, [age] for one, as long as another row has it. *)
Theorem check_dataframe_rows ds :
  snd (check_dataframe (frame_of_rows ds)) = Ret true <->
  ds <> [] /\ Forall (fun c => exists d, d ∈ ds /\ c ∈ map fst d) required_columns.
Proof.
  rewrite check_dataframe_true.
  assert (Hf : forall P : string -> Prop, (forall c, P c <-> exists d, d ∈ ds /\ c ∈ map fst d) ->
            Forall P required_columns <-> Forall (fun c => exists d, d ∈ ds /\ c ∈ map fst d) required_columns).
  { intros P HP. split; intros H; (eapply Forall_impl; [exact H|]); intros c; apply HP. }
  rewrite (Hf _ (frame_columns_spec ds)). split.
  - intros [He Hc]. split; [|done]. intros ->. discriminate.
  - intros [Hne Hc]. split; [|done].
    assert (Hid : "id"%string ∈ columns (frame_of_rows ds)).
    { apply frame_columns_spec. by apply Forall_cons_1 in Hc as [? _]. }
    unfold frame_empty. destruct (rows (frame_of_rows ds)) eqn:Er; [by destruct ds|].
    destruct (columns (frame_of_rows ds)); [set_solver|reflexivity].
Qed.

(** C22: A required column absent from every row is named in the report and
    the frame is refused. *)
Theorem check_dataframe_reports_missing df c :
  frame_empty df = false -> c ∈ required_columns -> c ∉ columns df ->
  exists missing, check_dataframe df = ([MsgMissingColumns missing], Ret false) /\ c ∈ missing.
Proof.
  intros He Hc Hnot. unfold check_dataframe. rewrite He.
  assert (Hin : c ∈ List.filter (fun c => negb (bool_decide (c ∈ columns df))) required_columns).
  { apply list_elem_of_In, List.filter_In. split; [by apply list_elem_of_In|].
    by rewrite bool_decide_false. }
  destruct (List.filter _ required_columns) as [|m ms]; [set_solver|]. eauto.
Qed.

(** ** Witnesses *)

(** Two rows, the second without [age]: the frame is accepted. *)
Definition full_row : dict :=
  [("id", JInt 1); ("name", JStr "A"); ("city", JStr "X"); ("age", JInt 10); ("friends", JArr [])]%string.
Definition ageless_row : dict :=
  [("id", JInt 2); ("name", JStr "B"); ("city", JStr "X"); ("friends", JArr [])]%string.

Lemma check_dataframe_rows_witness :
  snd (check_dataframe (frame_of_rows [full_row; ageless_row])) = Ret true.
Proof.
  apply check_dataframe_rows. split; [discriminate|].
  repeat constructor; exists full_row; (split; [by left|apply (bool_decide_unpack _); reflexivity]).
Defined.

(** One record without a city: the frame has no [city] column. *)
Definition no_city_frame : frame :=
  frame_of_rows [[("id", JInt 1); ("name", JStr "A"); ("age", JInt 10); ("friends", JArr [])]%string].

Lemma check_dataframe_reports_missing_witness :
  exists missing, check_dataframe no_city_frame = ([MsgMissingColumns missing], Ret false) /\
    "city"%string ∈ missing.
Proof.
  apply check_dataframe_reports_missing;
    [reflexivity|apply (bool_decide_unpack _); reflexivity|apply (bool_decide_unpack _); reflexivity].
Defined.
