(* ===== verification/Aggregate.v ===== *)
(** * The aggregator: [process_json] ([src/task.py] lines 70-122)

    [process_json(json)] normalises the records into a frame, runs the
    validator and exits with [exit(-1)] when it refuses, then computes,
    in this order: the per-city average age (line 83), the friend count
    of every row (line 85), the per-city average friend count (line 86),
    the first row with the most friends (line 89), the most common name
    with its count (lines 93-98), the flattened list of the friends'
    hobbies (lines 101-104) and its most common element (lines 106-108),
    and assembles the result record (lines 111-121).

    A row of the frame is read as a [person]: a missing city is [NaN]
    (pandas drops such rows from the groups), a missing age is [NaN]
    (skipped by [mean]), a missing [friends] is [NaN] ([len] raises
    [TypeError]).  Cells whose pandas coercion the model does not
    describe (a non-string city, a non-integer age, a missing name, a
    name column of integers and nulls, which pandas turns into floats)
    raise [OutOfModel].  In the hobby loop, [friend['hobbies']] raises
    [KeyError] on a friend without the key and [TypeError] on a friend
    that is not a dict; [aggregate_prefix] splits a run at that loop,
    for the theorems on its returns and on its errors. *)

From S2P Require Import Prelude Json Counter Stats GroupBy Frame.

Record person : Type := {
  p_name : json;
  p_city : option string;
  p_age : option Z;
  p_friends : option json
}.

Definition person_of_row (d : dict) : PyM person :=
  match cell d "name", cell d "city", cell d "age" with
  | Some name, (None | Some JNull | Some (JStr _)) as city, (None | Some (JInt _)) as age =>
      pret {| p_name := name;
              p_city := match city with Some (JStr c) => Some c | _ => None end;
              p_age := match age with Some (JInt a) => Some a | _ => None end;
              p_friends := cell d "friends" |}
  | _, _, _ => raise OutOfModel
  end.

Record result : Type := {
  average_age_per_city : list (string * Z);
  average_friends_per_city : list (string * Z);
  person_with_most_friends : json;
  most_friends_count : nat;
  most_common_name_count : nat;
  most_common_name_all_cities : json;
  most_common_hobby : json;
  most_common_hobby_count : nat
}.

(** [len(row['friends'])]; [None] is the [TypeError] of [len] on
    [NaN] or on a value without a length. *)
Definition friend_count (p : person) : option nat :=
  match p_friends p with Some f => py_len f | None => None end.

(** [df['friends'].apply(len)] on one row. *)
Definition num_friends_of (p : person) : PyM nat :=
  match friend_count p with Some n => pret n | None => raise TypeError end.

(** [df.loc[df['num_friends'].idxmax()]]: the first index of a largest
    value, with that value ([max] over the enumerated column). *)
Definition idxmax (ns : list nat) : option (nat * nat) :=
  match most_common1 (combine (seq 0 (length ns)) ns) with
  | [m] => Some m
  | _ => None
  end.

(** [Counter(xs)], which hashes every element. *)
Definition py_counter (xs : list json) : PyM (counter (K:=json)) :=
  if forallb py_hashable xs then pret (counter_of py_eqb xs) else raise TypeError.

(** [c.most_common(1)[0]] *)
Definition most_common_first (c : counter (K:=json)) : PyM (json * nat) :=
  match most_common1 c with
  | m :: _ => pret m
  | [] => raise IndexError
  end.

(** [all_hobbies.extend(friend['hobbies'])] *)
Definition extend_hobbies (all_hobbies : list json) (friend : json) : PyM (list json) :=
  let* h := py_getitem_str friend "hobbies" in
  match py_iter h with
  | Some xs => pret (all_hobbies ++ xs)
  | None => raise TypeError
  end.

Fixpoint friends_loop (all_hobbies : list json) (friends : list json) : PyM (list json) :=
  match friends with
  | [] => pret all_hobbies
  | friend :: rest => let* acc := extend_hobbies all_hobbies friend in friends_loop acc rest
  end.

(** The double loop of lines 101-104. *)
Fixpoint hobbies_loop (all_hobbies : list json) (ps : list person) : PyM (list json) :=
  match ps with
  | [] => pret all_hobbies
  | p :: rest =>
      match p_friends p with
      | Some friends_list =>
          match py_iter friends_list with
          | Some friends => let* acc := friends_loop all_hobbies friends in hobbies_loop acc rest
          | None => raise TypeError
          end
      | None => raise TypeError
      end
  end.

(** Lines 81-121 on the rows of a validated frame. *)
Definition aggregate (ps : list person) : PyM result :=
  let* average_age_per_city := astype_int (groupby_mean p_city p_age ps) in
  let* ns := mapM num_friends_of ps in
  let pns := combine ps ns in
  let* average_friends_per_city :=
    astype_int (groupby_mean (fun pn => p_city (fst pn)) (fun pn => Some (Z.of_nat (snd pn))) pns) in
  match idxmax ns with
  | None => raise ValueError
  | Some (i, most_friends_count) =>
      let person_with_most_friends := nth i (map p_name ps) JNull in
      let* name_counts := py_counter (map p_name ps) in
      let* most_common_name := most_common_first name_counts in
      let* all_hobbies := hobbies_loop [] ps in
      let* hobby_counts := py_counter all_hobbies in
      let* most_common_hobby := most_common_first hobby_counts in
      pret {| average_age_per_city := average_age_per_city;
              average_friends_per_city := average_friends_per_city;
              person_with_most_friends := person_with_most_friends;
              most_friends_count := most_friends_count;
              most_common_name_count := snd most_common_name;
              most_common_name_all_cities := fst most_common_name;
              most_common_hobby := fst most_common_hobby;
              most_common_hobby_count := snd most_common_hobby |}
  end.

(** A name column of integers and nulls only, with at least one of
    each: pandas stores it as [float64], so [tolist()] (line 93) gives
    floats and a fresh [nan] per null, which [Counter] counts apart.
    The model does not describe that coercion. *)
Definition name_column_float (names : list json) : bool :=
  existsb (fun j => if j is JNull then true else false) names &&
  existsb (fun j => if j is JInt _ then true else false) names &&
  forallb (fun j => match j with JNull | JInt _ => true | _ => false end) names.

(** [process_json(json)] *)
Definition process_json (data : option (list json)) : PyM result :=
  let* df := json_normalize data in
  let* ok := check_dataframe df in
  if negb ok then do print MsgCheckFailed; exit (-1)
  else
    let* ps := mapM person_of_row (rows df) in
    if name_column_float (map p_name ps) then raise OutOfModel else aggregate ps.

(** The hobbies of a well-formed friend: a dict whose ['hobbies'] is a
    list. *)
Definition friend_hobbies (f : json) : option (list json) :=
  match f with
  | JObj kvs => match dict_get kvs "hobbies" with Some (JArr hs) => Some hs | _ => None end
  | _ => None
  end.

(** A person whose [friends] is a list of well-formed friends, with
    their hobby lists. *)
Definition wf_person (p : person) (hss : list (list json)) : Prop :=
  exists fs, p_friends p = Some (JArr fs) /\ Forall2 (fun f hs => friend_hobbies f = Some hs) fs hss.

(** ** Lemmas *)

Lemma py_counter_ret xs o c :
  py_counter xs = (o, Ret c) -> c = counter_of py_eqb xs /\ forallb py_hashable xs = true.
Proof. unfold py_counter. destruct (forallb py_hashable xs); by intros [= _ <-]. Qed.

Lemma most_common_first_ret c o m : most_common_first c = (o, Ret m) -> most_common1 c = [m].
Proof.
  unfold most_common_first. destruct (most_common1 c) as [|m' l] eqn:E; [discriminate|].
  intros [= _ <-]. destruct c as [|x c]; cbn in E; [discriminate|].
  by injection E as _ <-.
Qed.

Lemma astype_int_ret s o l :
  astype_int s = (o, Ret l) ->
  Forall (fun kv => snd kv <> None) s /\
  forall c, assoc_get c l = match assoc_get c s with Some (Some z) => Some z | _ => None end.
Proof.
  intros H.
  assert (Hdec : forall kv : string * option Z, {snd kv <> None} + {snd kv = None})
    by (intros [k [z|]]; [left; discriminate|right; reflexivity]).
  destruct (Forall_Exists_dec _ _ Hdec s) as [Hall|Hex].
  - split; [done|]. rewrite astype_int_all in H by done. injection H as _ <-. intros c.
    induction Hall as [|[k [z|]] s Hkv _ IH]; cbn in *; [done| |done].
    by destruct (String.eqb c k).
  - exfalso. by rewrite astype_int_nan in H.
Qed.

Lemma mapM_num_friends ps o ns :
  mapM num_friends_of ps = (o, Ret ns) -> map friend_count ps = map Some ns.
Proof.
  revert o ns. induction ps as [|p ps IH]; intros o ns H; cbn in H.
  - by injection H as _ <-.
  - ret_inv H. ret_inv H. injection H as _ <-. unfold num_friends_of in H0.
    destruct (friend_count p) eqn:Ep; [|discriminate]. injection H0 as _ <-.
    cbn. rewrite Ep. f_equal. eauto.
Qed.

(** The stages of a run of [aggregate] that returns. *)
Lemma aggregate_ret ps out res :
  aggregate ps = (out, Ret res) ->
  exists ns i hs (o1 o2 o3 : list msg),
    astype_int (groupby_mean p_city p_age ps) = (o1, Ret (average_age_per_city res)) /\
    map friend_count ps = map Some ns /\
    astype_int (groupby_mean (fun pn => p_city (fst pn)) (fun pn => Some (Z.of_nat (snd pn)))
                  (combine ps ns)) = (o2, Ret (average_friends_per_city res)) /\
    idxmax ns = Some (i, most_friends_count res) /\
    person_with_most_friends res = nth i (map p_name ps) JNull /\
    most_common1 (counter_of py_eqb (map p_name ps)) =
      [(most_common_name_all_cities res, most_common_name_count res)] /\
    forallb py_hashable (map p_name ps) = true /\
    hobbies_loop [] ps = (o3, Ret hs) /\ forallb py_hashable hs = true /\
    most_common1 (counter_of py_eqb hs) = [(most_common_hobby res, most_common_hobby_count res)].
Proof.
  unfold aggregate. intros H. ret_inv H. ret_inv H. ret_inv H.
  destruct (idxmax a0) as [[i m]|] eqn:Ei; [|discriminate].
  ret_inv H. ret_inv H. ret_inv H. ret_inv H. ret_inv H. injection H as _ <-. cbn.
  apply py_counter_ret in H3 as [-> Hn]. apply py_counter_ret in H6 as [-> Hh].
  apply most_common_first_ret in H4, H7. apply mapM_num_friends in H1.
  exists a0, i, a4. do 3 eexists. destruct a3, a6. repeat split; eauto.
Qed.

Lemma seq_split k n l1 i l2 :
  seq k n = l1 ++ i :: l2 -> i = k + length l1 /\ Forall (fun j => j < i) l1 /\ Forall (fun j => i < j) l2.
Proof.
  revert k n. induction l1 as [|x l1 IH]; intros k n Hs; destruct n as [|n]; cbn in *;
    try discriminate; injection Hs as -> Hs.
  - subst l2. split; [lia|]. split; [constructor|]. apply List.Forall_forall.
    intros j Hj. apply in_seq in Hj. lia.
  - apply IH in Hs as (-> & H1 & H2). split; [lia|]. split; [constructor; [lia|done]|done].
Qed.

Lemma map_fst_enumerate k (ns : list nat) : map fst (combine (seq k (length ns)) ns) = seq k (length ns).
Proof. revert k. induction ns as [|n ns IH]; intros k; cbn; [done|]. by rewrite IH. Qed.

Lemma in_enumerate k j x (ns : list nat) :
  In (j, x) (combine (seq k (length ns)) ns) <-> k <= j /\ nth_error ns (j - k) = Some x.
Proof.
  revert k. induction ns as [|n ns IH]; intros k; cbn.
  - split; [done|]. intros [_ H]. by destruct (j - k).
  - rewrite IH. split.
    + intros [[= -> ->]|[Hk Hn]]; [by rewrite Nat.sub_diag|].
      split; [lia|]. by replace (j - k) with (S (j - S k)) by lia.
    + intros [Hk Hn]. destruct (decide (j = k)) as [->|Hne].
      * rewrite Nat.sub_diag in Hn. injection Hn as ->. by left.
      * right. split; [lia|]. by replace (j - k) with (S (j - S k)) in Hn by lia.
Qed.

Lemma idxmax_fwd ns i m :
  idxmax ns = Some (i, m) ->
  nth_error ns i = Some m /\ (forall j x, nth_error ns j = Some x -> x <= m) /\
  (forall j x, j < i -> nth_error ns j = Some x -> x < m).
Proof.
  unfold idxmax. destruct (most_common1 _) as [|m' [|]] eqn:E; try discriminate.
  intros [= ->]. apply most_common1_first_max in E as (c1 & c2 & Hc & H1 & H2).
  pose proof (map_fst_enumerate 0 ns) as Hf. rewrite Hc, map_app in Hf. cbn in Hf.
  symmetry in Hf. apply seq_split in Hf as (_ & Hi1 & Hi2).
  assert (Hin : forall j x, nth_error ns j = Some x -> In (j, x) (c1 ++ (i, m) :: c2)).
  { intros j x Hj. rewrite <- Hc. apply in_enumerate. rewrite Nat.sub_0_r. split; [lia|done]. }
  split; [|split].
  - assert (In (i, m) (combine (seq 0 (length ns)) ns)) as Him by (rewrite Hc; apply in_elt).
    apply in_enumerate in Him as [_ Him]. by rewrite Nat.sub_0_r in Him.
  - intros j x Hj. apply Hin, in_app_or in Hj as [Hj|[[= -> ->]|Hj]]; [| lia |].
    + eapply List.Forall_forall in H1; [|exact Hj]. cbn in H1. lia.
    + eapply List.Forall_forall in H2; [|exact Hj]. cbn in H2. lia.
  - intros j x Hji Hj. apply Hin, in_app_or in Hj as [Hj|[[= -> ->]|Hj]]; [| lia |].
    + eapply List.Forall_forall in H1; [|exact Hj]. cbn in H1. lia.
    + apply (in_map fst) in Hj. eapply List.Forall_forall in Hi2; [|exact Hj]. cbn in Hi2. lia.
Qed.

Lemma idxmax_some ns : ns <> [] -> exists i m, idxmax ns = Some (i, m).
Proof.
  intros Hne. unfold idxmax. destruct ns as [|n ns]; [done|]. cbn.
  destruct (max_first _ _) as [i m]. eauto.
Qed.

Lemma friends_loop_wf acc fs hss :
  Forall2 (fun f hs => friend_hobbies f = Some hs) fs hss ->
  friends_loop acc fs = ([], Ret (acc ++ concat hss)).
Proof.
  intros Hf. revert acc. induction Hf as [|f hs fs hss Hf _ IH]; intros acc; cbn.
  - by rewrite app_nil_r.
  - unfold extend_hobbies, friend_hobbies, py_getitem_str in *.
    destruct f as [| | | | |kvs]; try discriminate.
    destruct (dict_get kvs "hobbies") as [[| | | | l|]|]; try discriminate.
    injection Hf as ->. cbn. rewrite IH, app_assoc. reflexivity.
Qed.

Lemma hobbies_loop_wf acc ps hsss :
  Forall2 wf_person ps hsss -> hobbies_loop acc ps = ([], Ret (acc ++ concat (map (fun hss => concat hss) hsss))).
Proof.
  intros Hw. revert acc. induction Hw as [|p hss ps hsss (fs & Hp & Hf) _ IH]; intros acc; cbn.
  - by rewrite app_nil_r.
  - rewrite Hp. cbn. rewrite (friends_loop_wf acc fs hss Hf). cbn. rewrite IH, app_assoc. done.
Qed.

Lemma py_counter_ok xs : forallb py_hashable xs = true -> py_counter xs = pret (counter_of py_eqb xs).
Proof. unfold py_counter. by intros ->. Qed.

Lemma most_common_first_ok (c : counter (K:=json)) : c <> [] -> exists m, most_common_first c = pret m.
Proof. intros Hc. destruct (most_common1_cons c Hc) as [m Hm]. unfold most_common_first. rewrite Hm. eauto. Qed.

Lemma groupby_mean_total {R} (key : R -> option string) val rs :
  Forall (fun r => val r <> None) rs -> Forall (fun kv => snd kv <> None) (groupby_mean key val rs).
Proof.
  intros Hv. unfold groupby_mean. apply Forall_fmap, List.Forall_forall. intros k Hk. cbn.
  apply In_group_keys in Hk as (r & Hr & Hkr).
  assert (Hg : In r (group key rs k)) by (apply List.filter_In; split; [done|]; by apply in_group_true).
  assert (Hgv : Forall (fun r => val r <> None) (group key rs k))
    by (apply List.Forall_forall; intros r' Hr'; apply List.filter_In in Hr' as [Hr' _];
        by eapply List.Forall_forall in Hv).
  destruct (group key rs k) as [|r0 g]; [done|]. inversion Hgv as [|? ? Hr0 _]; subst.
  cbn. destruct (val r0); [done|congruence].
Qed.

Lemma mapM_num_friends_ok ps :
  Forall (fun p => friend_count p <> None) ps ->
  exists ns, mapM num_friends_of ps = pret ns /\ length ns = length ps.
Proof.
  induction 1 as [|p ps Hp _ (ns & IH & Hl)]; [by exists []|].
  destruct (friend_count p) as [n|] eqn:Ep; [|congruence].
  exists (n :: ns). cbn [mapM]. unfold num_friends_of at 1. rewrite Ep, pbind_ret_l, IH, !pbind_ret_l.
  split; [done|cbn; lia].
Qed.

(** Every person's [friends] is a list. *)
Definition friends_listed (ps : list person) : Prop :=
  Forall (fun p => exists fs, p_friends p = Some (JArr fs)) ps.

Lemma wf_persons_listed ps hsss : Forall2 wf_person ps hsss -> friends_listed ps.
Proof. induction 1 as [|p hss ps hsss (fs & Hp & _) _ IH]; constructor; eauto. Qed.

(** When every person has a list of friends, an age and a hashable
    name, every stage before the hobby loop returns, without printing;
    the rest is the hobby loop, its counter and [most_common(1)[0]],
    after which the result is built. *)
Lemma aggregate_prefix ps :
  ps <> [] -> friends_listed ps -> Forall (fun p => p_age p <> None) ps ->
  forallb py_hashable (map p_name ps) = true ->
  exists K, aggregate ps = (let* all_hobbies := hobbies_loop [] ps in
                            let* hobby_counts := py_counter all_hobbies in
                            let* m := most_common_first hobby_counts in K m) /\
            forall m, exists res, K m = ([], Ret res).
Proof.
  intros Hne Hfl Hage Hn.
  destruct (mapM_num_friends_ok ps) as (ns & Ens & Hl).
  { clear -Hfl. induction Hfl as [|p ps (fs & Hp) _ IH]; constructor; [|done].
    unfold friend_count. by rewrite Hp. }
  assert (Hns : ns <> []) by (intros ->; destruct ps; [done|discriminate]).
  destruct (idxmax_some ns Hns) as (i & m & Ei).
  assert (Hc : counter_of py_eqb (map p_name ps) <> []).
  { rewrite (counter_of_nil_iff py_eqb py_eqb_refl py_eqb_sym py_eqb_trans). by destruct ps. }
  destruct (most_common_first_ok _ Hc) as (mn & Emn).
  unfold aggregate. eexists. split.
  - rewrite astype_int_all by (by apply groupby_mean_total). rewrite pbind_ret_l. cbv beta zeta.
    rewrite Ens, pbind_ret_l. cbv beta zeta.
    rewrite astype_int_all by (apply groupby_mean_total, List.Forall_forall; by intros).
    rewrite pbind_ret_l. cbv beta zeta. rewrite Ei.
    rewrite py_counter_ok, pbind_ret_l by done. cbv beta zeta.
    rewrite Emn, (pbind_ret_l mn). reflexivity.
  - intros m'. eexists. reflexivity.
Qed.

(** On well-formed persons every stage before the hobby count returns;
    what remains is [most_common(1)[0]] of the hobby counter. *)
Lemma aggregate_reduce ps hsss :
  ps <> [] -> Forall2 wf_person ps hsss -> Forall (fun p => p_age p <> None) ps ->
  forallb py_hashable (map p_name ps) = true ->
  forallb py_hashable (concat (map (fun hss => concat hss) hsss)) = true ->
  exists K, aggregate ps = pbind (most_common_first (counter_of py_eqb (concat (map (fun hss => concat hss) hsss)))) K /\
            forall m, exists res, K m = ([], Ret res).
Proof.
  intros Hne Hw Hage Hn Hh.
  destruct (aggregate_prefix ps) as (K & -> & HK); [done|by eapply wf_persons_listed|done|done|].
  exists K. split; [|done].
  rewrite (hobbies_loop_wf [] ps hsss Hw), (pbind_ret_l (concat (map (fun hss => concat hss) hsss))).
  rewrite py_counter_ok by done. by rewrite (pbind_ret_l (counter_of py_eqb _)).
Qed.

(** [friend['hobbies']] on a friend without the key raises [KeyError]
    and the loop stops there. *)
Lemma friends_loop_key_error acc fs1 hss1 kvs fs2 :
  Forall2 (fun f hs => friend_hobbies f = Some hs) fs1 hss1 -> dict_get kvs "hobbies" = None ->
  friends_loop acc (fs1 ++ JObj kvs :: fs2) = ([], Raise KeyError).
Proof.
  intros Hf Hk. revert acc. induction Hf as [|f hs fs1 hss1 Hf _ IH]; intros acc; cbn.
  - unfold extend_hobbies, py_getitem_str. by rewrite Hk.
  - unfold extend_hobbies, friend_hobbies, py_getitem_str in *.
    destruct f as [| | | | |kvs']; try discriminate.
    destruct (dict_get kvs' "hobbies") as [[| | | | l|]|]; try discriminate. cbn. by rewrite IH.
Qed.

Lemma hobbies_loop_key_error acc ps1 hsss1 p fs1 hss1 kvs fs2 ps2 :
  Forall2 wf_person ps1 hsss1 -> p_friends p = Some (JArr (fs1 ++ JObj kvs :: fs2)) ->
  Forall2 (fun f hs => friend_hobbies f = Some hs) fs1 hss1 -> dict_get kvs "hobbies" = None ->
  hobbies_loop acc (ps1 ++ p :: ps2) = ([], Raise KeyError).
Proof.
  intros Hw Hp Hf Hk. revert acc. induction Hw as [|p1 hss ps1 hsss (fs & Hp1 & Hf1) _ IH]; intros acc; cbn.
  - rewrite Hp. cbn. by rewrite (friends_loop_key_error acc fs1 hss1 kvs fs2 Hf Hk).
  - rewrite Hp1. cbn. rewrite (friends_loop_wf acc fs hss Hf1). cbn. by rewrite IH.
Qed.

Lemma friends_loop_exits acc fs : exits_after (friends_loop acc fs).
Proof.
  revert acc. induction fs as [|f fs IH]; intros acc; cbn [friends_loop]; [exits_tac|].
  unfold extend_hobbies, py_getitem_str. exits_tac.
Qed.

#[export] Hint Resolve friends_loop_exits : exits.

Lemma hobbies_loop_exits acc ps : exits_after (hobbies_loop acc ps).
Proof.
  revert acc. induction ps as [|p ps IH]; intros acc; cbn [hobbies_loop]; [exits_tac|].
  exits_tac.
Qed.

#[export] Hint Resolve hobbies_loop_exits : exits.

(** The statistics never call [exit]: they return or raise. *)
Lemma aggregate_exits ps : exits_after (aggregate ps).
Proof.
  unfold aggregate, astype_int, num_friends_of, py_counter, most_common_first.
  exits_tac.
Qed.

#[export] Hint Resolve aggregate_exits : exits.

(** [process_json] exits only at the gate, after the message that the
    check failed. *)
Lemma process_json_exits data : exits_after (process_json data).
Proof.
  unfold process_json, person_of_row. exits_tac.
Qed.

#[export] Hint Resolve process_json_exits : exits.

Lemma nth_error_map_Some {A B} (f : A -> B) l i y :
  nth_error (map f l) i = Some y -> exists x, nth_error l i = Some x /\ f x = y.
Proof. rewrite nth_error_map. destruct (nth_error l i); cbn; [intros [= <-]; eauto|done]. Qed.

Lemma friend_count_nth ps ns j n :
  map friend_count ps = map Some ns -> nth_error ns j = Some n ->
  exists q, nth_error ps j = Some q /\ friend_count q = Some n.
Proof.
  intros Hm Hj. assert (nth_error (map friend_count ps) j = Some (Some n)) as H
    by (rewrite Hm, nth_error_map, Hj; done).
  by apply nth_error_map_Some in H.
Qed.

Lemma friend_count_nth_inv ps ns j q n :
  map friend_count ps = map Some ns -> nth_error ps j = Some q -> friend_count q = Some n ->
  nth_error ns j = Some n.
Proof.
  intros Hm Hq Hn. assert (nth_error (map Some ns) j = Some (Some n)) as H
    by (rewrite <- Hm, nth_error_map, Hq; cbn; by rewrite Hn).
  apply nth_error_map_Some in H as (n' & H & [= ->]). done.
Qed.

(** The rows [zip(ps, ns)] of a city are the persons of that city with
    their friend counts. *)
Lemma group_friends ps ns c :
  map friend_count ps = map Some ns ->
  omap_list (fun pn => Some (Z.of_nat (snd pn))) (group (fun pn => p_city (fst pn)) (combine ps ns) c) =
    omap_list (fun p => option_map Z.of_nat (friend_count p)) (group p_city ps c) /\
  (group (fun pn => p_city (fst pn)) (combine ps ns) c = [] <-> group p_city ps c = []).
Proof.
  revert ns. induction ps as [|p ps IH]; intros [|n ns] Hm; cbn in Hm; try discriminate; [done|].
  injection Hm as Hp Hm. destruct (IH ns Hm) as [IH1 IH2]. unfold group in *.
  cbn [combine List.filter]. change (in_group (fun pn => p_city (fst pn)) c (p, n)) with (in_group p_city c p).
  destruct (in_group p_city c p); [|done]. cbn [omap_list]. rewrite IH1, Hp. done.
Qed.

(** ** The values of a returned result *)

Lemma astype_int_keys s o l : astype_int s = (o, Ret l) -> map fst l = map fst s.
Proof.
  unfold astype_int. revert o l. induction s as [|[k [z|]] s IH]; intros o l H; cbn [mapM] in H.
  - by injection H as _ <-.
  - ret_inv H. ret_inv H. cbn in H0. injection H as _ <-. injection H0 as _ <-. cbn. f_equal. eauto.
  - discriminate.
Qed.

Lemma groupby_mean_NoDup {R} (key : R -> option string) val rs : NoDup (map fst (groupby_mean key val rs)).
Proof. unfold groupby_mean. rewrite map_map. cbn. rewrite map_id. apply NoDup_ListNoDup, group_keys_NoDup. Qed.

Lemma nth_hashable i l : forallb py_hashable l = true -> py_hashable (nth i l JNull) = true.
Proof.
  revert i. induction l as [|x l IH]; intros [|i] Hl; cbn in Hl |- *; try reflexivity;
    apply andb_true_iff in Hl as [Hx Hl]; auto.
Qed.

Lemma most_common_hashable xs m :
  forallb py_hashable xs = true -> most_common1 (counter_of py_eqb xs) = [m] -> py_hashable (fst m) = true.
Proof.
  intros Hx Hm%most_common1_In. apply forallb_Forall in Hx.
  pose proof (count_elements_keys py_eqb (fun j => py_hashable j = true) [] xs (ListDef.Forall_nil _) Hx) as Hk.
  eapply List.Forall_forall in Hk; [exact Hk|exact Hm].
Qed.

(** A returned result has distinct cities in both tables, and its
    person, name and hobby are hashable scalars (what [Counter]
    accepted). *)
Lemma aggregate_result_shape ps out res :
  aggregate ps = (out, Ret res) ->
  NoDup (map fst (average_age_per_city res)) /\ NoDup (map fst (average_friends_per_city res)) /\
  py_hashable (person_with_most_friends res) = true /\
  py_hashable (most_common_name_all_cities res) = true /\ py_hashable (most_common_hobby res) = true.
Proof.
  intros (ns & i & hs & o1 & o2 & o3 & Ha & _ & Hf & _ & Hp & Hn & Hnh & _ & Hhh & Hh)%aggregate_ret.
  apply astype_int_keys in Ha, Hf. rewrite Ha, Hf, Hp.
  split; [apply groupby_mean_NoDup|]. split; [apply groupby_mean_NoDup|].
  split; [by apply nth_hashable|].
  split; [exact (most_common_hashable _ _ Hnh Hn)|exact (most_common_hashable _ _ Hhh Hh)].
Qed.

(** A returned [process_json] is [aggregate] of the rows. *)
Lemma process_json_ret data out res :
  process_json data = (out, Ret res) -> exists ps o, aggregate ps = (o, Ret res).
Proof.
  unfold process_json. intros H. ret_inv H. ret_inv H.
  destruct (negb a0); [discriminate|]. ret_inv H.
  destruct (name_column_float (map p_name a1)); [discriminate|]. eauto.
Qed.

(** ** Theorems *)

(** C1: [average_age_per_city[c]] is the rounded mean of the ages present
    among the persons of city [c], and there is an entry exactly for the
    cities some person lives in. *)
Theorem aggregate_average_age ps out res c :
  aggregate ps = (out, Ret res) ->
  assoc_get c (average_age_per_city res) =
  match group p_city ps c with [] => None | g => mean_round (omap_list p_age g) end.
Proof.
  intros H. apply aggregate_ret in H as (ns & i & hs & o1 & o2 & o3 & Ha & _).
  apply astype_int_ret in Ha as [_ ->]. rewrite assoc_get_groupby_mean.
  destruct (group p_city ps c); [done|]. by destruct (mean_round _).
Qed.

(** C2: [average_friends_per_city[c]] is the rounded mean of the friend
    counts of the persons of city [c], and there is an entry exactly for
    the cities some person lives in. *)
Theorem aggregate_average_friends ps out res c :
  aggregate ps = (out, Ret res) ->
  assoc_get c (average_friends_per_city res) =
  match group p_city ps c with
  | [] => None
  | g => mean_round (omap_list (fun p => option_map Z.of_nat (friend_count p)) g)
  end.
Proof.
  intros H. apply aggregate_ret in H as (ns & i & hs & o1 & o2 & o3 & _ & Hm & Hf & _).
  apply astype_int_ret in Hf as [_ ->]. rewrite assoc_get_groupby_mean.
  destruct (group_friends ps ns c Hm) as [E1 E2].
  destruct (group p_city ps c) as [|p g] eqn:G.
  - by rewrite (proj2 E2 eq_refl).
  - destruct (group _ (combine ps ns) c) as [|x g'];
      [discriminate (proj1 E2 eq_refl)|]. rewrite E1. by destruct (mean_round _).
Qed.

(** C3: [person_with_most_friends] is the name of the first person whose
    friend count is the largest, and [most_friends_count] that count. *)
Theorem aggregate_most_friends ps out res :
  aggregate ps = (out, Ret res) ->
  exists i p, nth_error ps i = Some p /\ person_with_most_friends res = p_name p /\
    friend_count p = Some (most_friends_count res) /\
    forall j q n, nth_error ps j = Some q -> friend_count q = Some n ->
      n <= most_friends_count res /\ (j < i -> n < most_friends_count res).
Proof.
  intros H. apply aggregate_ret in H as (ns & i & hs & o1 & o2 & o3 & _ & Hm & _ & Hi & Hp & _).
  apply idxmax_fwd in Hi as (Hi & Hle & Hlt).
  destruct (friend_count_nth ps ns i _ Hm Hi) as (p & Hpi & Hpc).
  exists i, p. split; [done|]. split.
  - rewrite Hp. apply nth_error_nth. by rewrite nth_error_map, Hpi.
  - split; [done|]. intros j q n Hq Hn. pose proof (friend_count_nth_inv ps ns j q n Hm Hq Hn).
    split; [by eapply Hle|]. intros Hj. by eapply Hlt.
Qed.

(** C4: The most common name is counted exactly; no name is more frequent,
    and every name first seen before it is strictly less frequent. *)
Theorem aggregate_most_common_name ps out res :
  aggregate ps = (out, Ret res) ->
  let names := map p_name ps in
  let k := most_common_name_all_cities res in
  let n := most_common_name_count res in
  n = count_in py_eqb k names /\
  exists d1 d2, dedup_first py_eqb names = d1 ++ k :: d2 /\
    Forall (fun y => count_in py_eqb y names < n) d1 /\
    Forall (fun y => count_in py_eqb y names <= n) d2.
Proof.
  intros H. apply aggregate_ret in H as (ns & i & hs & o1 & o2 & o3 & _ & _ & _ & _ & _ & Hn & _).
  apply (most_common_counter_fwd py_eqb py_eqb_refl py_eqb_sym py_eqb_trans) in Hn. exact Hn.
Qed.

(** C5: The most common hobby is the most frequent element of the
    flattened hobby list, ties going to the first one seen. *)
Theorem aggregate_most_common_hobby ps out res :
  aggregate ps = (out, Ret res) ->
  exists o hs, hobbies_loop [] ps = (o, Ret hs) /\
  let k := most_common_hobby res in
  let n := most_common_hobby_count res in
  n = count_in py_eqb k hs /\
  exists d1 d2, dedup_first py_eqb hs = d1 ++ k :: d2 /\
    Forall (fun y => count_in py_eqb y hs < n) d1 /\ Forall (fun y => count_in py_eqb y hs <= n) d2.
Proof.
  intros H. apply aggregate_ret in H as (ns & i & hs & o1 & o2 & o3 & _ & _ & _ & _ & _ & _ & _ & Hl & _ & Hh).
  exists o3, hs. split; [done|].
  apply (most_common_counter_fwd py_eqb py_eqb_refl py_eqb_sym py_eqb_trans) in Hh. exact Hh.
Qed.

(** C26: The double loop of lines 101-104 flattens the hobby lists of all
    friends of all persons, in order. *)
Theorem hobbies_loop_flatten ps hsss :
  Forall2 wf_person ps hsss -> hobbies_loop [] ps = pret (concat (map (fun hss => concat hss) hsss)).
Proof. intros Hw. exact (hobbies_loop_wf [] ps hsss Hw). Qed.

(** C23: On well-formed persons with at least one hobby in all, the
    aggregation returns a result and prints nothing. *)
Theorem aggregate_returns ps hsss :
  ps <> [] -> Forall2 wf_person ps hsss -> Forall (fun p => p_age p <> None) ps ->
  forallb py_hashable (map p_name ps) = true ->
  forallb py_hashable (concat (map (fun hss => concat hss) hsss)) = true ->
  concat (map (fun hss => concat hss) hsss) <> [] ->
  exists res, aggregate ps = ([], Ret res).
Proof.
  intros Hne Hw Hage Hn Hh Hhs. destruct (aggregate_reduce ps hsss) as (K & -> & HK); try done.
  assert (Hc : counter_of py_eqb (concat (map (fun hss => concat hss) hsss)) <> [])
    by (by rewrite (counter_of_nil_iff py_eqb py_eqb_refl py_eqb_sym py_eqb_trans)).
  destruct (most_common_first_ok _ Hc) as (m & ->). rewrite pbind_ret_l. apply HK.
Qed.

(** C24: When no friend of anybody has a hobby, [most_common(1)[0]] raises
    [IndexError]: the run fails, it does not make up a hobby. *)
Theorem aggregate_no_hobbies ps hsss :
  ps <> [] -> Forall2 wf_person ps hsss -> Forall (fun p => p_age p <> None) ps ->
  forallb py_hashable (map p_name ps) = true ->
  concat (map (fun hss => concat hss) hsss) = [] ->
  aggregate ps = ([], Raise IndexError).
Proof.
  intros Hne Hw Hage Hn Hhs.
  destruct (aggregate_reduce ps hsss) as (K & -> & _); try done; [|by rewrite Hhs].
  rewrite Hhs. reflexivity.
Qed.

(** C25: A friend without a ['hobbies'] key gets past the validator,
    which checks only the top-level columns: the stages before the
    hobby loop return, and [friend['hobbies']] at line 104 raises an
    uncaught [KeyError] (exit status 1) at the first such friend,
    instead of a schema error naming the field. *)
Theorem aggregate_friend_without_hobbies ps1 hsss1 p fs1 hss1 kvs fs2 ps2 :
  Forall2 wf_person ps1 hsss1 -> p_friends p = Some (JArr (fs1 ++ JObj kvs :: fs2)) ->
  Forall2 (fun f hs => friend_hobbies f = Some hs) fs1 hss1 -> dict_get kvs "hobbies" = None ->
  friends_listed ps2 -> Forall (fun p => p_age p <> None) (ps1 ++ p :: ps2) ->
  forallb py_hashable (map p_name (ps1 ++ p :: ps2)) = true ->
  aggregate (ps1 ++ p :: ps2) = ([], Raise KeyError).
Proof.
  intros Hw Hp Hf Hk Hl2 Hage Hn.
  destruct (aggregate_prefix (ps1 ++ p :: ps2)) as (K & -> & _); [by destruct ps1| |done|done|].
  - apply Forall_app. split; [by eapply wf_persons_listed|constructor; [eauto|done]].
  - by rewrite (hobbies_loop_key_error [] ps1 hsss1 p fs1 hss1 kvs fs2 ps2).
Qed.

(** C9: The validator is a hard gate: when it refuses the frame, the run
    prints the refusal and exits with [exit(-1)] before any statistic
    is computed. *)
Theorem process_json_gate data o1 df o2 :
  json_normalize data = (o1, Ret df) -> check_dataframe df = (o2, Ret false) ->
  process_json data = (o1 ++ o2 ++ [MsgCheckFailed], Exit (-1)%Z).
Proof.
  intros Hn Hc. unfold process_json. rewrite Hn. cbn. rewrite Hc. reflexivity.
Qed.

(** C30: The city groups hold exactly the persons that have a city:
    their sizes add up to the number of such persons, and so to fewer
    than the persons as soon as one of them has no city. *)
Theorem missing_city_partition (ps : list person) :
  list_sum (map (fun k => length (group p_city ps k)) (group_keys p_city ps)) =
    length (List.filter (has_key p_city) ps) /\
  (Exists (fun p => p_city p = None) ps ->
   list_sum (map (fun k => length (group p_city ps k)) (group_keys p_city ps)) < length ps).
Proof.
  rewrite sum_group_sizes; [|apply group_keys_NoDup|intros r k Hr Hk; apply In_group_keys; eauto].
  split; [reflexivity|]. intros Hn. apply filter_length_lt.
  eapply Exists_impl; [exact Hn|]. intros p Hp. unfold has_key. by rewrite Hp.
Qed.


(** ** Sample data: the fixture of the specification, section 8 *)

Definition sample_friends (hobbies : list (list string)) : json :=
  JArr (map (fun hs => JObj [("hobbies"%string, JArr (map JStr hs))]) hobbies).

Definition sample_record (id : Z) (name city : string) (age : Z) (hobbies : list (list string)) : json :=
  JObj [("id", JInt id); ("name", JStr name); ("city", JStr city); ("age", JInt age);
        ("friends", sample_friends hobbies)]%string.

Definition sample_person (name city : string) (age : Z) (hobbies : list (list string)) : person :=
  {| p_name := JStr name; p_city := Some city; p_age := Some age; p_friends := Some (sample_friends hobbies) |}.

Definition sample_records : list json :=
  [sample_record 1 "A" "X" 10 [["chess"]]; sample_record 2 "B" "X" 20 [];
   sample_record 3 "C" "Y" 30 [["chess"; "golf"]]]%string.

Definition sample_persons : list person :=
  [sample_person "A" "X" 10 [["chess"]]; sample_person "B" "X" 20 [];
   sample_person "C" "Y" 30 [["chess"; "golf"]]]%string.

Definition sample_result : result := {|
  average_age_per_city := [("X", 15); ("Y", 30)]%string%Z;
  average_friends_per_city := [("X", 0); ("Y", 1)]%string%Z;
  person_with_most_friends := JStr "A";
  most_friends_count := 1;
  most_common_name_count := 1;
  most_common_name_all_cities := JStr "A";
  most_common_hobby := JStr "chess";
  most_common_hobby_count := 2 |}.

(** ** Witnesses and examples *)

(** The scenario of the specification: ages 10 and 20 in X average to
    15; X's friend counts 1 and 0 average to 0.5, which rounds half to
    even to 0; "chess" is the most common hobby with 2. *)
Example spec_scenario : process_json (Some sample_records) = ([MsgAllColumns], Ret sample_result).
Proof. vm_compute. reflexivity. Qed.

Lemma aggregate_average_age_witness : assoc_get "X" (average_age_per_city sample_result) = Some 15%Z.
Proof. rewrite (aggregate_average_age sample_persons [] sample_result "X"); [reflexivity|]. vm_compute. reflexivity. Defined.

(** Friend counts 1 and 0 in X: the mean 0.5 rounds half to even, to 0. *)
Lemma aggregate_average_friends_witness : assoc_get "X" (average_friends_per_city sample_result) = Some 0%Z.
Proof.
  rewrite (aggregate_average_friends sample_persons [] sample_result "X"); [reflexivity|].
  vm_compute. reflexivity.
Defined.

Lemma aggregate_most_friends_witness :
  exists i p, nth_error sample_persons i = Some p /\ person_with_most_friends sample_result = p_name p /\
    friend_count p = Some (most_friends_count sample_result) /\
    forall j q n, nth_error sample_persons j = Some q -> friend_count q = Some n ->
      n <= most_friends_count sample_result /\ (j < i -> n < most_friends_count sample_result).
Proof. apply (aggregate_most_friends sample_persons []). vm_compute. reflexivity. Defined.

Lemma aggregate_most_common_name_witness :
  most_common_name_count sample_result =
    count_in py_eqb (most_common_name_all_cities sample_result) (map p_name sample_persons) /\
  exists d1 d2, dedup_first py_eqb (map p_name sample_persons) =
                  d1 ++ most_common_name_all_cities sample_result :: d2 /\
    Forall (fun y => count_in py_eqb y (map p_name sample_persons) < most_common_name_count sample_result) d1 /\
    Forall (fun y => count_in py_eqb y (map p_name sample_persons) <= most_common_name_count sample_result) d2.
Proof. apply (aggregate_most_common_name sample_persons []). vm_compute. reflexivity. Defined.

Lemma aggregate_most_common_hobby_witness :
  exists o hs, hobbies_loop [] sample_persons = (o, Ret hs) /\
  most_common_hobby_count sample_result = count_in py_eqb (most_common_hobby sample_result) hs /\
  exists d1 d2, dedup_first py_eqb hs = d1 ++ most_common_hobby sample_result :: d2 /\
    Forall (fun y => count_in py_eqb y hs < most_common_hobby_count sample_result) d1 /\
    Forall (fun y => count_in py_eqb y hs <= most_common_hobby_count sample_result) d2.
Proof. apply (aggregate_most_common_hobby sample_persons []). vm_compute. reflexivity. Defined.

Lemma hobbies_loop_flatten_witness :
  hobbies_loop [] sample_persons = pret [JStr "chess"; JStr "chess"; JStr "golf"]%string.
Proof.
  apply (hobbies_loop_flatten sample_persons [[[JStr "chess"]]; []; [[JStr "chess"; JStr "golf"]]]%string).
  repeat constructor; eexists; (split; [reflexivity|repeat constructor]).
Defined.

Lemma aggregate_returns_witness : exists res, aggregate sample_persons = ([], Ret res).
Proof.
  apply (aggregate_returns sample_persons [[[JStr "chess"]]; []; [[JStr "chess"; JStr "golf"]]]%string);
    [discriminate| |repeat constructor; discriminate|reflexivity|reflexivity|discriminate].
  repeat constructor; eexists; (split; [reflexivity|repeat constructor]).
Defined.

(** Two persons without any friend. *)
Definition lonely_persons : list person :=
  [sample_person "A" "X" 10 []; sample_person "B" "Y" 20 []]%string.

Lemma aggregate_no_hobbies_witness : aggregate lonely_persons = ([], Raise IndexError).
Proof.
  apply (aggregate_no_hobbies lonely_persons [[]; []]);
    [discriminate| |repeat constructor; discriminate|reflexivity|reflexivity].
  repeat constructor; eexists; (split; [reflexivity|constructor]).
Defined.

(** B's second friend has a name but no hobbies. *)
Definition hobbyless_friend_person : person :=
  {| p_name := JStr "B"; p_city := Some "Y"%string; p_age := Some 20%Z;
     p_friends := Some (JArr [JObj [("hobbies", JArr [JStr "go"])]; JObj [("name", JStr "C")]])%string |}.

Lemma aggregate_friend_without_hobbies_witness :
  aggregate ([sample_person "A" "X" 10 [["chess"]]] ++ [hobbyless_friend_person]) = ([], Raise KeyError).
Proof.
  apply (aggregate_friend_without_hobbies [sample_person "A" "X" 10 [["chess"]]] [[[JStr "chess"]]]
           hobbyless_friend_person [JObj [("hobbies", JArr [JStr "go"])]%string] [[JStr "go"]]
           [("name", JStr "C")]%string [] []);
    [|reflexivity|repeat constructor|reflexivity|constructor|repeat constructor; discriminate|reflexivity].
  repeat constructor. eexists. split; [reflexivity|repeat constructor].
Defined.

(** The same records as a feed: the validator accepts them, and the run
    raises [KeyError]. *)
Example friend_without_hobbies_run :
  process_json (Some [sample_record 1 "A" "X" 10 [["chess"]];
                      JObj [("id", JInt 2); ("name", JStr "B"); ("city", JStr "Y"); ("age", JInt 20);
                            ("friends", JArr [JObj [("hobbies", JArr [JStr "go"])];
                                              JObj [("name", JStr "C")]])]%string]) =
    ([MsgAllColumns], Raise KeyError).
Proof. vm_compute. reflexivity. Qed.

(** An empty feed: the frame is empty and the validator refuses it. *)
Lemma process_json_gate_witness :
  process_json (Some []) = ([] ++ [MsgEmpty] ++ [MsgCheckFailed], Exit (-1)%Z).
Proof. apply (process_json_gate (Some []) [] {| columns := []; rows := [] |}); reflexivity. Defined.


(** Two records of city X; the second has no [age] key.  The frame has
    an [age] column, so the validator accepts it, and the missing age is
    silently left out of the mean instead of being reported. *)
Definition missing_age_records : list json :=
  [sample_record 1 "A" "X" 10 [["chess"]];
   JObj [("id", JInt 2); ("name", JStr "B"); ("city", JStr "X"); ("friends", sample_friends [])]]%string.

(** A record without [age] passes the validator, and the per-city mean
    of X is silently taken over the other record alone. *)
Example missing_age_skipped :
  option_map average_age_per_city (result_of (process_json (Some missing_age_records))) =
  Some [("X"%string, 10%Z)].
Proof. vm_compute. reflexivity. Qed.

(** A person without a city belongs to no group: the group sizes add
    up to 1 for 2 persons. *)
Definition missing_city_persons : list person :=
  [sample_person "A" "X" 10 [];
   {| p_name := JStr "B"; p_city := None; p_age := Some 20%Z; p_friends := Some (JArr []) |}]%string.

Lemma missing_city_partition_witness :
  list_sum (map (fun k => length (group p_city missing_city_persons k)) (group_keys p_city missing_city_persons)) <
  length missing_city_persons.
Proof. apply (missing_city_partition missing_city_persons). right. left. reflexivity. Defined.

(** Names A, B, B, A: both occur twice; [Counter] keeps A, inserted
    first, although B is the first name to reach the count 2. *)
Definition tie_persons : list person :=
  [sample_person "A" "X" 10 [["chess"]]; sample_person "B" "X" 20 [];
   sample_person "B" "Y" 30 []; sample_person "A" "Y" 40 []]%string.

(** On a tie the most common name is the one inserted first into the
    counter, not the first to reach the maximal count. *)
Example name_tie_first_inserted :
  option_map (fun r => (most_common_name_all_cities r, most_common_name_count r))
    (result_of (aggregate tie_persons)) = Some (JStr "A"%string, 2).
Proof. vm_compute. reflexivity. Qed.

(** A friend whose [hobbies] is the string ["ab"] contributes the hobbies
    ["a"] and ["b"] ([extend] iterates a string), and the hobbies [True]
    and [1] are one [Counter] key, counted twice under the first
    spelling. *)
Example hobbies_coercions :
  hobbies_loop []
    [{| p_name := JStr "A"; p_city := Some "X"%string; p_age := Some 1%Z;
        p_friends := Some (JArr [JObj [("hobbies"%string, JStr "ab")]]) |}] =
    ([], Ret [JStr "a"; JStr "b"]) /\
  most_common1 (counter_of py_eqb [JBool true; JInt 1]) = [(JBool true, 2)].
Proof. split; reflexivity. Qed.
