(* ===== verification/Report.v ===== *)
(** * [print_results]: the printed report ([src/task.py] lines 145-163)

    [print_results(df)] prints the fields of the one-row result frame
    with f-strings: a heading and one line [city: value] per entry of
    each per-city table (in the order of the dict, i.e. the sorted
    cities of [groupby]), blank lines between the parts, the person
    with the most friends with the count, the most common name with its
    count, and the most common hobby with its count.

    An f-string replacement field [{x}] writes [format(x, '')], which
    is [str(x)]: a Python string as itself, an integer by [int.__str__]
    ([str_Z]), [None], [True] and [False] by name, and a list or dict by
    its [repr], whose strings are written by [unicode_repr]
    ([str_repr]): single quotes unless the string holds a single quote
    and no double quote, the backslash and the chosen quote escaped,
    [\t \n \r] by their escapes, and the characters that are not
    printable ([0x00-0x1f], [0x7f], and [0x80-0xa0] and [0xad] among
    Latin-1) as [\xhh].

    The printed text is [stdout_text] of the lines: each line followed
    by a line feed.  The theorems give the report as a list of lines
    ([report_lines]) and show that the text does not determine the
    result: for every result, a city name holding a colon, a value and
    a line feed prints the same text as two cities ([forge_result]). *)

From S2P Require Import Prelude Decimal Json JsonEncode Aggregate.
From Stdlib Require Import Ascii.

Local Open Scope string_scope.

(** ** [repr] and [str] of the values of the result *)

Fixpoint has_char (c : ascii) (s : string) : bool :=
  match s with
  | EmptyString => false
  | String c' s' => Ascii.eqb c c' || has_char c s'
  end.

(** The quote [unicode_repr] chooses. *)
Definition repr_quote (s : string) : ascii :=
  if has_char "'" s && negb (has_char quote s) then quote else "'".

(** ['\xhh'] with lower-case digits. *)
Definition hex_escape (c : ascii) : string :=
  let n := N_of_ascii c in
  String backslash (String "x" (String (hex_digit (n / 16)) (String (hex_digit (n mod 16)) EmptyString))).

(** [Py_UNICODE_ISPRINTABLE] on the Latin-1 characters above [0x7e]:
    the C1 controls [0x80-0x9f], the no-break space [0xa0] and the soft
    hyphen [0xad] are not printable. *)
Definition latin1_printable (n : N) : bool :=
  negb ((128 <=? n) && (n <=? 160))%N && negb (n =? 173)%N.

(** One character of [unicode_repr] with quote [q]. *)
Definition repr_char (q c : ascii) : string :=
  let n := N_of_ascii c in
  if Ascii.eqb c q || Ascii.eqb c backslash then String backslash (String c EmptyString)
  else if (n =? 9)%N then "\t"
  else if (n =? 10)%N then "\n"
  else if (n =? 13)%N then "\r"
  else if ((n <? 32) || (n =? 127))%N then hex_escape c
  else if (n <? 127)%N then String c EmptyString
  else if latin1_printable n then String c EmptyString
  else hex_escape c.

(** [repr(s)] of a string. *)
Definition str_repr (s : string) : string :=
  let q := repr_quote s in
  String q (escape_with (repr_char q) s ++ String q EmptyString).

(** [repr(v)]: [list_repr] writes the items separated by [", "],
    [dict_repr] the items as [key: value]. *)
Fixpoint py_repr (v : json) : string :=
  match v with
  | JNull => "None"
  | JBool b => if b then "True" else "False"
  | JInt z => str_Z z
  | JStr s => str_repr s
  | JArr l => "[" ++ String.concat ", " (map py_repr l) ++ "]"
  | JObj kvs =>
      "{" ++ String.concat ", " (map (fun kv => str_repr (fst kv) ++ ": " ++ py_repr (snd kv)) kvs) ++ "}"
  end.

(** [str(v)], which an f-string field writes: a string as itself. *)
Definition py_str (v : json) : string :=
  match v with
  | JStr s => s
  | _ => py_repr v
  end.

(** ** The report *)

Definition line (s : string) : PyM unit := print (MsgText s).

(** [for city, value in table.items(): print(f"{city}: {value}")] *)
Definition print_table (t : list (string * Z)) : PyM unit :=
  py_for t (fun cv => line (fst cv ++ ": " ++ str_Z (snd cv))).

(** [print_results(df)], [df] being the one-row result frame. *)
Definition print_results (df : result) : PyM unit :=
  do line "The average age per city:";
  do print_table (average_age_per_city df);
  do line EmptyString;
  do line "Average number of friends per city:";
  do print_table (average_friends_per_city df);
  do line EmptyString;
  do line ("Person with the most friends: " ++ py_str (person_with_most_friends df) ++
           " (with " ++ str_Z (Z.of_nat (most_friends_count df)) ++ " friends)");
  do line EmptyString;
  do line "Most common name for all cities:";
  do line (py_str (most_common_name_all_cities df) ++ " (" ++
           str_Z (Z.of_nat (most_common_name_count df)) ++ ")");
  do line EmptyString;
  line ("Most common hobby among all friends of all people:  " ++ py_str (most_common_hobby df) ++
        " (" ++ str_Z (Z.of_nat (most_common_hobby_count df)) ++ ")").

(** What the terminal shows: each printed line followed by a line
    feed. *)
Definition stdout_text (out : list msg) : string :=
  String.concat EmptyString
    (map (fun m => match m with MsgText s => s ++ String newline EmptyString | _ => EmptyString end) out).

(** The report as a list of lines, read off the source. *)
Definition table_lines (t : list (string * Z)) : list string :=
  map (fun cv => fst cv ++ ": " ++ str_Z (snd cv)) t.

Definition report_lines (df : result) : list string :=
  ["The average age per city:"] ++ table_lines (average_age_per_city df) ++
  [EmptyString; "Average number of friends per city:"] ++ table_lines (average_friends_per_city df) ++
  [EmptyString;
   "Person with the most friends: " ++ py_str (person_with_most_friends df) ++
     " (with " ++ str_Z (Z.of_nat (most_friends_count df)) ++ " friends)";
   EmptyString; "Most common name for all cities:";
   py_str (most_common_name_all_cities df) ++ " (" ++
     str_Z (Z.of_nat (most_common_name_count df)) ++ ")";
   EmptyString;
   "Most common hobby among all friends of all people:  " ++ py_str (most_common_hobby df) ++
     " (" ++ str_Z (Z.of_nat (most_common_hobby_count df)) ++ ")"].

(** Two consecutive entries [c1: v1] and [c2: v2] of a table written
    as the single entry of the city [c1 ++ ": " ++ v1 ++ "\n" ++ c2]
    with value [v2]. *)
Definition forge_table (t : list (string * Z)) : list (string * Z) :=
  match t with
  | (c1, v1) :: (c2, v2) :: t' => ((c1 ++ ": " ++ str_Z v1 ++ String newline c2)%string, v2) :: t'
  | _ => t
  end.

(** A result with both city tables forged, the rest unchanged. *)
Definition forge_result (res : result) : result :=
  {| average_age_per_city := forge_table (average_age_per_city res);
     average_friends_per_city := forge_table (average_friends_per_city res);
     person_with_most_friends := person_with_most_friends res;
     most_friends_count := most_friends_count res;
     most_common_name_count := most_common_name_count res;
     most_common_name_all_cities := most_common_name_all_cities res;
     most_common_hobby := most_common_hobby res;
     most_common_hobby_count := most_common_hobby_count res |}.

(** ** Lemmas *)

Definition nl_text (ls : list string) : string :=
  String.concat EmptyString (map (fun s => s ++ String newline EmptyString) ls).

Lemma concat_empty_cons x l : String.concat EmptyString (x :: l) = (x ++ String.concat EmptyString l)%string.
Proof. destruct l; cbn; [by rewrite str_app_nil_r|reflexivity]. Qed.

Lemma nl_text_app l1 l2 : nl_text (l1 ++ l2) = (nl_text l1 ++ nl_text l2)%string.
Proof.
  unfold nl_text. induction l1 as [|x l1 IH]; [reflexivity|].
  rewrite <- app_comm_cons, !map_cons, !concat_empty_cons, IH. by rewrite !str_app_assoc.
Qed.

Lemma stdout_text_lines ls : stdout_text (map MsgText ls) = nl_text ls.
Proof. unfold stdout_text, nl_text. by rewrite map_map. Qed.

(** A forged table prints as the table it was made from. *)
Lemma forge_table_text t : nl_text (table_lines (forge_table t)) = nl_text (table_lines t).
Proof.
  destruct t as [|[c1 v1] [|[c2 v2] t]]; [reflexivity|reflexivity|].
  unfold nl_text. cbn [forge_table table_lines map fst snd]. rewrite !concat_empty_cons.
  rewrite <- !str_app_assoc. autorewrite with strsimp. reflexivity.
Qed.

Lemma py_for_lines {A} (f : A -> string) l :
  py_for l (fun x => line (f x)) = (map (fun x => MsgText (f x)) l, Ret tt).
Proof. induction l as [|x l IH]; [reflexivity|]. cbn [py_for]. rewrite IH. reflexivity. Qed.

Lemma print_table_lines t : print_table t = (map MsgText (table_lines t), Ret tt).
Proof. unfold print_table, table_lines. rewrite py_for_lines, map_map. reflexivity. Qed.

Lemma print_results_exits df : exits_after (print_results df).
Proof. unfold print_results, print_table, line. exits_tac. Qed.

#[export] Hint Resolve print_results_exits : exits.

(** ** Theorems *)

(** [print_results] always returns, after printing exactly the lines
    of [report_lines]: the two headings, one [city: value] line per
    entry of each table in the order of the tables, and the three
    summary lines, with the blank separators. *)
Theorem print_results_lines df : print_results df = (map MsgText (report_lines df), Ret tt).
Proof.
  unfold print_results. rewrite !print_table_lines. unfold report_lines.
  rewrite !map_app. cbn [pbind line print map app]. rewrite ?app_nil_r. reflexivity.
Qed.

(** ** The report does not determine the result *)

Definition rec_of (name : string) (city : json) (age : Z) (hobbies : list (list string)) : json :=
  JObj [("id", JInt 0); ("name", JStr name); ("city", city); ("age", JInt age);
        ("friends", sample_friends hobbies)].

(** Two people in [X] and [Y]. *)
Definition two_cities_records : list json :=
  [rec_of "N" (JStr "X") 1 [["h"]]; rec_of "N" (JStr "Y") 2 [["h"]; []]].

(** One person in a city whose name holds a colon and a line feed, and
    one without a city. *)
Definition forged_city_records : list json :=
  [rec_of "N" (JStr ("X: 1" ++ String newline "Y")) 2 [["h"]; ["h"]]; rec_of "N" JNull 5 []].

(** C32: The printed report does not determine the result: for every
    result, merging the first two entries of each city table into one
    city whose name holds [": "], the first value and a line break
    gives a result that prints the same text, and a different result
    as soon as the age table has two entries, because [print_results]
    writes a city name as it is. *)
Theorem report_text_ambiguous res :
  stdout_text (fst (print_results (forge_result res))) = stdout_text (fst (print_results res)) /\
  (2 <= length (average_age_per_city res) -> forge_result res <> res).
Proof.
  split.
  - rewrite !print_results_lines. cbn [fst]. rewrite !stdout_text_lines. unfold report_lines.
    rewrite !nl_text_app. cbn [forge_result average_age_per_city average_friends_per_city
      person_with_most_friends most_friends_count most_common_name_count most_common_name_all_cities
      most_common_hobby most_common_hobby_count].
    by rewrite !forge_table_text.
  - intros Hl He. apply (f_equal (fun r => length (average_age_per_city r))) in He. cbn in He.
    destruct (average_age_per_city res) as [|[c1 v1] [|[c2 v2] t]]; cbn in *; lia.
Qed.

(** ** Witnesses *)

(** Both record sets are read; the second gives the forged result of
    the first, and the two reports are the same text. *)
Lemma report_text_ambiguous_witness :
  exists o1 o2 res1,
    process_json (Some two_cities_records) = (o1, Ret res1) /\
    process_json (Some forged_city_records) = (o2, Ret (forge_result res1)) /\
    stdout_text (fst (print_results (forge_result res1))) = stdout_text (fst (print_results res1)) /\
    forge_result res1 <> res1.
Proof.
  do 3 eexists. split; [vm_compute; reflexivity|]. split; [vm_compute; reflexivity|].
  destruct (report_text_ambiguous
              {| average_age_per_city := [("X", 1%Z); ("Y", 2%Z)]%string;
                 average_friends_per_city := [("X", 1%Z); ("Y", 2%Z)]%string;
                 person_with_most_friends := JStr "N"; most_friends_count := 2;
                 most_common_name_count := 2; most_common_name_all_cities := JStr "N";
                 most_common_hobby := JStr "h"; most_common_hobby_count := 2 |}) as [Ht Hd].
  split; [exact Ht|]. apply Hd. cbn. lia.
Defined.
