(* ===== verification/Persistence.v ===== *)
(** * Persistence: [save_json], [load_json] and [save_dataframe_to_json]

    The file system is a finite map from paths to bytes ([files], a
    stdpp [gmap]).  A file opened in text mode is written as UTF-8
    ([utf8_encode]) and read back as UTF-8 with universal newlines
    ([read_text]: [\r\n] and a lone [\r] become [\n]); opening a missing
    file for reading raises [FileNotFoundError].

    - [save_json(json_data, json_file)] (lines 50-57) writes
      [json.dump(json_data, file, indent=4)], the text [dump_indent4] of
      the Python encoder, then prints [Data saved to <file>].
    - [load_json(json_file)] (lines 60-67) is [json.load], i.e.
      [json.loads(file.read())] on the text: a [JSONDecodeError]
      escapes as [DecodeError].
    - [save_dataframe_to_json(df, output_file)] (lines 166-171) calls
      [results_df.to_json(output_file, orient='records', indent=4)] on
      the module global [results_df], not on its parameter, and prints
      [Results saved to <file>].  The global is an [option result]:
      unbound ([NameError]) unless the script has assigned it.

    pandas' [to_json] writes with its vendored ujson encoder
    ([objToJSON.c], [ultrajsonenc.c]) in its own [layout]
    ([ujson_layout]): no space after the colon or the comma, a line
    feed and [indent] spaces per level, an empty container as a line
    feed, another, and the closing indentation, the forward slash
    escaped as [\/], control characters and non-ASCII characters as
    [\u00xx].  A record of the result frame ([result_record]) holds
    the eight columns in the order of the [DataFrame] constructor.  An
    integer outside [int64] is outside the model ([OutOfModel]).

    The theorems: [load_json] reads back what [save_json] wrote (for
    every value Python can hold); both layouts obey the laws of
    [LayoutOk]; reloading the file [save_dataframe_to_json] writes gives
    the records of the global result, which is the round trip of the
    specification (section 8); and the function writes the global
    whatever frame it is given. *)

From S2P Require Import Prelude Decimal Json JsonEncode Source JsonDecode JsonRoundtrip Loads Aggregate.
From stdpp Require Import gmap.
From Stdlib Require Import Ascii.

Local Open Scope string_scope.

(** ** Files *)

Abbreviation files := (gmap string (list Byte.byte)).

Definition byte_of_code (n : N) : Byte.byte := byte_of_ascii (ascii_of_N n).

(** One character of a text-mode write, encoded as UTF-8. *)
Definition utf8_encode_char (c : ascii) : list Byte.byte :=
  let n := N_of_ascii c in
  if (n <? 128)%N then [byte_of_code n]
  else [byte_of_code (192 + n / 64); byte_of_code (128 + n mod 64)].

Fixpoint utf8_encode (s : string) : list Byte.byte :=
  match s with
  | EmptyString => []
  | String c s' => utf8_encode_char c ++ utf8_encode s'
  end.

Definition carriage_return : ascii := "013".

(** Universal newlines of a text-mode read. *)
Fixpoint universal_newlines (s : string) : string :=
  match s with
  | EmptyString => EmptyString
  | String c s' =>
      if Ascii.eqb c carriage_return then
        match s' with
        | String d s'' =>
            if Ascii.eqb d newline then String newline (universal_newlines s'')
            else String newline (universal_newlines s')
        | EmptyString => String newline EmptyString
        end
      else String c (universal_newlines s')
  end.

(** [with open(path, 'w') as file: file.write(text)] *)
Definition write_text (fs : files) (path text : string) : files := <[path := utf8_encode text]> fs.

(** [with open(path, 'r') as file: file.read()] *)
Definition read_text (fs : files) (path : string) : PyM string :=
  match fs !! path with
  | None => raise FileNotFoundError
  | Some bs =>
      match utf8_decode bs with
      | Decoded s => pret (universal_newlines s)
      | DecodeFailed => raise ValueError
      | DecodeUnmodelled => raise OutOfModel
      end
  end.

(** ** [save_json] and [load_json] *)

(** [save_json(json_data, json_file)] *)
Definition save_json (json_data : json) (json_file : string) (fs : files) : PyM files :=
  let fs' := write_text fs json_file (dump_indent4 json_data) in
  do print (MsgText ("Data saved to " ++ json_file));
  pret fs'.

(** [json.loads(s)] for a [str]. *)
Definition json_loads_text (s : string) : PyM json :=
  match loads_str s with
  | Loaded v => pret v
  | JSONDecodeError _ => raise DecodeError
  | _ => raise OutOfModel
  end.

(** [load_json(json_file)] *)
Definition load_json (json_file : string) (fs : files) : PyM json :=
  let* text := read_text fs json_file in
  json_loads_text text.

(** ** pandas' [to_json] *)

(** [Buffer_EscapeStringValidated] of ujson with [ensure_ascii]: the
    forward slash is escaped, [DEL] is written as it is. *)
Definition ujson_escape (c : ascii) : string :=
  let n := N_of_ascii c in
  if Ascii.eqb c quote then String backslash (String quote EmptyString)
  else if Ascii.eqb c backslash then String backslash (String backslash EmptyString)
  else if Ascii.eqb c "/" then String backslash (String "/" EmptyString)
  else if (n =? 8)%N then "\b"
  else if (n =? 12)%N then "\f"
  else if (n =? 10)%N then "\n"
  else if (n =? 13)%N then "\r"
  else if (n =? 9)%N then "\t"
  else if ((32 <=? n) && (n <=? 127))%N then String c EmptyString
  else String backslash (String "u" (String "0" (String "0"
         (String (hex_digit (n / 16)) (String (hex_digit (n mod 16)) EmptyString))))).

(** The layout of ujson's [encode] with [indent]: after [[] or [{] a
    line feed and the indentation of the next level, between items [,]
    and the same, before the closing bracket a line feed and the
    indentation of the level, after the colon nothing; an empty
    container gets both line feeds and the closing indentation. *)
Definition ujson_layout (indent : nat) : layout := {|
  lay_escape := ujson_escape;
  lay_open := fun level => String newline (spaces (indent * S level));
  lay_sep := fun level => String "," (String newline (spaces (indent * S level)));
  lay_close := fun level => String newline (spaces (indent * level));
  lay_key := ":";
  lay_empty := fun level => String newline (String newline (spaces (indent * level)))
|}.

(** The row of the result frame as [orient='records'] writes it. *)
Definition city_table (t : list (string * Z)) : json := JObj (map (fun cv => (fst cv, JInt (snd cv))) t).

Definition result_record (df : result) : json :=
  JObj [("average_age_per_city", city_table (average_age_per_city df));
        ("average_friends_per_city", city_table (average_friends_per_city df));
        ("person_with_most_friends", person_with_most_friends df);
        ("most_friends_count", JInt (Z.of_nat (most_friends_count df)));
        ("most_common_name_count", JInt (Z.of_nat (most_common_name_count df)));
        ("most_common_name_all_cities", most_common_name_all_cities df);
        ("most_common_hobby", most_common_hobby df);
        ("most_common_hobby_count", JInt (Z.of_nat (most_common_hobby_count df)))].

Definition to_json_records (df : result) : json := JArr [result_record df].

(** Every integer of a value fits [int64]. *)
Fixpoint json_int64 (v : json) : bool :=
  match v with
  | JInt z => (- 2 ^ 63 <=? z)%Z && (z <? 2 ^ 63)%Z
  | JArr l => forallb json_int64 l
  | JObj kvs => forallb (fun kv => json_int64 (snd kv)) kvs
  | _ => true
  end.

(** [df.to_json(path, orient='records', indent=4)] *)
Definition to_json (df : result) (path : string) (fs : files) : PyM files :=
  let v := to_json_records df in
  if json_int64 v then pret (write_text fs path (encode_json (ujson_layout 4) 0 v))
  else raise OutOfModel.

(** [save_dataframe_to_json(df, output_file)], [results_df] being the
    module global. *)
Definition save_dataframe_to_json (results_df : option result) (df : result) (output_file : string)
    (fs : files) : PyM files :=
  match results_df with
  | None => raise NameError
  | Some g =>
      let* fs' := to_json g output_file fs in
      do print (MsgText ("Results saved to " ++ output_file));
      pret fs'
  end.

(** ** Lemmas *)

(** A character written in text mode is read back as itself: checked
    on all 256 characters. *)
Lemma utf8_decode_encode_char c bs :
  utf8_decode (utf8_encode_char c ++ bs) = decoded_cons c (utf8_decode bs).
Proof. destruct c as [[] [] [] [] [] [] [] []]; reflexivity. Qed.

Lemma utf8_decode_encode s : utf8_decode (utf8_encode s) = Decoded s.
Proof.
  induction s as [|c s IH]; [reflexivity|]. cbn [utf8_encode].
  rewrite utf8_decode_encode_char, IH. reflexivity.
Qed.

Definition no_cr (c : ascii) : bool := negb (Ascii.eqb c carriage_return).

Lemma universal_newlines_id s : all_chars no_cr s = true -> universal_newlines s = s.
Proof.
  induction s as [|c s IH]; [reflexivity|]. cbn. unfold no_cr.
  intros [Hc Hs]%andb_true_iff. apply negb_true_iff in Hc. rewrite Hc, IH by done. reflexivity.
Qed.

Lemma printable_no_cr c : printable c = true -> no_cr c = true.
Proof. intros Hc. unfold no_cr. destruct (Ascii.eqb_spec c carriage_return) as [->|]; [discriminate|done]. Qed.

Lemma spaces_chars (p : ascii -> bool) n : p " "%char = true -> all_chars p (spaces n) = true.
Proof. intros Hp. induction n as [|n IH]; [reflexivity|]. cbn. by rewrite Hp, IH. Qed.

Lemma newline_spaces_no_cr n : all_chars no_cr (String newline (spaces n)) = true.
Proof. cbn [all_chars]. by rewrite spaces_chars. Qed.

Lemma newline_spaces_ws n : all_chars is_ws (String newline (spaces n)) = true.
Proof. cbn [all_chars]. by rewrite spaces_ws. Qed.

(** Reading back a file written in text mode, without a carriage
    return, gives the text. *)
Lemma read_text_write_text fs path text :
  all_chars no_cr text = true -> read_text (write_text fs path text) path = pret text.
Proof.
  intros Hcr. unfold read_text, write_text. rewrite lookup_insert_eq, utf8_decode_encode.
  by rewrite universal_newlines_id.
Qed.

Lemma dump_indent4_no_cr v : all_chars no_cr (dump_indent4 v) = true.
Proof.
  apply encode_json_chars; cbn [py_layout lay_escape lay_open lay_sep lay_close lay_empty lay_key newline_indent];
    intros; try reflexivity.
  - by apply printable_no_cr.
  - eapply all_chars_mono; [apply printable_no_cr|apply escape_char_printable].
  - apply newline_spaces_no_cr.
  - apply newline_spaces_no_cr.
  - apply newline_spaces_no_cr.
Qed.

Lemma ujson_escape_no_cr c : all_chars no_cr (ujson_escape c) = true.
Proof. destruct c as [[] [] [] [] [] [] [] []]; reflexivity. Qed.

Lemma ujson_no_cr k v : all_chars no_cr (encode_json (ujson_layout k) 0 v) = true.
Proof.
  apply encode_json_chars; cbn [ujson_layout lay_escape lay_open lay_sep lay_close lay_empty lay_key];
    intros; try reflexivity.
  - by apply printable_no_cr.
  - apply ujson_escape_no_cr.
  - apply newline_spaces_no_cr.
  - cbn [all_chars]. apply newline_spaces_no_cr.
  - apply newline_spaces_no_cr.
  - cbn [all_chars]. apply newline_spaces_no_cr.
Qed.

(** ujson's escapes are read back by the scanner: checked on all 256
    characters. *)
Lemma scanstring_ujson_escape b c x X :
  scanstring b (ujson_escape c ++ String x X) = scan_cons c (scanstring b (String x X)).
Proof. destruct c as [[] [] [] [] [] [] [] []]; reflexivity. Qed.

#[export] Instance ujson_layout_ok k : LayoutOk (ujson_layout k).
Proof.
  split; cbn [ujson_layout lay_escape lay_open lay_close lay_empty lay_sep lay_key].
  - apply scanstring_ujson_escape.
  - intros. apply newline_spaces_ws.
  - intros. apply newline_spaces_ws.
  - intros. cbn [all_chars]. apply newline_spaces_ws.
  - intros l. eexists. split; [reflexivity|]. apply newline_spaces_ws.
  - exists EmptyString. split; reflexivity.
Qed.

Lemma json_loads_text_ok s v : loads_str s = Loaded v -> json_loads_text s = pret v.
Proof. unfold json_loads_text. by intros ->. Qed.

Lemma to_json_write g out fs :
  json_int64 (to_json_records g) = true ->
  to_json g out fs = pret (write_text fs out (encode_json (ujson_layout 4) 0 (to_json_records g))).
Proof. unfold to_json. by intros ->. Qed.

(** [save_dataframe_to_json] changes no file but the one it is given. *)
Lemma save_dataframe_to_json_frame gl df p fs out fs' :
  save_dataframe_to_json gl df p fs = (out, Ret fs') -> forall q, q <> p -> fs' !! q = fs !! q.
Proof.
  destruct gl as [g|]; [|discriminate]. cbn [save_dataframe_to_json]. unfold to_json.
  destruct (json_int64 (to_json_records g)); [|discriminate].
  intros [= _ <-] q Hq. unfold write_text. rewrite ?lookup_insert_ne by congruence. reflexivity.
Qed.

(** A file of pandas' layout is read back by [load_json]. *)
Lemma load_json_ujson v out fs :
  json_wfb v = true -> load_json out (write_text fs out (encode_json (ujson_layout 4) 0 v)) = pret v.
Proof.
  intros Hwf. unfold load_json. rewrite read_text_write_text by apply ujson_no_cr. cbn [pbind pret].
  rewrite (json_loads_text_ok _ v) by (apply loads_str_encode; [apply _|exact Hwf]). reflexivity.
Qed.

(** ** The records of a result are a Python value *)

Lemma hashable_wf j : py_hashable j = true -> json_wfb j = true.
Proof. by destruct j. Qed.

Lemma city_table_wf t : NoDup (map fst t) -> json_wfb (city_table t) = true.
Proof.
  intros Hnd. unfold city_table. apply json_wfb_obj. split.
  - rewrite map_map. exact Hnd.
  - clear Hnd. induction t as [|[c z] t IH]; [reflexivity|]. exact IH.
Qed.

(** The row [aggregate] returns has distinct keys throughout. *)
Lemma aggregate_records_wf ps out res :
  aggregate ps = (out, Ret res) -> json_wfb (to_json_records res) = true.
Proof.
  intros (Ha & Hf & Hp & Hn & Hh)%aggregate_result_shape.
  unfold to_json_records. cbn [json_wfb forallb]. rewrite andb_true_r.
  apply json_wfb_obj. split; [cbn [map fst]; apply (bool_decide_unpack _); vm_compute; reflexivity|].
  cbn [forallb snd]. rewrite !city_table_wf, !hashable_wf by done. reflexivity.
Qed.

Lemma save_json_exits v p fs : exits_after (save_json v p fs).
Proof. unfold save_json. exits_tac. Qed.

Lemma load_json_exits p fs : exits_after (load_json p fs).
Proof. unfold load_json, read_text, json_loads_text. exits_tac. Qed.

Lemma save_dataframe_to_json_exits gl df p fs : exits_after (save_dataframe_to_json gl df p fs).
Proof. unfold save_dataframe_to_json, to_json. exits_tac. Qed.

#[export] Hint Resolve save_json_exits load_json_exits save_dataframe_to_json_exits : exits.

(** ** Theorems *)

(** C12: [load_json] reads back what [save_json] wrote: for every value
    whose dicts have distinct keys (every value Python holds),
    [save_json(v, path)] followed by [load_json(path)] prints the save
    message and returns [v]. *)
Theorem save_json_load_json v path fs :
  json_wfb v = true ->
  (let* fs' := save_json v path fs in load_json path fs') =
    ([MsgText ("Data saved to " ++ path)], Ret v).
Proof.
  intros Hwf. unfold save_json, load_json. cbn [pbind print pret].
  rewrite read_text_write_text by apply dump_indent4_no_cr. cbn [pbind pret].
  rewrite (json_loads_text_ok _ v) by (apply loads_str_iterencode, Hwf). reflexivity.
Qed.

(** C11: The round trip of the specification (section 8): the file
    [save_dataframe_to_json] writes is read back by [load_json] as the
    records of the result frame, field by field.  The frame written is
    the module global [results_df]; the [df] argument plays no part. *)
Theorem save_dataframe_to_json_reload g df out fs :
  json_wfb (to_json_records g) = true -> json_int64 (to_json_records g) = true ->
  (let* fs' := save_dataframe_to_json (Some g) df out fs in load_json out fs') =
    ([MsgText ("Results saved to " ++ out)], Ret (to_json_records g)).
Proof.
  intros Hwf H64. unfold save_dataframe_to_json. rewrite to_json_write by done.
  cbn [pbind print pret]. by rewrite load_json_ujson.
Qed.

(** ** Witnesses *)

Lemma save_json_load_json_witness :
  (let* fs' := save_json (JArr sample_records) "test/small.json" ∅ in load_json "test/small.json" fs') =
    ([MsgText ("Data saved to " ++ "test/small.json")], Ret (JArr sample_records)).
Proof. apply save_json_load_json. reflexivity. Defined.

(** Called with another frame, the function still writes the global. *)
Definition other_result : result := {|
  average_age_per_city := []; average_friends_per_city := [];
  person_with_most_friends := JStr "Z"; most_friends_count := 9;
  most_common_name_count := 9; most_common_name_all_cities := JStr "Z";
  most_common_hobby := JStr "golf"; most_common_hobby_count := 9 |}.

Lemma save_dataframe_to_json_reload_witness :
  (let* fs' := save_dataframe_to_json (Some sample_result) other_result "answer.json" ∅ in
   load_json "answer.json" fs') =
    ([MsgText ("Results saved to " ++ "answer.json")], Ret (to_json_records sample_result)).
Proof. apply save_dataframe_to_json_reload; reflexivity. Defined.
