(* ===== verification/Pipeline.v ===== *)
(** * The script: [if __name__ == "__main__":] ([src/task.py] lines 175-188)

    The run fetches the feed with [get_data(demo_url)], hands the result
    to [process_json] without looking at it ([main], lines 176-184),
    binds the result to the module global [results_df] (line 184),
    prints it ([print_results], line 185) and writes it to
    [answer.json] ([save_dataframe_to_json], line 188, which reads the
    global).  [run_script] is the whole block on the response, with the
    file system as explicit state, and [script] the block from
    [get_data(demo_url)], for any [Transport] instance.  The theorems compose the parts: the pipeline is
    [process_json] of the decoded lines, the failure paths end with
    their exit statuses, and a run that returns prints the report and
    leaves in [answer.json] a file that [load_json] reads back as the
    records of the result, and no other file is changed. *)

From S2P Require Import Prelude Json Source Loads Frame Aggregate Report Persistence.

Section Pipeline.
Context `{JsonDecoder}.

Definition main (r : response) : PyM result :=
  let* json_data := get_data r in
  let* results_df := process_json json_data in
  pret results_df.

Definition json_output_file : string := "answer.json".

(** The global of line 18. *)
Definition demo_url : string := "http://test.brightsign.io:3000/".

(** Lines 175-188: [results_df] is the global that
    [save_dataframe_to_json] reads. *)
Definition run_script (r : response) (fs : files) : PyM files :=
  let* json_data := get_data r in
  let* results_df := process_json json_data in
  do print_results results_df;
  save_dataframe_to_json (Some results_df) results_df json_output_file fs.

(** Lines 175-188 with the request of line 27: [get_data(demo_url)]
    first asks [requests.get] for the response. *)
Definition script `{Transport} (fs : files) : PyM files :=
  let* json_data := get_data_url demo_url in
  let* results_df := process_json json_data in
  do print_results results_df;
  save_dataframe_to_json (Some results_df) results_df json_output_file fs.

End Pipeline.

Section PipelineLemmas.
Context `{JsonDecoder}.

Lemma get_data_200 r :
  status_code r = 200%Z ->
  get_data r = (let* objs := decode_loop [] (iter_lines r) in pret (Some objs)).
Proof. intros Hs. unfold get_data. by rewrite Hs. Qed.

Lemma run_script_main r fs :
  run_script r fs =
    let* res := main r in
    do print_results res;
    save_dataframe_to_json (Some res) res json_output_file fs.
Proof.
  unfold run_script, main. rewrite pbind_assoc. apply pbind_ext. intros d.
  rewrite pbind_assoc. apply pbind_ext. intros res. by rewrite pbind_ret_l.
Qed.

(** Once [requests.get] has returned, the script is [run_script]. *)
Lemma script_responded `{Transport} r fs : http_get demo_url = Responded r -> script fs = run_script r fs.
Proof. intros Hr. unfold script, get_data_url, requests_get. rewrite Hr, ?pbind_ret_l. reflexivity. Qed.

Lemma main_ret r out res : main r = (out, Ret res) -> exists ps o, aggregate ps = (o, Ret res).
Proof.
  unfold main. intros Hm. apply pbind_ret_inv in Hm as (o1 & d & o2 & _ & Hm & _).
  apply pbind_ret_inv in Hm as (o3 & res' & o4 & Hp & Hm & _). injection Hm as _ <-.
  by apply process_json_ret in Hp.
Qed.

End PipelineLemmas.

(** ** Theorems *)

Section PipelineTheorems.
Context `{JsonDecoder}.

(** C34: When every non-empty line of a successful response decodes, the run
    is [process_json] on the decoded records, in line order. *)
Theorem main_pipeline r vs :
  status_code r = 200%Z ->
  Forall2 (fun l v => json_loads l = Loaded v) (List.filter nonblank (iter_lines r)) vs ->
  main r = process_json (Some vs).
Proof.
  intros Hs Hv. unfold main. rewrite get_data_200 by done.
  apply decode_loop_ok in Hv. rewrite Hv. change (([] : list msg), Ret vs) with (pret vs).
  rewrite (pbind_ret_l vs), (pbind_ret_l (Some vs)), pbind_ret_r. reflexivity.
Qed.

(** C35: Both failures of the transport end the run with exit status 1
    and write no file: an exception of [requests.get] escapes
    [get_data] with nothing printed, and a status other than 200 is
    reported, after which [process_json(None)] crashes in
    [json_normalize] with [NotImplementedError]. *)
Theorem script_transport_error `{Transport} fs :
  (forall r, http_get demo_url = Responded r -> status_code r <> 200%Z) ->
  script fs = (match http_get demo_url with
               | RequestFailed => ([], Raise RequestException)
               | Responded r => ([MsgRequestFailed (status_code r)], Raise NotImplementedError)
               end) /\
  exit_status (snd (script fs)) = 1%Z.
Proof.
  intros Hh. unfold script, get_data_url, requests_get.
  destruct (http_get demo_url) as [r|]; [|split; reflexivity].
  rewrite pbind_ret_l. unfold get_data.
  rewrite (proj2 (Z.eqb_neq _ _) (Hh r eq_refl)). split; reflexivity.
Qed.

(** C36: The script calls [exit] only as [exit(-1)], and only right
    after printing a JSON decoding error or the message that the frame
    check failed; every other failure is an uncaught exception.  So a
    run ends with status 0, 1 or 255, and status 255 does not tell a
    line that is not JSON from a refused record set. *)
Theorem script_exit_paths `{Transport} fs :
  (forall out c, script fs = (out, Exit c) ->
     c = (-1)%Z /\ exists out' m, out = out' ++ [m] /\
       (m = MsgCheckFailed \/ exists e, m = MsgDecodeError e)) /\
  (exit_status (snd (script fs)) = 0%Z \/ exit_status (snd (script fs)) = 1%Z \/
   exit_status (snd (script fs)) = 255%Z).
Proof.
  assert (Hx : exits_after (script fs)).
  { unfold script. exits_tac. }
  split; [exact Hx|].
  destruct (script fs) as [out [a|c|e]]; cbn [snd exit_status]; auto.
  destruct (Hx out c eq_refl) as [-> _]. auto.
Qed.

(** C16: A run that computes a result prints the diagnostics of [main], the
    report, and the save message, and leaves in [answer.json] a file
    that [load_json] reads back as the records of that result; only an
    integer beyond [int64], which the model does not follow into
    pandas, is excluded. *)
Theorem run_script_persists r fs out res :
  main r = (out, Ret res) -> json_int64 (to_json_records res) = true ->
  exists fs',
    run_script r fs =
      (out ++ map MsgText (report_lines res) ++ [MsgText ("Results saved to " ++ json_output_file)%string],
       Ret fs') /\
    load_json json_output_file fs' = pret (to_json_records res).
Proof.
  intros Hm H64. pose proof Hm as (ps & o & Hwf%aggregate_records_wf)%main_ret.
  rewrite run_script_main, Hm.
  eexists. split.
  - cbn [pbind save_dataframe_to_json]. rewrite print_results_lines, to_json_write by done.
    cbn [pbind print pret]. rewrite app_nil_l, app_nil_r. reflexivity.
  - by apply load_json_ujson.
Qed.

(** C37: The script writes no file but [answer.json]: whatever the
    network answers, a run that completes leaves every other path of
    the file system as it found it. *)
Theorem script_writes_only_answer `{Transport} fs out fs' :
  script fs = (out, Ret fs') -> forall path, path <> json_output_file -> fs' !! path = fs !! path.
Proof.
  unfold script. intros Hs.
  apply pbind_ret_inv in Hs as (o1 & d & o2 & _ & Hs & _).
  apply pbind_ret_inv in Hs as (o3 & res & o4 & _ & Hs & _).
  apply pbind_ret_inv in Hs as (o5 & [] & o6 & _ & Hs & _).
  exact (save_dataframe_to_json_frame _ _ _ _ _ _ Hs).
Qed.

End PipelineTheorems.

(** ** Witnesses *)

Lemma main_pipeline_witness : @main sample_loads sample_ok = process_json (Some [JInt 1; JInt 1]).
Proof. apply (@main_pipeline sample_loads); [reflexivity|repeat constructor]. Defined.

(** A server that answers [404 Not Found]. *)
Definition not_found : Transport := fun _ => Responded {| status_code := 404; chunks := [] |}.

Lemma script_transport_error_witness :
  @script sample_loads not_found ∅ = ([MsgRequestFailed 404], Raise NotImplementedError) /\
  exit_status (snd (@script sample_loads not_found ∅)) = 1%Z.
Proof. apply (@script_transport_error sample_loads not_found). intros r [= <-]. discriminate. Defined.

(** A server whose second line is a space: the run exits with 255
    right after the decoding error. *)
Definition space_server : Transport := fun _ => Responded sample_space.

Lemma script_exit_paths_witness :
  exists out' m, fst (@script sample_loads space_server ∅) = out' ++ [m] /\
    (m = MsgCheckFailed \/ exists e, m = MsgDecodeError e).
Proof.
  destruct (proj1 (@script_exit_paths sample_loads space_server ∅) (fst (@script sample_loads space_server ∅)) (-1)%Z)
    as [_ Hm];
    [vm_compute; reflexivity|exact Hm].
Defined.

(** The two records of [sample_ok] are numbers, not objects: they become
    rows without any column, the frame is empty and the run stops with
    "no data", exit status 255. *)
Example records_not_objects_no_data :
  @main sample_loads sample_ok = ([MsgEmpty; MsgCheckFailed], Exit (-1)%Z).
Proof. vm_compute. reflexivity. Qed.

(** The fixture of the specification as a feed written by
    [json.dumps], read by the real decoder: the run prints the report
    and [answer.json] reloads as the records of the expected result. *)
Definition sample_feed : response := {| status_code := 200; chunks := [ndjson_feed sample_records] |}.

Lemma run_script_persists_witness :
  exists fs',
    @run_script py_json_loads sample_feed ∅ =
      ([MsgAllColumns] ++ map MsgText (report_lines sample_result) ++
       [MsgText ("Results saved to " ++ json_output_file)%string], Ret fs') /\
    load_json json_output_file fs' = pret (to_json_records sample_result).
Proof.
  apply (@run_script_persists py_json_loads sample_feed ∅ [MsgAllColumns] sample_result);
    [vm_compute; reflexivity|reflexivity].
Defined.

(** The server sends the fixture feed; the run keeps the input file
    it finds beside [answer.json]. *)
Definition fixture_server : Transport := fun _ => Responded sample_feed.

Definition sample_fs : files := <["input.json" := [Byte.x7b; Byte.x7d]]> ∅.

Lemma script_writes_only_answer_witness :
  exists out fs',
    @script py_json_loads fixture_server sample_fs = (out, Ret fs') /\
    fs' !! "input.json" = Some [Byte.x7b; Byte.x7d].
Proof.
  destruct (@script py_json_loads fixture_server sample_fs) as [out o] eqn:E.
  assert (Ho : exists fs', o = Ret fs') by (vm_compute in E; injection E as _ <-; eexists; reflexivity).
  destruct Ho as [fs' ->]. exists out, fs'. split; [reflexivity|].
  rewrite (@script_writes_only_answer py_json_loads fixture_server _ _ _ E "input.json"); [reflexivity|discriminate].
Defined.
